(** * TalentScout hiring assistant (app.py): the conversation engine

    A shallow embedding of the turn handler of [app.py], of the validators
    of [DATA_STEPS], of the helpers that talk to the language model and of
    the session-state initialisation, followed by the properties of the
    conversation state machine.

    Modelling conventions.
    - A Python [str] is a [string]; its characters are the 8-bit [ascii]
      symbols.  Python's character classes are given on the ASCII range;
      a symbol above 127 is an opaque symbol: no whitespace, no letter, no
      digit, unchanged by [lower].  Pictographs of the literals appear as
      their UTF-8 bytes.
    - [st.session_state] is a finite map from keys to values; the turn
      handler works on the record [State] that reads the eight keys.
    - The Groq client is an oracle [chat] from a request to a reply; a
      reply is an exception, a missing content or a text.
    - An uncaught Python exception is the [Raise] result. *)

From Stdlib Require Import ZArith Ascii String Bool List DecimalString SpecFloat.
From stdpp Require Import base option list gmap strings fin_maps.

Open Scope Z_scope.

(** ** Python [str] operations *)

Module Py.

(** Characters that literals cannot hold. *)
Definition chr (n : nat) : string := String (ascii_of_nat n) EmptyString.
Definition dq : string := chr 34.
Definition nl : string := chr 10.

Definition code (c : ascii) : nat := nat_of_ascii c.

Definition between (lo hi : nat) (c : ascii) : bool :=
  (lo <=? code c)%nat && (code c <=? hi)%nat.

(** [c.isspace()]: tab, line feed, vertical tab, form feed, carriage return,
    the four separators 28..31 and the space. *)
Definition isspace (c : ascii) : bool :=
  between 9 13 c || between 28 32 c.

Definition isupper (c : ascii) : bool := between 65 90 c.
Definition islower (c : ascii) : bool := between 97 122 c.
Definition isalpha_char (c : ascii) : bool := isupper c || islower c.
(** The class [\d] and the class [[0-9]]. *)
Definition isdigit (c : ascii) : bool := between 48 57 c.

Definition lower_char (c : ascii) : ascii :=
  if isupper c then ascii_of_nat (code c + 32) else c.
Definition upper_char (c : ascii) : ascii :=
  if islower c then ascii_of_nat (code c - 32) else c.

Fixpoint map_chars (f : ascii -> ascii) (s : string) : string :=
  match s with
  | EmptyString => EmptyString
  | String c s' => String (f c) (map_chars f s')
  end.

Fixpoint all_chars (p : ascii -> bool) (s : string) : bool :=
  match s with
  | EmptyString => true
  | String c s' => p c && all_chars p s'
  end.

Fixpoint filter_chars (p : ascii -> bool) (s : string) : string :=
  match s with
  | EmptyString => EmptyString
  | String c s' => if p c then String c (filter_chars p s') else filter_chars p s'
  end.

Definition is_empty (s : string) : bool :=
  match s with EmptyString => true | String _ _ => false end.

(** The truth value of a [str]. *)
Definition truthy (s : string) : bool := negb (is_empty s).

(** [s.lower()] *)
Definition lower (s : string) : string := map_chars lower_char s.

(** [s.isalpha()]: every character is a letter and there is at least one. *)
Definition isalpha (s : string) : bool := truthy s && all_chars isalpha_char s.

(** [s.lstrip()], [s.rstrip()] and [s.strip()] *)
Fixpoint lstrip (s : string) : string :=
  match s with
  | EmptyString => EmptyString
  | String c s' => if isspace c then lstrip s' else s
  end.

Fixpoint rstrip (s : string) : string :=
  match s with
  | EmptyString => EmptyString
  | String c s' =>
      let r := rstrip s' in
      if isspace c && is_empty r then EmptyString else String c r
  end.

Definition strip (s : string) : string := rstrip (lstrip s).

(** [s.split(sep)] for a one-character separator class: the pieces between
    separators, empty pieces included; never the empty list. *)
Fixpoint split_by (sep : ascii -> bool) (s : string) : list string :=
  match s with
  | EmptyString => [EmptyString]
  | String c s' =>
      if sep c then EmptyString :: split_by sep s'
      else match split_by sep s' with
           | t :: ts => String c t :: ts
           | [] => [String c EmptyString]
           end
  end.

Definition is_char (a c : ascii) : bool := Ascii.eqb a c.

(** [s.split(c)] *)
Definition split_on (c : ascii) (s : string) : list string := split_by (is_char c) s.

(** [s.split()]: runs of whitespace separate, no empty piece is kept. *)
Definition split (s : string) : list string :=
  List.filter truthy (split_by isspace s).

(** [s.split(c, 1)]: cut at the first [c] only. *)
Fixpoint split1 (c : ascii) (s : string) : list string :=
  match s with
  | EmptyString => [EmptyString]
  | String a s' =>
      if is_char c a then [EmptyString; s']
      else match split1 c s' with
           | t :: ts => String a t :: ts
           | [] => [String a EmptyString]
           end
  end.

(** [s.replace(c, '')] and [s.replace(c, d)] for single characters. *)
Definition remove_char (c : ascii) (s : string) : string :=
  filter_chars (fun a => negb (is_char c a)) s.
Definition replace_char (c d : ascii) (s : string) : string :=
  map_chars (fun a => if is_char c a then d else a) s.

(** [s.title()]: a letter that follows a letter is lowered, any other
    letter is raised. *)
Fixpoint title_from (prev_cased : bool) (s : string) : string :=
  match s with
  | EmptyString => EmptyString
  | String c s' =>
      String (if prev_cased then lower_char c else upper_char c)
             (title_from (isalpha_char c) s')
  end.
Definition title (s : string) : string := title_from false s.

(** [sub in s] *)
Fixpoint startswith (p s : string) : bool :=
  match p, s with
  | EmptyString, _ => true
  | String a p', String b s' => is_char a b && startswith p' s'
  | String _ _, EmptyString => false
  end.

Fixpoint contains (sub s : string) : bool :=
  startswith sub s ||
  match s with
  | EmptyString => false
  | String _ s' => contains sub s'
  end.

(** [sep.join(l)] *)
Fixpoint join (sep : string) (l : list string) : string :=
  match l with
  | [] => EmptyString
  | [x] => x
  | x :: l' => x +:+ sep +:+ join sep l'
  end.

(** [str(n)] for an [int]. *)
Definition str_of_int (n : Z) : string := NilZero.string_of_int (Z.to_int n).

(** [any(w in s for w in words)] *)
Definition any_in (words : list string) (s : string) : bool :=
  existsb (fun w => contains w s) words.

End Py.

(** The relation behind [contains]: [sub] occurs inside [s]. *)
Definition occurs_in (sub s : string) : Prop :=
  exists pre post, s = pre +:+ sub +:+ post.

(** ** Regular expressions of the [re] module

    The patterns of the source use character classes, concatenation,
    repetition and an optional group.  Matching is by derivatives. *)

Module Re.

Inductive regex : Type :=
  | Void
  | Eps
  | Class (p : ascii -> bool)
  | Cat (r1 r2 : regex)
  | Alt (r1 r2 : regex)
  | Star (r : regex).

(** [r+], [(r)?] and [r{n,}] *)
Definition Plus (r : regex) : regex := Cat r (Star r).
Definition Opt (r : regex) : regex := Alt r Eps.
Fixpoint AtLeast (n : nat) (r : regex) : regex :=
  match n with
  | O => Star r
  | S k => Cat r (AtLeast k r)
  end.
Definition Chr (c : ascii) : regex := Class (Py.is_char c).
Definition AnyChar : regex := Class (fun _ => true).

Fixpoint nullable (r : regex) : bool :=
  match r with
  | Void => false
  | Eps => true
  | Class _ => false
  | Cat r1 r2 => nullable r1 && nullable r2
  | Alt r1 r2 => nullable r1 || nullable r2
  | Star _ => true
  end.

Fixpoint deriv (c : ascii) (r : regex) : regex :=
  match r with
  | Void => Void
  | Eps => Void
  | Class p => if p c then Eps else Void
  | Cat r1 r2 =>
      if nullable r1 then Alt (Cat (deriv c r1) r2) (deriv c r2)
      else Cat (deriv c r1) r2
  | Alt r1 r2 => Alt (deriv c r1) (deriv c r2)
  | Star r1 => Cat (deriv c r1) (Star r1)
  end.

(** The whole of [s] is a word of [r]. *)
Fixpoint fullmatch (r : regex) (s : string) : bool :=
  match s with
  | EmptyString => nullable r
  | String c s' => fullmatch (deriv c r) s'
  end.

Fixpoint ends_with_newline (s : string) : bool :=
  match s with
  | EmptyString => false
  | String c EmptyString => Py.is_char "010" c
  | String _ s' => ends_with_newline s'
  end.

Fixpoint drop_last (s : string) : string :=
  match s with
  | EmptyString => EmptyString
  | String _ EmptyString => EmptyString
  | String c s' => String c (drop_last s')
  end.

(** [re.match('^r$', s)]: [$] stands at the end of [s], or just before a
    line feed that ends [s]. *)
Definition match_anchored (r : regex) (s : string) : bool :=
  fullmatch r s || ends_with_newline s && fullmatch r (drop_last s).

(** [re.match('^r', s)]: some prefix of [s] is a word of [r]. *)
Definition match_prefix (r : regex) (s : string) : bool :=
  fullmatch (Cat r (Star AnyChar)) s.

(** The language of a pattern. *)
Inductive lang : regex -> string -> Prop :=
  | L_eps : lang Eps EmptyString
  | L_class p c : p c = true -> lang (Class p) (String c EmptyString)
  | L_cat r1 r2 s1 s2 : lang r1 s1 -> lang r2 s2 -> lang (Cat r1 r2) (s1 +:+ s2)
  | L_alt_l r1 r2 s : lang r1 s -> lang (Alt r1 r2) s
  | L_alt_r r1 r2 s : lang r2 s -> lang (Alt r1 r2) s
  | L_star_nil r : lang (Star r) EmptyString
  | L_star_cons r s1 s2 : lang r s1 -> lang (Star r) s2 -> lang (Star r) (s1 +:+ s2).

End Re.

(** ** Python [float] on the spellings the experience step admits

    [float(s)] is the binary64 number nearest to the decimal (ties to
    even), computed with the IEEE 754 specification of the standard
    library.  The spellings modelled are [digits] and [digits.digits]
    between optional whitespace; every other text is a [ValueError]
    here (signs, exponents, [inf], [nan] and underscores are not
    modelled). *)

Module Float.

Definition prec : Z := 53.
Definition emax : Z := 1024.

Definition of_Z (n : Z) : spec_float := binary_normalize prec emax n 0 false.

(** The binary64 number nearest to [n / d]. *)
Definition of_ratio (n d : Z) : spec_float :=
  match n, d with
  | Zpos pn, Zpos pd =>
      SFdiv prec emax (S754_finite false pn 0) (S754_finite false pd 0)
  | _, _ => S754_zero false
  end.

Definition digit_value (c : ascii) : Z := Z.of_nat (Py.code c) - 48.

Fixpoint digits_value (acc : Z) (s : string) : Z :=
  match s with
  | EmptyString => acc
  | String c s' => digits_value (10 * acc + digit_value c) s'
  end.

Definition is_digits (s : string) : bool :=
  Py.truthy s && Py.all_chars Py.isdigit s.

(** [float(s)]; [None] is the [ValueError]. *)
Definition parse (s : string) : option spec_float :=
  match Py.split1 "." (Py.strip s) with
  | [ip] =>
      if is_digits ip then Some (of_Z (digits_value 0 ip)) else None
  | [ip; fp] =>
      if is_digits ip && is_digits fp
      then Some (of_ratio (digits_value 0 (ip +:+ fp))
                          (10 ^ Z.of_nat (String.length fp)))
      else None
  | _ => None
  end.

(** [int(x)] for a finite [x]: the integer part. *)
Definition to_int (x : spec_float) : Z :=
  match x with
  | S754_finite sign m e =>
      let n := if 0 <=? e then Zpos m * 2 ^ e else Zpos m / 2 ^ (- e) in
      if sign then - n else n
  | _ => 0
  end.

Definition ltb (x y : spec_float) : bool := SFltb x y.
Definition leb (x y : spec_float) : bool := SFleb x y.
Definition eqb (x y : spec_float) : bool := SFeqb x y.

End Float.

(** ** Exceptions and Python sequences *)

Inductive exn : Type := KeyError | IndexError | ValueError | AttributeError.

Inductive result (A : Type) : Type :=
  | Ok (a : A)
  | Raise (e : exn).
Arguments Ok {A} a.
Arguments Raise {A} e.

#[global] Instance result_ret : MRet result := fun A a => Ok a.
#[global] Instance result_bind : MBind result := fun A B f m =>
  match m with
  | Ok a => f a
  | Raise e => Raise e
  end.

Definition of_option {A : Type} (e : exn) (o : option A) : result A :=
  match o with
  | Some a => Ok a
  | None => Raise e
  end.

(** The position an index denotes in a sequence of length [len]: a
    negative index counts from the end. *)
Definition norm_index (len i : Z) : option nat :=
  if (0 <=? i) && (i <? len) then Some (Z.to_nat i)
  else if (- len <=? i) && (i <? 0) then Some (Z.to_nat (len + i))
  else None.

(** [l[i]] and [l[i] = x] *)
Definition getitem {A : Type} (l : list A) (i : Z) : result A :=
  of_option IndexError (n ← norm_index (Z.of_nat (length l)) i; l !! n).

Definition setitem {A : Type} (l : list A) (i : Z) (x : A) : result (list A) :=
  of_option IndexError (n ← norm_index (Z.of_nat (length l)) i; Some (<[n:=x]> l)).

(** [dict[k]] on a dict written as its items. *)
Fixpoint lookup_key {A : Type} (k : Z) (d : list (Z * A)) : result A :=
  match d with
  | [] => Raise KeyError
  | (k', v) :: d' => if k =? k' then Ok v else lookup_key k d'
  end.

(** ** The data model *)

Inductive Phase : Type :=
  | GREETING | DATA_COLLECTION | DATA_CONFIRMATION
  | TECHNICAL_QUESTIONS | CONCLUSION | ENDED.

#[global] Instance Phase_eq_dec : EqDecision Phase.
Proof. solve_decision. Defined.

(** [CONVERSATION_PHASES]: the text each phase is stored as. *)
Definition CONVERSATION_PHASES (p : Phase) : string :=
  match p with
  | GREETING => "greeting"
  | DATA_COLLECTION => "data_collection"
  | DATA_CONFIRMATION => "data_confirmation"
  | TECHNICAL_QUESTIONS => "technical_questions"
  | CONCLUSION => "conclusion"
  | ENDED => "ended"
  end.

Definition EXIT_KEYWORDS : list string :=
  ["bye"; "goodbye"; "exit"; "quit"; "end"; "stop"; "finish"; "done";
   "thanks"; "thank you"].

(** The seven keys of [candidate_data], in the order of the dict. *)
Inductive Field : Type :=
  | Name | Email | Phone | Experience | Position | Location | TechStack.

#[global] Instance Field_eq_dec : EqDecision Field.
Proof. solve_decision. Defined.

Definition all_fields : list Field :=
  [Name; Email; Phone; Experience; Position; Location; TechStack].

Definition field_key (f : Field) : string :=
  match f with
  | Name => "name"
  | Email => "email"
  | Phone => "phone"
  | Experience => "experience"
  | Position => "position"
  | Location => "location"
  | TechStack => "tech_stack"
  end.

Record CandidateData : Type := mkCandidateData {
  cd_name : string;
  cd_email : string;
  cd_phone : string;
  cd_experience : string;
  cd_position : string;
  cd_location : string;
  cd_tech_stack : string
}.

(** [candidate_data[f]] *)
Definition get_field (f : Field) (d : CandidateData) : string :=
  match f with
  | Name => cd_name d
  | Email => cd_email d
  | Phone => cd_phone d
  | Experience => cd_experience d
  | Position => cd_position d
  | Location => cd_location d
  | TechStack => cd_tech_stack d
  end.

(** [candidate_data[f] = v] *)
Definition set_field (f : Field) (v : string) (d : CandidateData) : CandidateData :=
  match f with
  | Name => mkCandidateData v (cd_email d) (cd_phone d) (cd_experience d) (cd_position d) (cd_location d) (cd_tech_stack d)
  | Email => mkCandidateData (cd_name d) v (cd_phone d) (cd_experience d) (cd_position d) (cd_location d) (cd_tech_stack d)
  | Phone => mkCandidateData (cd_name d) (cd_email d) v (cd_experience d) (cd_position d) (cd_location d) (cd_tech_stack d)
  | Experience => mkCandidateData (cd_name d) (cd_email d) (cd_phone d) v (cd_position d) (cd_location d) (cd_tech_stack d)
  | Position => mkCandidateData (cd_name d) (cd_email d) (cd_phone d) (cd_experience d) v (cd_location d) (cd_tech_stack d)
  | Location => mkCandidateData (cd_name d) (cd_email d) (cd_phone d) (cd_experience d) (cd_position d) v (cd_tech_stack d)
  | TechStack => mkCandidateData (cd_name d) (cd_email d) (cd_phone d) (cd_experience d) (cd_position d) (cd_location d) v
  end.

(** [candidate_data.items()] *)
Definition items (d : CandidateData) : list (string * string) :=
  map (fun f => (field_key f, get_field f d)) all_fields.

Definition empty_candidate_data : CandidateData :=
  mkCandidateData EmptyString EmptyString EmptyString EmptyString
                  EmptyString EmptyString EmptyString.

Inductive Role : Type := system | user | assistant.

Record Message : Type := mkMessage { role : Role; content : string }.

(** ** The language-model client *)

(** The keyword arguments of [client.chat.completions.create]; the
    temperature is kept as its decimal literal. *)
Record Request : Type := mkRequest {
  req_messages : list Message;
  req_model : string;
  req_max_tokens : Z;
  req_temperature : string;
  req_json_object : bool
}.

(** What the call and [response.choices[0].message.content] give: an
    exception, [None], or a text. *)
Inductive Reply : Type :=
  | Raised
  | NoContent
  | Content (text : string).

Definition Client : Type := Request -> Reply.

(** The text of a reply where the source calls a [str] method on it: a
    missing content raises there, inside the [try]. *)
Definition content_text (r : Reply) : option string :=
  match r with
  | Content t => Some t
  | _ => None
  end.

Definition MODEL : string := "llama3-8b-8192".

(** What [json.loads] gives for a text it decodes: an object, read
    through the text that the reply prints for each of its values, or a
    JSON value of another kind (a list, a number, a string, a boolean or
    null). *)
Inductive Json : Type :=
  | JObject (fields : gmap string string)
  | JOther.

(** [evaluation.get]: only a [dict] has the method. *)
Definition dict_of (evaluation : Json) : result (gmap string string) :=
  match evaluation with
  | JObject fields => Ok fields
  | JOther => Raise AttributeError
  end.

(** ** The validators *)

(** [validate_text_input_with_ai] *)
Definition validate_text_input_with_ai
    (chat : Client) (user_input field_name : string) : bool :=
  let system_prompt :=
    "You are a strict data validation assistant. A user has provided the following " +:+
    "input for a '" +:+ field_name +:+ "' field: " +:+ Py.dq +:+ user_input +:+ Py.dq +:+ "." +:+
    Py.nl +:+ "Is this a plausible, real-world '" +:+ field_name +:+
    "'? The input should not be gibberish or nonsensical like 'asdfg' or 'gskgjk'." +:+ Py.nl +:+
    "Respond with only a single word: 'yes' or 'no'." in
  let response :=
    chat (mkRequest [mkMessage system system_prompt] MODEL 5 "0.0" false) in
  match content_text response with
  | Some text =>
      let decision := Py.lower (Py.strip text) in
      Py.contains "yes" decision
  | None => 2 <? Z.of_nat (String.length user_input)
  end.

(** [[a-zA-Z0-9._%+-]], [[a-zA-Z0-9.-]] and [[a-zA-Z]] *)
Definition email_local_char (c : ascii) : bool :=
  Py.isalpha_char c || Py.isdigit c ||
  Py.is_char "." c || Py.is_char "_" c || Py.is_char "%" c ||
  Py.is_char "+" c || Py.is_char "-" c.
Definition email_domain_char (c : ascii) : bool :=
  Py.isalpha_char c || Py.isdigit c || Py.is_char "." c || Py.is_char "-" c.

(** [[a-zA-Z0-9._%+-]+@[a-zA-Z0-9.-]+\.[a-zA-Z]{2,}] *)
Definition EMAIL_RE : Re.regex :=
  Re.Cat (Re.Plus (Re.Class email_local_char))
    (Re.Cat (Re.Chr "@")
       (Re.Cat (Re.Plus (Re.Class email_domain_char))
          (Re.Cat (Re.Chr ".") (Re.AtLeast 2 (Re.Class Py.isalpha_char))))).

(** [\d+(\.\d+)?] *)
Definition EXPERIENCE_RE : Re.regex :=
  Re.Cat (Re.Plus (Re.Class Py.isdigit))
         (Re.Opt (Re.Cat (Re.Chr ".") (Re.Plus (Re.Class Py.isdigit)))).

(** [\d\.] *)
Definition NUMBERED_RE : Re.regex := Re.Cat (Re.Class Py.isdigit) (Re.Chr ".").

Definition validate_name (x : string) : bool :=
  (2 <=? Z.of_nat (length (Py.split (Py.strip x)))) &&
  forallb (fun part => Py.isalpha (Py.remove_char "'" (Py.remove_char "-" part)))
          (Py.split (Py.strip x)).

Definition validate_email (x : string) : bool :=
  Re.match_anchored EMAIL_RE (Py.strip x).

Definition validate_phone (x : string) : bool :=
  10 <=? Z.of_nat (String.length (Py.filter_chars Py.isdigit x)).

(** [0 <= float(t) <= 50] *)
Definition experience_in_range (t : string) : bool :=
  match Float.parse t with
  | Some v => Float.leb (Float.of_Z 0) v && Float.leb v (Float.of_Z 50)
  | None => false
  end.

Definition validate_experience (x : string) : bool :=
  Re.match_anchored EXPERIENCE_RE (Py.strip x) && experience_in_range (Py.strip x).

(** An entry of [DATA_STEPS]. *)
Record DataStep : Type := mkDataStep {
  field : Field;
  prompt_text : string;
  validation : Client -> string -> bool;
  error_msg : string
}.

Definition STEP_NAME : DataStep :=
  mkDataStep Name "What's your full name?"
    (fun _ x => validate_name x)
    "Please provide your complete full name (first and last name).".
Definition STEP_EMAIL : DataStep :=
  mkDataStep Email "Could you please share your email address?"
    (fun _ x => validate_email x)
    "Please provide a valid email address.".
Definition STEP_PHONE : DataStep :=
  mkDataStep Phone "What's your phone number?"
    (fun _ x => validate_phone x)
    "Please provide a valid phone number with at least 10 digits.".
Definition STEP_EXPERIENCE : DataStep :=
  mkDataStep Experience "How many years of professional experience do you have?"
    (fun _ x => validate_experience x)
    "Please provide your experience in years (e.g., 2, 3.5, 0 for fresher).".
Definition STEP_POSITION : DataStep :=
  mkDataStep Position "What position are you interested in applying for?"
    (fun chat x => validate_text_input_with_ai chat x "Job Position")
    "Please provide a valid and clear job position.".
Definition STEP_LOCATION : DataStep :=
  mkDataStep Location
    "What's your preferred work location? (or are you open to remote work?)"
    (fun chat x => validate_text_input_with_ai chat x "Work Location")
    "Please provide a valid location or specify 'remote'.".
Definition STEP_TECH_STACK : DataStep :=
  mkDataStep TechStack
    "What programming languages, frameworks, and technologies are you proficient in?"
    (fun chat x => validate_text_input_with_ai chat x "Technology Stack")
    "Please list the technical skills you are proficient in.".

Definition DATA_STEPS : list (Z * DataStep) :=
  [(1, STEP_NAME); (2, STEP_EMAIL); (3, STEP_PHONE); (4, STEP_EXPERIENCE);
   (5, STEP_POSITION); (6, STEP_LOCATION); (7, STEP_TECH_STACK)].

(** ** Session state *)

Record State : Type := mkState {
  candidate_data : CandidateData;
  current_step : Z;
  conversation_phase : Phase;
  technical_questions : list string;
  technical_answers : list string;
  current_question_index : Z;
  retry_count : Z;
  messages : list Message
}.

Definition with_candidate_data (d : CandidateData) (s : State) : State :=
  mkState d (current_step s) (conversation_phase s) (technical_questions s)
          (technical_answers s) (current_question_index s) (retry_count s) (messages s).
Definition with_current_step (n : Z) (s : State) : State :=
  mkState (candidate_data s) n (conversation_phase s) (technical_questions s)
          (technical_answers s) (current_question_index s) (retry_count s) (messages s).
Definition with_conversation_phase (p : Phase) (s : State) : State :=
  mkState (candidate_data s) (current_step s) p (technical_questions s)
          (technical_answers s) (current_question_index s) (retry_count s) (messages s).
Definition with_technical_questions (q : list string) (s : State) : State :=
  mkState (candidate_data s) (current_step s) (conversation_phase s) q
          (technical_answers s) (current_question_index s) (retry_count s) (messages s).
Definition with_technical_answers (a : list string) (s : State) : State :=
  mkState (candidate_data s) (current_step s) (conversation_phase s) (technical_questions s)
          a (current_question_index s) (retry_count s) (messages s).
Definition with_current_question_index (i : Z) (s : State) : State :=
  mkState (candidate_data s) (current_step s) (conversation_phase s) (technical_questions s)
          (technical_answers s) i (retry_count s) (messages s).
Definition with_messages (m : list Message) (s : State) : State :=
  mkState (candidate_data s) (current_step s) (conversation_phase s) (technical_questions s)
          (technical_answers s) (current_question_index s) (retry_count s) m.

(** [st.session_state.messages.append({"role": r, "content": c})] *)
Definition append_message (r : Role) (c : string) (s : State) : State :=
  with_messages (messages s ++ [mkMessage r c]) s.

(** The values [st.session_state] holds under its keys. *)
Inductive Value : Type :=
  | VDict (d : CandidateData)
  | VInt (n : Z)
  | VStr (t : string)
  | VStrList (l : list string)
  | VMessages (l : list Message).

(** [if key not in st.session_state: st.session_state.key = v] *)
Definition init_key (key : string) (v : Value) (ss : gmap string Value) : gmap string Value :=
  match ss !! key with
  | Some _ => ss
  | None => <[key := v]> ss
  end.

Definition initialize_session_state (ss : gmap string Value) : gmap string Value :=
  let ss := init_key "candidate_data" (VDict empty_candidate_data) ss in
  let ss := init_key "current_step" (VInt 1) ss in
  let ss := init_key "conversation_phase" (VStr (CONVERSATION_PHASES GREETING)) ss in
  let ss := init_key "technical_questions" (VStrList []) ss in
  let ss := init_key "technical_answers" (VStrList []) ss in
  let ss := init_key "current_question_index" (VInt 0) ss in
  let ss := init_key "retry_count" (VInt 0) ss in
  init_key "messages" (VMessages []) ss.

(** The reset button: [for key in list(st.session_state.keys()): del
    st.session_state[key]]; the rerun that follows starts the script
    again, which initialises the state. *)
Definition delete_all_keys (ss : gmap string Value) : gmap string Value :=
  foldl (fun m key => delete key m) ss (fst <$> map_to_list ss).

Definition start_new_session (ss : gmap string Value) : gmap string Value :=
  initialize_session_state (delete_all_keys ss).

Definition phase_of_name (t : string) : option Phase :=
  List.find (fun p => String.eqb (CONVERSATION_PHASES p) t)
    [GREETING; DATA_COLLECTION; DATA_CONFIRMATION; TECHNICAL_QUESTIONS; CONCLUSION; ENDED].

(** The eight attributes the turn handler reads, as a record. *)
Definition read_state (ss : gmap string Value) : option State :=
  match ss !! "candidate_data", ss !! "current_step", ss !! "conversation_phase",
        ss !! "technical_questions", ss !! "technical_answers",
        ss !! "current_question_index", ss !! "retry_count", ss !! "messages" with
  | Some (VDict d), Some (VInt n), Some (VStr p), Some (VStrList q),
    Some (VStrList a), Some (VInt i), Some (VInt r), Some (VMessages m) =>
      ph ← phase_of_name p; Some (mkState d n ph q a i r m)
  | _, _, _, _, _, _, _, _ => None
  end.

Definition write_state (s : State) : gmap string Value :=
  <["candidate_data" := VDict (candidate_data s)]>
  (<["current_step" := VInt (current_step s)]>
  (<["conversation_phase" := VStr (CONVERSATION_PHASES (conversation_phase s))]>
  (<["technical_questions" := VStrList (technical_questions s)]>
  (<["technical_answers" := VStrList (technical_answers s)]>
  (<["current_question_index" := VInt (current_question_index s)]>
  (<["retry_count" := VInt (retry_count s)]>
  (<["messages" := VMessages (messages s)]> ∅))))))).

(** ** The helpers around the client and the turn handler *)

Section Engine.

(** The text Python prints for a float inside an f-string, and
    [json.loads] on the content of a reply requested as a JSON object:
    [None] when decoding raises, otherwise the members of the object, a
    value being kept as the text an f-string prints for it.  Both belong
    to the Python library. *)
Variable float_repr : spec_float -> string.
Variable json_loads : string -> option Json.

(** ["entry-level" if float(e) < 2 else "mid-level" if float(e) < 5 else
    "senior-level"] *)
Definition experience_level (experience : string) : result string :=
  e ← of_option ValueError (Float.parse experience);
  mret (if Float.ltb e (Float.of_Z 2) then "entry-level"
        else if Float.ltb e (Float.of_Z 5) then "mid-level"
        else "senior-level").

Definition evaluate_technical_answer
    (chat : Client)
    (question answer candidate_name candidate_experience_level tech_stack : string)
    : Json :=
  let system_prompt :=
    "You are an expert technical interviewer. Your goal is to be encouraging, " +:+
    "conversational, and educational. You will receive a technical question " +:+
    "and a user's answer from " +:+ candidate_name +:+ ", who is a " +:+
    candidate_experience_level +:+ " candidate in " +:+ tech_stack +:+ "." +:+ Py.nl +:+
    "**Question:** " +:+ Py.dq +:+ question +:+ Py.dq +:+ Py.nl +:+ "**" +:+ candidate_name +:+
    "'s Answer:** " +:+ Py.dq +:+ answer +:+ Py.dq +:+ Py.nl +:+
    "Your task is to perform the following steps and return a single, valid " +:+ "JSON object:" +:+
    Py.nl +:+ "1.  Analyze " +:+ candidate_name +:+
    "'s answer. Determine if it's correct, partially correct, incorrect, or " +:+
    "if they indicated they don't know (e.g., " +:+ Py.dq +:+ "skip" +:+ Py.dq +:+ ", " +:+ Py.dq +:+
    "idk" +:+ Py.dq +:+ ", " +:+ Py.dq +:+ "I don't know" +:+ Py.dq +:+ ", " +:+ Py.dq +:+ "next" +:+
    Py.dq +:+ ")." +:+ Py.nl +:+
    "2.  Write a short, friendly, and encouraging sentence of feedback for " +:+ candidate_name +:+
    ". This should feel like a real person talking directly to them, using " +:+ "their name." +:+
    Py.nl +:+ "    - If " +:+ candidate_name +:+
    " knew the answer, acknowledge their knowledge (e.g., " +:+ Py.dq +:+
    "That's a great explanation, " +:+ candidate_name +:+ "!" +:+ Py.dq +:+ ")." +:+ Py.nl +:+
    "    - If " +:+ candidate_name +:+ " was partially correct, praise their effort (e.g., " +:+
    Py.dq +:+ "You're on the right track, " +:+ candidate_name +:+ "!" +:+ Py.dq +:+ ")." +:+
    Py.nl +:+ "    - If " +:+ candidate_name +:+
    " was incorrect (but attempted an answer), be encouraging about the learning " +:+
    "opportunity (e.g., " +:+ Py.dq +:+ "Thanks for trying, " +:+ candidate_name +:+ "!" +:+
    Py.dq +:+ ")." +:+ Py.nl +:+ "    - If " +:+ candidate_name +:+ " said " +:+ Py.dq +:+ "skip" +:+
    Py.dq +:+ " or " +:+ Py.dq +:+ "don't know" +:+ Py.dq +:+
    ", acknowledge their choice politely and encouragingly, varying the phrasing " +:+ "(e.g., " +:+
    Py.dq +:+ "No worries at all, " +:+ candidate_name +:+ "." +:+ Py.dq +:+ ", " +:+ Py.dq +:+
    "That's okay, " +:+ candidate_name +:+ "!" +:+ Py.dq +:+ ", " +:+ Py.dq +:+ candidate_name +:+
    "! No problem if you'd like to skip this one." +:+ Py.dq +:+ ")." +:+ Py.nl +:+
    "3.  Write a clear, concise, and comprehensive explanation for the **correct " +:+
    "answer** to the original question. Start this explanation with a heading " +:+ "like " +:+
    Py.dq +:+ "Here's a breakdown:" +:+ Py.dq +:+ "." +:+ Py.nl +:+
    "**Return a valid JSON object with the following structure, and nothing " +:+ "else:**" +:+
    Py.nl +:+ "{" +:+ Py.nl +:+ "  " +:+ Py.dq +:+ "feedback" +:+ Py.dq +:+ ": " +:+ Py.dq +:+
    "Your friendly feedback sentence here, using the candidate's name." +:+ Py.dq +:+ "," +:+
    Py.nl +:+ "  " +:+ Py.dq +:+ "explanation" +:+ Py.dq +:+ ": " +:+ Py.dq +:+
    "Your comprehensive correct answer here." +:+ Py.dq +:+ Py.nl +:+ "}" in
  let response :=
    chat (mkRequest [mkMessage system system_prompt] MODEL 500 "0.7" true) in
  match content_text response ≫= json_loads with
  | Some result => result
  | None =>
      JObject
        (<["feedback" := "Great, thank you for your response, " +:+
                         (if Py.truthy candidate_name then candidate_name else "Anuj") +:+ "!"]>
         (<["explanation" := "Let's move on to the next question."]> ∅))
  end.

Definition BASE_PROMPT : string :=
  "You are Maya, a friendly, warm, and professional hiring assistant for TalentScout. " +:+
  "You are encouraging, empathetic, and make candidates feel comfortable and valued. " +:+
  "Always address the candidate by their name if you know it.".

Definition get_system_prompt (phase : Phase) : string :=
  match phase with
  | GREETING =>
      BASE_PROMPT +:+ " Greet the candidate warmly, introduce yourself, explain the process " +:+
      "(info gathering, technical questions, next steps), and ask for their full name " +:+
      "to begin in a very friendly manner."
  | CONCLUSION =>
      BASE_PROMPT +:+ " Thank the candidate warmly for their time. Let them know they did great, " +:+
      "their info is recorded, the team will review it, and they'll hear back in 2-3 " +:+
      "business days. End on an encouraging and positive note, wishing them luck."
  | _ => BASE_PROMPT
  end.

Definition APOLOGY : string :=
  "I'm experiencing some technical difficulties right now. Could we try that again? 😊".

(** [get_ai_response]; a missing content, which Python returns as [None],
    is the empty text here: the caller only tests its truth value. *)
Definition get_ai_response (chat : Client) (msgs : list Message) (system_prompt : string)
    : string :=
  match chat (mkRequest (mkMessage system system_prompt :: msgs) MODEL 400 "0.8" false) with
  | Content text => text
  | NoContent => EmptyString
  | Raised => APOLOGY
  end.

Definition fallback_questions : list string :=
  ["Tell me about a challenging project you've worked on.";
   "How do you approach debugging?";
   "What coding best practices do you follow?";
   "How do you stay updated with new technologies?";
   "Describe your experience with version control."].

(** [[line.split('.', 1)[1].strip() for line in text.split('\n')
      if line and re.match(r'^\d\.', line.strip())]] *)
Fixpoint numbered_lines (lines : list string) : result (list string) :=
  match lines with
  | [] => mret []
  | line :: rest =>
      if Py.truthy line && Re.match_prefix NUMBERED_RE (Py.strip line)
      then q ← getitem (Py.split1 "." line) 1;
           qs ← numbered_lines rest;
           mret (Py.strip q :: qs)
      else numbered_lines rest
  end.

Definition questions_request (experience_level tech_stack : string) : Request :=
  let system_prompt :=
    "Generate exactly 5 technical questions for a " +:+ experience_level +:+
    " candidate with expertise in: " +:+ tech_stack +:+
    ". Focus on conceptual understanding, design patterns, best practices, and " +:+
    "problem-solving. Avoid questions that would require generating multi-line code " +:+
    "snippets as an answer. Format as a numbered list." in
  mkRequest [mkMessage system system_prompt] MODEL 600 "0.7" false.

(** The body of the [try] of [generate_technical_questions]. *)
Definition generate_try (chat : Client) (tech_stack experience : string)
    : result (list string) :=
  level ← experience_level experience;
  text ← of_option ValueError (content_text (chat (questions_request level tech_stack)));
  questions ← numbered_lines (Py.split_on "010" text);
  mret (if Z.of_nat (length questions) =? 5 then take 5 questions
        else fallback_questions).

Definition generate_technical_questions (chat : Client) (tech_stack experience : string)
    : list string :=
  match generate_try chat tech_stack experience with
  | Ok questions => questions
  | Raise _ => fallback_questions
  end.

Definition AFFIRMATIVE : list string := ["yes"; "correct"; "confirm"; "proceed"].

(** [candidate_name.split(' ')[0] if candidate_name else "there"] *)
Definition first_name (candidate_name : string) : string :=
  if Py.truthy candidate_name
  then hd EmptyString (Py.split_on " " candidate_name)
  else "there".

Definition farewell (candidate_first_name : string) : string :=
  "Thank you for your time! Best of luck, " +:+ candidate_first_name +:+ "! 👋".

(** The remark of the experience step. *)
Definition experience_remark (experience_val : spec_float) : string :=
  if Float.eqb experience_val (Float.of_Z 0) then
    "With " +:+ Py.str_of_int (Float.to_int experience_val) +:+
    " years of experience, you're just starting out! "
  else if Float.ltb experience_val (Float.of_Z 2) then
    "With " +:+ float_repr experience_val +:+ " years of experience, that's a great start! "
  else if Float.ltb experience_val (Float.of_Z 5) then
    "With " +:+ float_repr experience_val +:+
    " years of experience, you're building a solid foundation! "
  else
    "With " +:+ float_repr experience_val +:+
    " years of experience, you have significant expertise! ".

(** The acknowledgement of an accepted step; [d] is [candidate_data]
    after the value was stored; step 7 leaves [bot_response] empty. *)
Definition acknowledgement (step : Z) (candidate_first_name : string) (d : CandidateData)
    : result string :=
  if step =? 1 then
    mret ("Hi " +:+ candidate_first_name +:+ "! Thanks for sharing your full name. Next, " +:+
          prompt_text STEP_EMAIL)
  else if step =? 2 then
    mret ("Got it, " +:+ candidate_first_name +:+ "! Your email address is " +:+
          cd_email d +:+ ". Next, " +:+ prompt_text STEP_PHONE)
  else if step =? 3 then
    mret (candidate_first_name +:+ "! Your phone number is " +:+ cd_phone d +:+ ". Next, " +:+
          prompt_text STEP_EXPERIENCE)
  else if step =? 4 then
    experience_val ← of_option ValueError (Float.parse (cd_experience d));
    mret (candidate_first_name +:+ "! " +:+ experience_remark experience_val +:+ "Next, " +:+
          prompt_text STEP_POSITION)
  else if step =? 5 then
    mret (candidate_first_name +:+ "! You're interested in a " +:+ cd_position d +:+
          " position. That's great! Next, " +:+ prompt_text STEP_LOCATION)
  else if step =? 6 then
    mret (candidate_first_name +:+ "! You're looking for a " +:+ cd_position d +:+
          " opportunity in " +:+ cd_location d +:+ ". Got it! Next, " +:+
          prompt_text STEP_TECH_STACK)
  else mret EmptyString.

(** One line of the summary, and the summary: the items with a value. *)
Definition summary_line (kv : string * string) : string :=
  "- **" +:+ Py.title (Py.replace_char "_" " " (fst kv)) +:+ ":** " +:+ snd kv.

Definition data_summary (d : CandidateData) : string :=
  Py.join Py.nl (map summary_line (List.filter (fun kv => Py.truthy (snd kv)) (items d))).

Definition confirmation_request (candidate_first_name summary : string) : string :=
  "Alright, " +:+ candidate_first_name +:+
  "! We've gathered all your information. Does this look correct?" +:+ Py.nl +:+ Py.nl +:+
  summary +:+ Py.nl +:+ Py.nl +:+
  "Please type 'yes' to confirm or tell me what to change.".

Definition retry_message (candidate_first_name error : string) : string :=
  "I need a bit more clarity, " +:+ candidate_first_name +:+ ". " +:+ error +:+
  " Could you please try again? 😊".

Definition congratulations (candidate_first_name : string) : string :=
  Py.nl +:+ Py.nl +:+ "---" +:+ Py.nl +:+ Py.nl +:+ "🎉 **Fantastic, " +:+
  candidate_first_name +:+
  "!** You've completed all the technical questions! You did really well, and I " +:+
  "appreciate you talking through them with me. Let me give you information about " +:+
  "the next steps. 📋".

(** The branches of the turn handler; each returns the state and
    [bot_response]. *)

Definition data_collection_turn (chat : Client) (candidate_first_name prompt : string)
    (s : State) : result (State * string) :=
  step ← lookup_key (current_step s) DATA_STEPS;
  let is_valid := validation step chat prompt in
  if is_valid then
    let s := with_candidate_data (set_field (field step) prompt (candidate_data s)) s in
    bot_response ← acknowledgement (current_step s) candidate_first_name (candidate_data s);
    let s := with_current_step (current_step s + 1) s in
    if Z.of_nat (length DATA_STEPS) <? current_step s then
      let s := with_conversation_phase DATA_CONFIRMATION s in
      mret (s, confirmation_request candidate_first_name (data_summary (candidate_data s)))
    else mret (s, bot_response)
  else
    mret (s, retry_message candidate_first_name (error_msg step)).

Definition data_confirmation_turn (chat : Client) (candidate_first_name prompt : string)
    (s : State) : result (State * string) :=
  if Py.any_in AFFIRMATIVE (Py.lower prompt) then
    let s := with_technical_questions
               (generate_technical_questions chat (cd_tech_stack (candidate_data s))
                                             (cd_experience (candidate_data s))) s in
    let s := with_technical_answers
               (replicate (length (technical_questions s)) EmptyString) s in
    let s := with_conversation_phase TECHNICAL_QUESTIONS s in
    let tech_stack_display := cd_tech_stack (candidate_data s) in
    let position_display := cd_position (candidate_data s) in
    first_question ← getitem (technical_questions s) 0;
    mret (s, candidate_first_name +:+ "! You're familiar with " +:+ tech_stack_display +:+
             ", which is a great combination for " +:+ position_display +:+ ". " +:+
             "Next, I'll ask you some technical questions to assess your skills. " +:+
             "Please answer them one by one. " +:+
             "Here's your first question:" +:+ Py.nl +:+ Py.nl +:+ "**Question 1:** " +:+
             first_question)
  else
    mret (s, "No problem, " +:+ candidate_first_name +:+
             "! What information would you like to change?").

Definition technical_questions_turn (chat : Client) (candidate_first_name prompt : string)
    (s : State) : result (State * string) :=
  current_question ← getitem (technical_questions s) (current_question_index s);
  experience_level_for_eval ← experience_level (cd_experience (candidate_data s));
  let evaluation :=
    evaluate_technical_answer chat current_question prompt candidate_first_name
      experience_level_for_eval (cd_tech_stack (candidate_data s)) in
  fields ← dict_of evaluation;
  let feedback :=
    default ("Thanks for your answer, " +:+ candidate_first_name +:+ "!")
            (fields !! "feedback") in
  let explanation := default "Let's proceed." (fields !! "explanation") in
  let bot_response := feedback +:+ Py.nl +:+ Py.nl +:+ explanation in
  answers ← setitem (technical_answers s) (current_question_index s) prompt;
  let s := with_technical_answers answers s in
  let s := with_current_question_index (current_question_index s + 1) s in
  if current_question_index s <? Z.of_nat (length (technical_questions s)) then
    next_question ← getitem (technical_questions s) (current_question_index s);
    mret (s, bot_response +:+ Py.nl +:+ Py.nl +:+ "---" +:+ Py.nl +:+ Py.nl +:+
             "Ready for the next one, " +:+ candidate_first_name +:+ "?" +:+ Py.nl +:+ Py.nl +:+
             "**Question " +:+ Py.str_of_int (current_question_index s + 1) +:+ ":** " +:+
             next_question)
  else
    let s := with_conversation_phase CONCLUSION s in
    mret (s, bot_response +:+ congratulations candidate_first_name).

(** The body run for a submitted [prompt]: the user message is recorded,
    the first name is read, the branch runs, and a non-empty
    [bot_response] is recorded as the assistant's message. *)
Definition turn (chat : Client) (s : State) (prompt : string) : result (State * string) :=
  let s := append_message user prompt s in
  let phase := conversation_phase s in
  let candidate_name := cd_name (candidate_data s) in
  let candidate_first_name := first_name candidate_name in
  '(s, bot_response) ←
    (if Py.any_in EXIT_KEYWORDS (Py.lower prompt) then
       mret (with_conversation_phase ENDED s, farewell candidate_first_name)
     else match phase with
          | GREETING =>
              let system_prompt := get_system_prompt phase in
              let bot_response := get_ai_response chat (messages s) system_prompt in
              mret (with_conversation_phase DATA_COLLECTION s, bot_response)
          | DATA_COLLECTION => data_collection_turn chat candidate_first_name prompt s
          | DATA_CONFIRMATION => data_confirmation_turn chat candidate_first_name prompt s
          | TECHNICAL_QUESTIONS => technical_questions_turn chat candidate_first_name prompt s
          | CONCLUSION =>
              let system_prompt := get_system_prompt phase in
              let bot_response := get_ai_response chat (messages s) system_prompt in
              mret (with_conversation_phase ENDED s, bot_response)
          | ENDED => mret (s, EmptyString)
          end);
  mret (if Py.truthy bot_response then append_message assistant bot_response s else s,
        bot_response).

(** The chat block of the script: nothing runs in the [ended] phase or
    without a submitted text. *)
Definition chat_input (chat : Client) (s : State) (submitted : option string)
    : result State :=
  if decide (conversation_phase s = ENDED) then mret s
  else match submitted with
       | Some prompt =>
           if Py.truthy prompt then '(s', _) ← turn chat s prompt; mret s'
           else mret s
       | None => mret s
       end.

(** The state a script run starts from when the session holds no key. *)
Definition initial_state : State :=
  mkState empty_candidate_data 1 GREETING [] [] 0 0 [].

End Engine.

(** ** Sessions and their invariant *)

(** The state after a turn that only says goodbye. *)
Definition ended_state (s : State) (prompt : string) : State :=
  append_message assistant (farewell (first_name (cd_name (candidate_data s))))
    (with_conversation_phase ENDED (append_message user prompt s)).

(** What the end of [turn] does with the outcome of a branch. *)
Definition record_response (out : State * string) : State * string :=
  (if Py.truthy (snd out) then append_message assistant (snd out) (fst out) else fst out,
   snd out).

(** The key of [DATA_STEPS] under which a field is collected. *)
Definition field_index (f : Field) : Z :=
  match f with
  | Name => 1
  | Email => 2
  | Phone => 3
  | Experience => 4
  | Position => 5
  | Location => 6
  | TechStack => 7
  end.

(** At step [step] the fields of the earlier steps hold a value and the
    others are empty; once the experience is stored, [float] reads it. *)
Definition field_ok (step : Z) (d : CandidateData) (f : Field) : bool :=
  if field_index f <? step then Py.truthy (get_field f d)
  else Py.is_empty (get_field f d).

Definition float_reads (t : string) : bool :=
  match Float.parse t with
  | Some _ => true
  | None => false
  end.

Definition data_ok (step : Z) (d : CandidateData) : bool :=
  forallb (field_ok step d) all_fields &&
  ((step <=? 4) || float_reads (cd_experience d)).

(** The invariant of the states a session goes through. *)
Definition wfb (s : State) : bool :=
  match conversation_phase s with
  | GREETING =>
      (current_step s =? 1) && data_ok 1 (candidate_data s) &&
      (current_question_index s =? 0)
  | DATA_COLLECTION =>
      (1 <=? current_step s) && (current_step s <=? 7) &&
      data_ok (current_step s) (candidate_data s) &&
      (current_question_index s =? 0)
  | DATA_CONFIRMATION =>
      (current_step s =? 8) && data_ok 8 (candidate_data s) &&
      (current_question_index s =? 0)
  | TECHNICAL_QUESTIONS =>
      (current_step s =? 8) && data_ok 8 (candidate_data s) &&
      (Z.of_nat (length (technical_questions s)) =? 5) &&
      (Z.of_nat (length (technical_answers s)) =? 5) &&
      (0 <=? current_question_index s) && (current_question_index s <? 5)
  | CONCLUSION => current_question_index s =? 5
  | ENDED => true
  end.

Definition wf (s : State) : Prop := wfb s = true.

Section Sessions.

Variable float_repr : spec_float -> string.
Variable json_loads : string -> option Json.

(** One processed user turn of a session: the phase is not [ended], the
    text submitted is not empty, and the client may answer anything. *)
Inductive session_step : State -> State -> Prop :=
  | processed_turn chat s prompt s' bot_response :
      conversation_phase s <> ENDED ->
      prompt <> EmptyString ->
      turn float_repr json_loads chat s prompt = Ok (s', bot_response) ->
      session_step s s'.

(** The states of a session, from its start and without a reset. *)
Definition reachable (s : State) : Prop := rtc session_step initial_state s.

End Sessions.

(** The state an accepted step leaves behind, before the reply is
    recorded: the value stored, the step advanced, and the phase moved
    to the confirmation once the last step is passed. *)
Definition accepted_state (f : Field) (prompt : string) (s : State) : State :=
  let s1 := with_current_step (current_step s + 1)
              (with_candidate_data (set_field f prompt (candidate_data s)) s) in
  if 7 <? current_step s + 1 then with_conversation_phase DATA_CONFIRMATION s1 else s1.

(** The label the summary prints for a field. *)
Definition field_label (f : Field) : string :=
  match f with
  | Name => "Name"
  | Email => "Email"
  | Phone => "Phone"
  | Experience => "Experience"
  | Position => "Position"
  | Location => "Location"
  | TechStack => "Tech Stack"
  end.

(** The summary when each of the seven fields holds a value. *)
Definition full_summary (d : CandidateData) : string :=
  "- **Name:** " +:+ cd_name d +:+ Py.nl +:+
  "- **Email:** " +:+ cd_email d +:+ Py.nl +:+
  "- **Phone:** " +:+ cd_phone d +:+ Py.nl +:+
  "- **Experience:** " +:+ cd_experience d +:+ Py.nl +:+
  "- **Position:** " +:+ cd_position d +:+ Py.nl +:+
  "- **Location:** " +:+ cd_location d +:+ Py.nl +:+
  "- **Tech Stack:** " +:+ cd_tech_stack d.

Section Branches.

Variable float_repr : spec_float -> string.
Variable json_loads : string -> option Json.

(** The branch of [turn] a phase selects when no exit keyword occurs;
    [s] already holds the user's message. *)
Definition phase_branch (chat : Client) (candidate_first_name prompt : string) (s : State)
    : result (State * string) :=
  match conversation_phase s with
  | GREETING =>
      mret (with_conversation_phase DATA_COLLECTION s,
            get_ai_response chat (messages s) (get_system_prompt GREETING))
  | DATA_COLLECTION => data_collection_turn float_repr chat candidate_first_name prompt s
  | DATA_CONFIRMATION => data_confirmation_turn chat candidate_first_name prompt s
  | TECHNICAL_QUESTIONS =>
      technical_questions_turn json_loads chat candidate_first_name prompt s
  | CONCLUSION =>
      mret (with_conversation_phase ENDED s,
            get_ai_response chat (messages s) (get_system_prompt CONCLUSION))
  | ENDED => mret (s, EmptyString)
  end.

End Branches.

(** ** The shape of an accepted experience *)




(** ** The parsed questions and the answered state *)

(** A line the question parser keeps, and the question it reads in it. *)
Definition is_numbered (line : string) : bool :=
  Py.truthy line && Re.match_prefix NUMBERED_RE (Py.strip line).

Definition question_text (line : string) : string :=
  Py.strip (nth 1 (Py.split1 "." line) EmptyString).

Definition parsed_questions (text : string) : list string :=
  map question_text (List.filter is_numbered (Py.split_on "010" text)).

(** The state a recorded answer leaves behind, before the reply is
    recorded. *)
Definition answered_state (prompt : string) (s : State) : State :=
  let s1 := with_current_question_index (current_question_index s + 1)
              (with_technical_answers
                 (<[Z.to_nat (current_question_index s) := prompt]> (technical_answers s)) s) in
  if current_question_index s + 1 <? Z.of_nat (length (technical_questions s))
  then s1 else with_conversation_phase CONCLUSION s1.

(** The feedback and the explanation of an evaluation, as the reply
    prints them. *)
Definition feedback_text (evaluation : gmap string string) (candidate_first_name : string)
    : string :=
  default ("Thanks for your answer, " +:+ candidate_first_name +:+ "!")
          (evaluation !! "feedback") +:+
  Py.nl +:+ Py.nl +:+ default "Let's proceed." (evaluation !! "explanation").

(** What follows the feedback while questions remain. *)
Definition next_question_text (candidate_first_name : string) (number : Z) (question : string)
    : string :=
  Py.nl +:+ Py.nl +:+ "---" +:+ Py.nl +:+ Py.nl +:+
  "Ready for the next one, " +:+ candidate_first_name +:+ "?" +:+ Py.nl +:+ Py.nl +:+
  "**Question " +:+ Py.str_of_int number +:+ ":** " +:+ question.

(** The state a confirmation leaves behind, before the reply is recorded. *)
Definition confirmed_state (chat : Client) (s : State) : State :=
  let s1 := with_technical_questions
              (generate_technical_questions chat (cd_tech_stack (candidate_data s))
                                            (cd_experience (candidate_data s))) s in
  with_conversation_phase TECHNICAL_QUESTIONS
    (with_technical_answers (replicate (length (technical_questions s1)) EmptyString) s1).

(** A stored value stays: every field that holds a value in [d] holds
    the same value in [d']. *)
Definition data_extends (d d' : CandidateData) : Prop :=
  forall f, get_field f d <> EmptyString -> get_field f d' = get_field f d.

(** The entries a turn appends to the history. *)
Definition turn_entries (prompt bot_response : string) : list Message :=
  mkMessage user prompt ::
  (if Py.truthy bot_response then [mkMessage assistant bot_response] else []).

(** Whether the current step accepts [prompt]; no step, no acceptance. *)
Definition step_accepts (chat : Client) (s : State) (prompt : string) : bool :=
  match lookup_key (current_step s) DATA_STEPS with
  | Ok st => validation st chat prompt
  | Raise _ => false
  end.

(** The phase a processed turn leads to. *)
Definition next_phase (chat : Client) (s : State) (prompt : string) : Phase :=
  if Py.any_in EXIT_KEYWORDS (Py.lower prompt) then ENDED
  else match conversation_phase s with
       | GREETING => DATA_COLLECTION
       | DATA_COLLECTION =>
           if step_accepts chat s prompt && (current_step s =? 7)
           then DATA_CONFIRMATION else DATA_COLLECTION
       | DATA_CONFIRMATION =>
           if Py.any_in AFFIRMATIVE (Py.lower prompt)
           then TECHNICAL_QUESTIONS else DATA_CONFIRMATION
       | TECHNICAL_QUESTIONS =>
           if current_question_index s + 1 <? 5 then TECHNICAL_QUESTIONS else CONCLUSION
       | CONCLUSION => ENDED
       | ENDED => ENDED
       end.

(** The only turns with an empty [bot_response]: no exit keyword, the
    phase is one that asks the model for a free reply, and the reply
    comes back without a text (the [ended] phase, which the chat block
    never runs, has no branch at all). *)
Definition silent_reply (chat : Client) (s : State) (prompt : string) : Prop :=
  Py.any_in EXIT_KEYWORDS (Py.lower prompt) = false /\
  (conversation_phase s = ENDED \/
   ((conversation_phase s = GREETING \/ conversation_phase s = CONCLUSION) /\
    get_ai_response chat (messages s ++ [mkMessage user prompt])
      (get_system_prompt (conversation_phase s)) = EmptyString)).

(** ** Sample sessions

    Concrete clients and states on which the statements below are
    instantiated. *)

Definition sample_float_repr (x : spec_float) : string := "3.5".

(** A reply to the evaluation request that is a JSON object, and the
    decoder of the samples: it reads that object and the list [[1]],
    and fails on any other text. *)
Definition sample_evaluation : string :=
  "{" +:+ Py.dq +:+ "feedback" +:+ Py.dq +:+ ": " +:+ Py.dq +:+ "Well put, Jane!" +:+ Py.dq +:+
  ", " +:+ Py.dq +:+ "explanation" +:+ Py.dq +:+ ": " +:+ Py.dq +:+
  "Here's a breakdown: bisect." +:+ Py.dq +:+ "}".

Definition sample_json_loads (t : string) : option Json :=
  if String.eqb t "[1]" then Some JOther
  else if String.eqb t sample_evaluation then
    Some (JObject (<["feedback" := "Well put, Jane!"]>
                   (<["explanation" := "Here's a breakdown: bisect."]> ∅)))
  else None.

Definition failing_client : Client := fun _ => Raised.
Definition agreeing_client : Client := fun _ => Content "Yes".
Definition refusing_client : Client := fun _ => Content "no".

(** Clients that answer the evaluation request only: with the list
    [[1]], and with the sample object. *)
Definition list_reply_client : Client :=
  fun request => if req_json_object request then Content "[1]" else Raised.
Definition bare_numbers_client : Client :=
  fun _ => Content ("1." +:+ Py.nl +:+ "2." +:+ Py.nl +:+ "3." +:+ Py.nl +:+
                    "4." +:+ Py.nl +:+ "5.").

Definition jane : CandidateData :=
  mkCandidateData "Jane Doe" "jane@example.com" "+1 (555) 123-4567" "3.5"
                  "Data Engineer" "Remote" "Python, Go".

(** Waiting for the name, right after the greeting. *)
Definition at_name_step : State :=
  mkState empty_candidate_data 1 DATA_COLLECTION [] [] 0 0 [].

(** Waiting for the email, the name being stored. *)
Definition at_email_step : State :=
  mkState (set_field Name "Jane Doe" empty_candidate_data) 2 DATA_COLLECTION [] [] 0 0 [].

(** Waiting for the experience. *)
Definition at_experience_step : State :=
  mkState (mkCandidateData "Jane Doe" "jane@example.com" "+1 (555) 123-4567"
             EmptyString EmptyString EmptyString EmptyString)
          4 DATA_COLLECTION [] [] 0 0 [].

(** Waiting for the technology stack, the last step. *)
Definition at_tech_stack_step : State :=
  mkState (set_field TechStack EmptyString jane) 7 DATA_COLLECTION [] [] 0 0 [].


(** The request [get_ai_response] sends in a phase, the history already
    holding the user's message. *)
Definition free_reply_request (s : State) (prompt : string) : Request :=
  mkRequest (mkMessage system (get_system_prompt (conversation_phase s)) ::
             messages s ++ [mkMessage user prompt])
            MODEL 400 "0.8" false.

(** ** The effect of a turn on the state

    The state a processed turn leaves behind before the reply is
    recorded, read off the branches of [turn]. *)
Definition turn_core (chat : Client) (s : State) (prompt : string) : State :=
  let s1 := append_message user prompt s in
  if Py.any_in EXIT_KEYWORDS (Py.lower prompt) then with_conversation_phase ENDED s1
  else match conversation_phase s with
       | GREETING => with_conversation_phase DATA_COLLECTION s1
       | DATA_COLLECTION =>
           match lookup_key (current_step s) DATA_STEPS with
           | Ok st =>
               if validation st chat prompt then accepted_state (field st) prompt s1
               else s1
           | Raise _ => s1
           end
       | DATA_CONFIRMATION =>
           if Py.any_in AFFIRMATIVE (Py.lower prompt) then confirmed_state chat s1 else s1
       | TECHNICAL_QUESTIONS => answered_state prompt s1
       | CONCLUSION => with_conversation_phase ENDED s1
       | ENDED => s1
       end.

(** The place of a phase in the order of the conversation. *)
Definition phase_rank (p : Phase) : Z :=
  match p with
  | GREETING => 0
  | DATA_COLLECTION => 1
  | DATA_CONFIRMATION => 2
  | TECHNICAL_QUESTIONS => 3
  | CONCLUSION => 4
  | ENDED => 5
  end.

(** The four values whose validator does not consult the model were
    accepted by it. *)
Definition stored_values_valid (d : CandidateData) : Prop :=
  (cd_name d <> EmptyString -> validate_name (cd_name d) = true) /\
  (cd_email d <> EmptyString -> validate_email (cd_email d) = true) /\
  (cd_phone d <> EmptyString -> validate_phone (cd_phone d) = true) /\
  (cd_experience d <> EmptyString -> validate_experience (cd_experience d) = true).


(** A state outside any session: technical questions without questions. *)
Definition without_questions : State :=
  mkState jane 8 TECHNICAL_QUESTIONS [] [] 0 0 [].

(** The state of a session after a first message "hello" that the model
    could not answer. *)
Definition greeted : State :=
  mkState empty_candidate_data 1 DATA_COLLECTION [] [] 0 0
          [mkMessage user "hello"; mkMessage assistant APOLOGY].

(** The same session after the name "Jane Doe" was given. *)
Definition named : State :=
  mkState (set_field Name "Jane Doe" empty_candidate_data) 2 DATA_COLLECTION [] [] 0 0
          [mkMessage user "hello"; mkMessage assistant APOLOGY;
           mkMessage user "Jane Doe";
           mkMessage assistant
             ("Hi there! Thanks for sharing your full name. Next, " +:+
              "Could you please share your email address?")].

(** ** Playing a session

    The chat block run on a list of submitted texts, one after the other;
    [None] when a text is empty, the session has ended or a turn raises. *)
Fixpoint play (float_repr : spec_float -> string)
    (json_loads : string -> option Json)
    (chat : Client) (s : State) (prompts : list string) : option State :=
  match prompts with
  | [] => Some s
  | prompt :: rest =>
      if decide (conversation_phase s = ENDED) then None
      else if Py.truthy prompt then
        match turn float_repr json_loads chat s prompt with
        | Ok (s', _) => play float_repr json_loads chat s' rest
        | Raise _ => None
        end
      else None
  end.

Definition interview_prompts : list string :=
  ["hello"; "Jane Doe"; "jane@example.com"; "+1 (555) 123-4567"; "3.5";
   "Data Engineer"; "Remote"; "Python, Go"; "yes"; "I read the logs first"].

(** A session with a model that never answers: after the first answer,
    and after the second. *)
Definition after_first_answer : State :=
  Eval vm_compute in
    default initial_state
      (play sample_float_repr sample_json_loads failing_client initial_state
         interview_prompts).

Definition after_second_answer : State :=
  Eval vm_compute in
    default initial_state
      (play sample_float_repr sample_json_loads failing_client after_first_answer
         ["Small commits and reviews"]).

(** A state waiting for the confirmation of the profile of Jane. *)
Definition at_confirmation : State :=
  mkState jane 8 DATA_CONFIRMATION [] [] 0 0 [].

(** The reply to a confirmation, up to the first question. *)
Definition first_question_intro (candidate_first_name tech_stack position : string)
    : string :=
  candidate_first_name +:+ "! You're familiar with " +:+ tech_stack +:+
  ", which is a great combination for " +:+ position +:+ ". " +:+
  "Next, I'll ask you some technical questions to assess your skills. " +:+
  "Please answer them one by one. " +:+
  "Here's your first question:" +:+ Py.nl +:+ Py.nl +:+ "**Question 1:** ".

(** The keys [initialize_session_state] sets. *)
Definition SESSION_KEYS : list string :=
  ["candidate_data"; "current_step"; "conversation_phase"; "technical_questions";
   "technical_answers"; "current_question_index"; "retry_count"; "messages"].

(** ** The sidebar

    The values the sidebar block computes from the session: the progress,
    the lines of the collected information with the email and the phone
    number partly hidden, and the status of each technical question.  The
    calls that draw them are left out. *)

(** [s[:n]], [s[n:]], [s[-n:]] for [n > 0], and [s * n]. *)
Fixpoint str_take (n : nat) (s : string) : string :=
  match n, s with
  | S k, String c s' => String c (str_take k s')
  | _, _ => EmptyString
  end.

Fixpoint str_drop (n : nat) (s : string) : string :=
  match n, s with
  | S k, String _ s' => str_drop k s'
  | _, _ => s
  end.

Definition str_last (n : nat) (s : string) : string :=
  str_drop (String.length s - n) s.

Fixpoint str_repeat (s : string) (n : nat) : string :=
  match n with
  | O => EmptyString
  | S k => s +:+ str_repeat s k
  end.

Definition str_times (s : string) (n : Z) : string := str_repeat s (Z.to_nat n).

Definition str_len (s : string) : Z := Z.of_nat (String.length s).

(** [name_part, domain_part = value.split('@')] and the masked email. *)
Definition mask_email (value : string) : result string :=
  if Py.contains "@" value then
    match Py.split_on "@" value with
    | [name_part; domain_part] =>
        Ok (str_take 2 name_part +:+ str_times "*" (str_len name_part - 2) +:+ "@" +:+
            domain_part)
    | _ => Raise ValueError
    end
  else Ok value.

Definition mask_phone (value : string) : string :=
  let clean_phone := Py.filter_chars Py.isdigit value in
  if 6 <? str_len clean_phone then
    str_take 3 clean_phone +:+ str_times "*" (str_len clean_phone - 6) +:+
    str_last 3 clean_phone
  else value.

(** [display_value] for an item of [candidate_data] that holds a value. *)
Definition display_value (key value : string) : result string :=
  if (String.eqb key "email" || String.eqb key "phone") && (5 <? str_len value) then
    if String.eqb key "email" then mask_email value else Ok (mask_phone value)
  else Ok value.

Definition information_line (key display : string) : string :=
  "**" +:+ Py.title (Py.replace_char "_" " " key) +:+ ":** " +:+ display.

Fixpoint information_items (kvs : list (string * string)) : result (list string) :=
  match kvs with
  | [] => mret []
  | (key, value) :: rest =>
      if Py.truthy value then
        display ← display_value key value;
        lines ← information_items rest;
        mret (information_line key display :: lines)
      else information_items rest
  end.

(** The lines written under "Your Information". *)
Definition information_lines (d : CandidateData) : result (list string) :=
  if existsb (fun kv => Py.truthy (snd kv)) (items d)
  then information_items (items d)
  else mret ["*Information will appear here as we chat* 📝"].

(** A number of Python: an [int] or a [float]. *)
Inductive Number : Type :=
  | NInt (n : Z)
  | NFloat (x : spec_float).

(** [a / b] for two [int]s, [b] positive: the binary64 number nearest to
    the quotient (the divisors of the source are the constant 7 and a
    length tested positive). *)
Definition int_true_div (a b : Z) : spec_float :=
  match a, b with
  | Zpos pa, Zpos pb =>
      SFdiv Float.prec Float.emax (S754_finite false pa 0) (S754_finite false pb 0)
  | Zneg pa, Zpos pb =>
      SFdiv Float.prec Float.emax (S754_finite true pa 0) (S754_finite false pb 0)
  | _, _ => S754_zero false
  end.

Definition float_mul (x y : spec_float) : spec_float := SFmul Float.prec Float.emax x y.
Definition float_add (x y : spec_float) : spec_float := SFadd Float.prec Float.emax x y.

(** The literals [0.7], [0.75], [0.8], [0.15] and [1.0]. *)
Definition F0_7 : spec_float := Float.of_ratio 7 10.
Definition F0_75 : spec_float := Float.of_ratio 75 100.
Definition F0_8 : spec_float := Float.of_ratio 8 10.
Definition F0_15 : spec_float := Float.of_ratio 15 100.
Definition F1_0 : spec_float := Float.of_Z 1.

(** The value handed to the progress bar. *)
Definition progress (s : State) : Number :=
  let total_steps := Z.of_nat (length DATA_STEPS) in
  match conversation_phase s with
  | DATA_COLLECTION =>
      NFloat (float_mul (int_true_div (current_step s - 1) total_steps) F0_7)
  | DATA_CONFIRMATION => NFloat F0_75
  | TECHNICAL_QUESTIONS =>
      let q_count := Z.of_nat (length (technical_questions s)) in
      if 0 <? q_count
      then NFloat (float_add F0_8
                     (float_mul (int_true_div (current_question_index s) q_count) F0_15))
      else NFloat F0_8
  | CONCLUSION | ENDED => NFloat F1_0
  | GREETING => NInt 0
  end.

(** The status written for the question of index [i]. *)
Inductive QuestionStatus : Type := Completed | Current | Pending.

Definition question_status (cursor i : Z) : QuestionStatus :=
  if i <? cursor then Completed
  else if i =? cursor then Current
  else Pending.

Definition status_line (i : Z) (status : QuestionStatus) : string :=
  "**Question " +:+ Py.str_of_int (i + 1) +:+ ":** " +:+
  match status with
  | Completed => "✅ Completed"
  | Current => "🔄 Current"
  | Pending => "⏳ Pending"
  end.

(** [for i in range(len(technical_questions))]: the status of each
    question. *)
Definition question_statuses (s : State) : list QuestionStatus :=
  map (fun i => question_status (current_question_index s) (Z.of_nat i))
      (seq 0 (length (technical_questions s))).

(** The lines written under "Technical Assessment": nothing without
    questions or outside the [technical_questions] phase. *)
Definition assessment_lines (s : State) : list string :=
  match technical_questions s with
  | [] => []
  | _ :: _ =>
      if decide (conversation_phase s = TECHNICAL_QUESTIONS) then
        ("**Progress:** " +:+ Py.str_of_int (current_question_index s) +:+ "/" +:+
         Py.str_of_int (Z.of_nat (length (technical_questions s))) +:+ " questions") ::
        map (fun i => status_line (Z.of_nat i)
                        (question_status (current_question_index s) (Z.of_nat i)))
            (seq 0 (length (technical_questions s)))
      else []
  end.

(** The value of a number, for comparing an [int] with a [float]. *)
Definition number_value (n : Number) : spec_float :=
  match n with
  | NInt k => Float.of_Z k
  | NFloat x => x
  end.

(** [a <= b] on numbers. *)
Definition number_leb (a b : Number) : bool :=
  Float.leb (number_value a) (number_value b).

(** How far a session has come, counted in stages: 0 before the
    greeting, the step index during the collection, 8 at the
    confirmation, 9 and more during the questions, 14 at the end. *)
Definition progress_stage (s : State) : Z :=
  match conversation_phase s with
  | GREETING => 0
  | DATA_COLLECTION => current_step s
  | DATA_CONFIRMATION => 8
  | TECHNICAL_QUESTIONS => 9 + current_question_index s
  | CONCLUSION | ENDED => 14
  end.

(** The value of the progress bar at a stage of a session. *)
Definition stage_progress (k : Z) : Number :=
  if k =? 0 then NInt 0
  else if k <=? 7 then NFloat (float_mul (int_true_div (k - 1) 7) F0_7)
  else if k =? 8 then NFloat F0_75
  else if k <=? 13 then NFloat (float_add F0_8 (float_mul (int_true_div (k - 9) 5) F0_15))
  else NFloat F1_0.

(** The stages of a session. *)
Definition stages : list Z := map Z.of_nat (seq 0 15).

(** The evaluation a technical-questions turn obtains, once the question
    and the experience level are read. *)
Definition turn_evaluation (json_loads : string -> option Json) (chat : Client)
    (s : State) (prompt : string) : result Json :=
  current_question ← getitem (technical_questions s) (current_question_index s);
  experience_level_for_eval ← experience_level (cd_experience (candidate_data s));
  mret (evaluate_technical_answer json_loads chat current_question prompt
          (first_name (cd_name (candidate_data s))) experience_level_for_eval
          (cd_tech_stack (candidate_data s))).

(** The turns on which [evaluation.get] fails: a technical-questions
    turn without exit keyword whose evaluation is not an object. *)
Definition evaluation_is_no_object (json_loads : string -> option Json) (chat : Client)
    (s : State) (prompt : string) : bool :=
  negb (Py.any_in EXIT_KEYWORDS (Py.lower prompt)) &&
  bool_decide (conversation_phase s = TECHNICAL_QUESTIONS) &&
  match turn_evaluation json_loads chat s prompt with
  | Ok JOther => true
  | _ => false
  end.

(** * Properties *)

(** ** Texts *)

Lemma str_app_cons c s t : String c s +:+ t = String c (s +:+ t).
Proof. reflexivity. Qed.

Lemma str_app_nil_r s : s +:+ EmptyString = s.
Proof. induction s as [|c s IH]; [reflexivity|]. rewrite str_app_cons, IH. reflexivity. Qed.

Lemma str_app_assoc s t u : (s +:+ t) +:+ u = s +:+ t +:+ u.
Proof.
  induction s as [|c s IH]; [reflexivity|].
  rewrite !str_app_cons, IH. reflexivity.
Qed.

Lemma str_app_eq_nil s t : s +:+ t = EmptyString -> s = EmptyString /\ t = EmptyString.
Proof. destruct s; [auto|]. rewrite str_app_cons. discriminate. Qed.

Lemma truthy_true s : Py.truthy s = true <-> s <> EmptyString.
Proof. destruct s; cbn; split; congruence. Qed.

Lemma truthy_false s : Py.truthy s = false <-> s = EmptyString.
Proof. destruct s; cbn; split; congruence. Qed.

Lemma truthy_app_l s t : Py.truthy s = true -> Py.truthy (s +:+ t) = true.
Proof. destruct s; [discriminate|reflexivity]. Qed.

Lemma truthy_app_r s t : Py.truthy t = true -> Py.truthy (s +:+ t) = true.
Proof. destruct s; [auto|reflexivity]. Qed.

Lemma is_char_eq a b : Py.is_char a b = true <-> a = b.
Proof. apply Ascii.eqb_eq. Qed.

Lemma startswith_spec p s :
  Py.startswith p s = true <-> exists post, s = p +:+ post.
Proof.
  revert s. induction p as [|a p IH]; intros s; cbn.
  - split; [intros _; exists s; reflexivity|reflexivity].
  - destruct s as [|b s].
    + split; [discriminate|]. intros [post H]. rewrite str_app_cons in H. discriminate.
    + rewrite andb_true_iff, is_char_eq, IH. split.
      * intros [-> [post ->]]. exists post. reflexivity.
      * intros [post H]. rewrite str_app_cons in H. injection H as -> ->. eauto.
Qed.

(** The test [sub in s] decides that [sub] occurs in [s]. *)
Lemma contains_spec sub s : Py.contains sub s = true <-> occurs_in sub s.
Proof.
  unfold occurs_in. induction s as [|c s IH]; cbn [Py.contains].
  - rewrite orb_false_r, startswith_spec. split.
    + intros [post H]. exists EmptyString, post. exact H.
    + intros (pre & post & H). symmetry in H.
      apply str_app_eq_nil in H as [-> H]. exists post. symmetry. exact H.
  - rewrite orb_true_iff, startswith_spec, IH. split.
    + intros [[post H]|(pre & post & H)].
      * exists EmptyString, post. exact H.
      * exists (String c pre), post. rewrite str_app_cons, H. reflexivity.
    + intros (pre & post & H). destruct pre as [|c' pre].
      * left. exists post. exact H.
      * right. rewrite str_app_cons in H. injection H as -> ->. eauto.
Qed.

Lemma any_in_spec words s :
  Py.any_in words s = true <-> exists w, In w words /\ occurs_in w s.
Proof.
  unfold Py.any_in. rewrite existsb_exists.
  split; intros (w & Hw & H); exists w; split; auto; apply contains_spec; exact H.
Qed.

Lemma occurs_in_mid pre sub post : occurs_in sub (pre +:+ sub +:+ post).
Proof. exists pre, post. reflexivity. Qed.

Lemma occurs_in_app_l sub s t : occurs_in sub s -> occurs_in sub (s +:+ t).
Proof.
  intros (pre & post & ->). exists pre, (post +:+ t).
  rewrite !str_app_assoc. reflexivity.
Qed.

Lemma occurs_in_app_r sub s t : occurs_in sub t -> occurs_in sub (s +:+ t).
Proof.
  intros (pre & post & ->). exists (s +:+ pre), post.
  rewrite !str_app_assoc. reflexivity.
Qed.

Lemma occurs_in_refl sub : occurs_in sub sub.
Proof. exists EmptyString, EmptyString. rewrite str_app_nil_r. reflexivity. Qed.

Lemma occurs_in_head sub post : occurs_in sub (sub +:+ post).
Proof. exists EmptyString, post. reflexivity. Qed.

(** Finds a piece among the pieces of a concatenation. *)
Ltac occurs :=
  repeat first [apply occurs_in_refl | apply occurs_in_head | apply occurs_in_app_r].

(** ** The exit keywords *)

Section ExitKeywords.

Variable float_repr : spec_float -> string.
Variable json_loads : string -> option Json.

Lemma turn_exit chat s prompt :
  Py.any_in EXIT_KEYWORDS (Py.lower prompt) = true ->
  turn float_repr json_loads chat s prompt =
    Ok (ended_state s prompt, farewell (first_name (cd_name (candidate_data s)))).
Proof.
  intros H. unfold turn. rewrite H. reflexivity.
Qed.

End ExitKeywords.

(** C1. In every phase, a message in which an exit keyword occurs once it
    is lowered ends the session: the phase becomes [ENDED], the reply is
    the farewell, in which the first piece of the stored name occurs when
    a name is stored and the word "there" otherwise; nothing else of the
    state changes but the two messages appended to the history, and the
    client is not consulted. *)
Theorem exit_keyword_ends_session
    (float_repr : spec_float -> string)
    (json_loads : string -> option Json)
    (chat : Client) (s : State) (prompt : string) :
  (exists keyword, In keyword EXIT_KEYWORDS /\ occurs_in keyword (Py.lower prompt)) ->
  exists s' bot_response,
    turn float_repr json_loads chat s prompt = Ok (s', bot_response) /\
    conversation_phase s' = ENDED /\
    bot_response = farewell (first_name (cd_name (candidate_data s))) /\
    (cd_name (candidate_data s) <> EmptyString ->
       occurs_in (hd EmptyString (Py.split_on " " (cd_name (candidate_data s)))) bot_response) /\
    (cd_name (candidate_data s) = EmptyString -> occurs_in "there" bot_response) /\
    candidate_data s' = candidate_data s /\
    current_step s' = current_step s /\
    technical_questions s' = technical_questions s /\
    technical_answers s' = technical_answers s /\
    current_question_index s' = current_question_index s /\
    retry_count s' = retry_count s /\
    messages s' = messages s ++ [mkMessage user prompt; mkMessage assistant bot_response] /\
    (forall chat', turn float_repr json_loads chat' s prompt = Ok (s', bot_response)).
Proof.
  intros H. apply any_in_spec in H.
  exists (ended_state s prompt), (farewell (first_name (cd_name (candidate_data s)))).
  split; [apply turn_exit; exact H|].
  split; [reflexivity|]. split; [reflexivity|].
  split.
  { intros Hn. apply truthy_true in Hn. unfold first_name. rewrite Hn.
    apply occurs_in_mid. }
  split.
  { intros Hn. unfold first_name. rewrite Hn. apply occurs_in_mid. }
  repeat (split; [reflexivity|]).
  split.
  { cbn. rewrite <- List.app_assoc. reflexivity. }
  intros chat'. apply turn_exit. exact H.
Qed.

(** ** Starting a new session *)

Lemma foldl_delete_covered (keys : list string) (m : gmap string Value) :
  (forall k, is_Some (m !! k) -> k ∈ keys) ->
  foldl (fun m key => delete key m) m keys = ∅.
Proof.
  revert m. induction keys as [|key keys IH]; intros m Hcov; cbn.
  - apply map_empty. intros k. apply eq_None_not_Some. intros Hk.
    specialize (Hcov k Hk). inversion Hcov.
  - apply IH. intros k Hk. destruct (decide (k = key)) as [->|Hne].
    + rewrite lookup_delete_eq in Hk. destruct Hk as [? Hk]. discriminate.
    + rewrite lookup_delete_ne in Hk by congruence.
      specialize (Hcov k Hk). apply elem_of_cons in Hcov as [?|?]; [contradiction|assumption].
Qed.

Lemma delete_all_keys_empty (ss : gmap string Value) : delete_all_keys ss = ∅.
Proof.
  unfold delete_all_keys. apply foldl_delete_covered.
  intros k [v Hv]. apply list_elem_of_fmap. exists (k, v). split; [reflexivity|].
  apply elem_of_map_to_list. exact Hv.
Qed.

Lemma read_initialized_empty :
  read_state (initialize_session_state ∅) = Some initial_state.
Proof. vm_compute. reflexivity. Qed.

(** C8. Whatever the session holds when the reset button is pressed (in
    particular in the [ended] phase, the only one that shows the button),
    the session it yields is the freshly initialised one: phase
    [greeting], step 1, the seven fields empty, no message, cursor 0, no
    question, no answer, retry count 0. *)
Theorem reset_yields_fresh_session (ss : gmap string Value) :
  start_new_session ss = initialize_session_state ∅ /\
  read_state (start_new_session ss) = Some initial_state /\
  conversation_phase initial_state = GREETING /\
  (forall f, get_field f (candidate_data initial_state) = EmptyString) /\
  messages initial_state = [] /\
  current_question_index initial_state = 0 /\
  technical_questions initial_state = [] /\
  technical_answers initial_state = [] /\
  retry_count initial_state = 0 /\
  current_step initial_state = 1.
Proof.
  unfold start_new_session. rewrite delete_all_keys_empty.
  split; [reflexivity|]. split; [apply read_initialized_empty|].
  split; [reflexivity|]. split; [intros []; reflexivity|].
  repeat split.
Qed.

(** ** The shape of a turn *)

Section TurnShape.

Variable float_repr : spec_float -> string.
Variable json_loads : string -> option Json.

Lemma turn_unfold chat s prompt :
  turn float_repr json_loads chat s prompt =
    (out ← (if Py.any_in EXIT_KEYWORDS (Py.lower prompt)
            then Ok (with_conversation_phase ENDED (append_message user prompt s),
                     farewell (first_name (cd_name (candidate_data s))))
            else phase_branch float_repr json_loads chat
                   (first_name (cd_name (candidate_data s))) prompt
                   (append_message user prompt s));
     Ok (record_response out)).
Proof.
  unfold turn, phase_branch.
  destruct (Py.any_in EXIT_KEYWORDS (Py.lower prompt)); [reflexivity|].
  cbn [conversation_phase append_message with_messages candidate_data].
  destruct (conversation_phase s); cbn [mbind result_bind mret result_ret];
    match goal with
    | |- context [data_collection_turn ?a ?b ?c ?d ?e] =>
        destruct (data_collection_turn a b c d e) as [[? ?]|?]; reflexivity
    | |- context [data_confirmation_turn ?b ?c ?d ?e] =>
        destruct (data_confirmation_turn b c d e) as [[? ?]|?]; reflexivity
    | |- context [technical_questions_turn ?a ?b ?c ?d ?e] =>
        destruct (technical_questions_turn a b c d e) as [[? ?]|?]; reflexivity
    | |- _ => reflexivity
    end.
Qed.

(** Recording the reply touches the history only. *)
Lemma record_response_frame out :
  let out' := record_response out in
  snd out' = snd out /\
  candidate_data (fst out') = candidate_data (fst out) /\
  current_step (fst out') = current_step (fst out) /\
  conversation_phase (fst out') = conversation_phase (fst out) /\
  technical_questions (fst out') = technical_questions (fst out) /\
  technical_answers (fst out') = technical_answers (fst out) /\
  current_question_index (fst out') = current_question_index (fst out) /\
  retry_count (fst out') = retry_count (fst out) /\
  messages (fst out') =
    messages (fst out) ++
    (if Py.truthy (snd out) then [mkMessage assistant (snd out)] else []).
Proof.
  destruct out as [s r]. unfold record_response. cbn [fst snd].
  destruct (Py.truthy r); cbn; rewrite ?app_nil_r; repeat split.
Qed.

End TurnShape.

(** ** Stripping *)

Lemma rstrip_idem s : Py.rstrip (Py.rstrip s) = Py.rstrip s.
Proof.
  induction s as [|c s IH]; [reflexivity|]. cbn.
  destruct (Py.isspace c && Py.is_empty (Py.rstrip s)) eqn:E; [reflexivity|].
  cbn. rewrite IH, E. reflexivity.
Qed.

Lemma lstrip_head s :
  Py.lstrip s = EmptyString \/
  exists c t, Py.lstrip s = String c t /\ Py.isspace c = false.
Proof.
  induction s as [|c s IH]; [left; reflexivity|]. cbn.
  destruct (Py.isspace c) eqn:E; [exact IH|]. right. eauto.
Qed.

Lemma strip_idem s : Py.strip (Py.strip s) = Py.strip s.
Proof.
  unfold Py.strip. destruct (lstrip_head s) as [->|(c & t & -> & Hc)]; [reflexivity|].
  assert (H : Py.rstrip (String c t) = String c (Py.rstrip t)).
  { cbn. rewrite Hc. reflexivity. }
  rewrite H. cbn [Py.lstrip]. rewrite Hc, <- H. apply rstrip_idem.
Qed.

Lemma float_parse_strip x : Float.parse (Py.strip x) = Float.parse x.
Proof. unfold Float.parse. rewrite strip_idem. reflexivity. Qed.

(** An accepted experience is a text [float] reads. *)
Lemma validate_experience_float_reads x :
  validate_experience x = true -> float_reads x = true.
Proof.
  unfold validate_experience, experience_in_range, float_reads.
  rewrite andb_true_iff, float_parse_strip. intros [_ H].
  destruct (Float.parse x); [reflexivity|discriminate].
Qed.

(** ** The data-collection steps *)

Lemma get_set_field_eq f v d : get_field f (set_field f v d) = v.
Proof. destruct f; reflexivity. Qed.

Lemma get_set_field_ne f g v d : f <> g -> get_field g (set_field f v d) = get_field g d.
Proof. destruct f, g; intros H; try reflexivity; contradiction. Qed.

Lemma field_index_inj f g : field_index f = field_index g -> f = g.
Proof. destruct f, g; cbn; intros H; try reflexivity; discriminate. Qed.

Lemma lookup_step_cases k st :
  lookup_key k DATA_STEPS = Ok st ->
  (k = 1 /\ st = STEP_NAME) \/ (k = 2 /\ st = STEP_EMAIL) \/ (k = 3 /\ st = STEP_PHONE) \/
  (k = 4 /\ st = STEP_EXPERIENCE) \/ (k = 5 /\ st = STEP_POSITION) \/
  (k = 6 /\ st = STEP_LOCATION) \/ (k = 7 /\ st = STEP_TECH_STACK).
Proof.
  unfold DATA_STEPS. cbn [lookup_key].
  repeat match goal with
         | |- context [k =? ?n] =>
             destruct (Z.eqb_spec k n) as [->|_]; [intros [= <-]; intuition reflexivity|]
         end.
  discriminate.
Qed.

Lemma lookup_step_index k st :
  lookup_key k DATA_STEPS = Ok st -> field_index (field st) = k /\ 1 <= k <= 7.
Proof.
  intros H. apply lookup_step_cases in H.
  repeat destruct H as [H|H]; destruct H as [-> ->]; cbn; lia.
Qed.

Lemma lookup_step_defined k :
  1 <= k <= 7 -> exists st, lookup_key k DATA_STEPS = Ok st.
Proof.
  intros H.
  assert (Hk : k = 1 \/ k = 2 \/ k = 3 \/ k = 4 \/ k = 5 \/ k = 6 \/ k = 7) by lia.
  repeat destruct Hk as [Hk|Hk]; subst k; eexists; reflexivity.
Qed.

Section DataCollection.

Variable float_repr : spec_float -> string.
Variable json_loads : string -> option Json.

Lemma data_collection_turn_invalid chat first prompt s st :
  lookup_key (current_step s) DATA_STEPS = Ok st ->
  validation st chat prompt = false ->
  data_collection_turn float_repr chat first prompt s =
    Ok (s, retry_message first (error_msg st)).
Proof.
  intros Hl Hv. unfold data_collection_turn. rewrite Hl.
  cbn [mbind result_bind]. rewrite Hv. reflexivity.
Qed.

Lemma data_collection_turn_valid chat first prompt s st :
  lookup_key (current_step s) DATA_STEPS = Ok st ->
  validation st chat prompt = true ->
  data_collection_turn float_repr chat first prompt s =
    (r0 ← acknowledgement float_repr (current_step s) first
            (set_field (field st) prompt (candidate_data s));
     Ok (accepted_state (field st) prompt s,
         if 7 <? current_step s + 1
         then confirmation_request first
                (data_summary (set_field (field st) prompt (candidate_data s)))
         else r0)).
Proof.
  intros Hl Hv. unfold data_collection_turn, accepted_state. rewrite Hl.
  cbn [mbind result_bind]. rewrite Hv.
  cbn [current_step candidate_data with_candidate_data with_current_step
       with_conversation_phase].
  destruct (acknowledgement _ _ _ _) as [r0|e]; [|reflexivity].
  change (Z.of_nat (length DATA_STEPS)) with 7.
  destruct (7 <? current_step s + 1); reflexivity.
Qed.

(** The acknowledgement of the steps 1 to 6 opens with, or holds, the
    first name handed to it; the step 7 has none. *)
Lemma acknowledgement_defined step first d :
  1 <= step <= 7 ->
  (step = 4 -> float_reads (cd_experience d) = true) ->
  exists r0, acknowledgement float_repr step first d = Ok r0 /\
    (step <= 6 -> occurs_in first r0 /\ Py.truthy r0 = true) /\
    (step = 7 -> r0 = EmptyString).
Proof.
  intros Hs Hf.
  assert (Hk : step = 1 \/ step = 2 \/ step = 3 \/ step = 4 \/ step = 5 \/ step = 6 \/
               step = 7) by lia.
  repeat destruct Hk as [Hk|Hk]; subst step; unfold acknowledgement;
    cbn [Z.eqb Pos.eqb mret result_ret].
  4: { specialize (Hf eq_refl). unfold float_reads in Hf.
       destruct (Float.parse (cd_experience d)) as [v|]; [|discriminate].
       cbn [of_option mbind result_bind]. eexists. split; [reflexivity|].
       split; [|lia]. intros _. split.
       - exists EmptyString. eexists. reflexivity.
       - destruct first; reflexivity. }
  all: eexists; (split; [reflexivity|]);
    (split; [intros Hle; try lia|intros He; try lia; try reflexivity]).
  - split; [apply occurs_in_mid|reflexivity].
  - split; [apply occurs_in_mid|reflexivity].
  - split; [exists EmptyString; eexists; reflexivity|destruct first; reflexivity].
  - split; [exists EmptyString; eexists; reflexivity|destruct first; reflexivity].
  - split; [exists EmptyString; eexists; reflexivity|destruct first; reflexivity].
Qed.

End DataCollection.

(** ** Matching by derivatives is matching *)

Section RegexFacts.

Import Re.

Lemma lang_void_inv s : ~ lang Void s.
Proof. intros H. inversion H. Qed.

Lemma lang_eps_inv s : lang Eps s -> s = EmptyString.
Proof. intros H. inversion H. reflexivity. Qed.

Lemma lang_class_inv p s :
  lang (Class p) s -> exists c, s = String c EmptyString /\ p c = true.
Proof. intros H. inversion H; subst. eauto. Qed.

Lemma lang_cat_inv r1 r2 s :
  lang (Cat r1 r2) s -> exists s1 s2, s = s1 +:+ s2 /\ lang r1 s1 /\ lang r2 s2.
Proof. intros H. inversion H; subst. eauto. Qed.

Lemma lang_alt_inv r1 r2 s : lang (Alt r1 r2) s -> lang r1 s \/ lang r2 s.
Proof. intros H. inversion H; subst; auto. Qed.

(** A non-empty word of [r*] starts with a non-empty word of [r]. *)
Lemma lang_star_cons_inv r c s :
  lang (Star r) (String c s) ->
  exists s1 s2, s = s1 +:+ s2 /\ lang r (String c s1) /\ lang (Star r) s2.
Proof.
  intros H. remember (Star r) as r' eqn:Er. remember (String c s) as t eqn:Et.
  revert Er Et. induction H as [| | | | | |r0 s1 s2 H1 _ H2 IH2]; try discriminate.
  intros [= ->] Et. destruct s1 as [|c1 s1].
  - apply IH2; [reflexivity|exact Et].
  - rewrite str_app_cons in Et. injection Et as -> <-. eauto.
Qed.

Lemma nullable_spec r : nullable r = true <-> lang r EmptyString.
Proof.
  induction r as [| |p|r1 IH1 r2 IH2|r1 IH1 r2 IH2|r IH]; cbn.
  - split; [discriminate|]. intros H. destruct (lang_void_inv _ H).
  - split; [constructor|reflexivity].
  - split; [discriminate|]. intros H.
    apply lang_class_inv in H as (c & H & _). discriminate.
  - rewrite andb_true_iff, IH1, IH2. split.
    + intros [H1 H2]. exact (L_cat _ _ _ _ H1 H2).
    + intros H. apply lang_cat_inv in H as (s1 & s2 & E & H1 & H2).
      symmetry in E. apply str_app_eq_nil in E as [-> ->]. auto.
  - rewrite orb_true_iff, IH1, IH2. split.
    + intros [H|H]; [apply L_alt_l|apply L_alt_r]; exact H.
    + apply lang_alt_inv.
  - split; [constructor|reflexivity].
Qed.

Lemma deriv_spec c r s : lang (deriv c r) s <-> lang r (String c s).
Proof.
  revert s. induction r as [| |p|r1 IH1 r2 IH2|r1 IH1 r2 IH2|r IH]; intros s; cbn.
  - split; intros H; destruct (lang_void_inv _ H).
  - split; intros H; [destruct (lang_void_inv _ H)|].
    apply lang_eps_inv in H. discriminate.
  - split.
    + destruct (p c) eqn:E; intros H; [|destruct (lang_void_inv _ H)].
      apply lang_eps_inv in H as ->. constructor. exact E.
    + intros H. apply lang_class_inv in H as (c' & [= -> ->] & E).
      rewrite E. constructor.
  - assert (Hleft : forall t, lang (Cat (deriv c r1) r2) t -> lang (Cat r1 r2) (String c t)).
    { intros t H. apply lang_cat_inv in H as (s1 & s2 & -> & H1 & H2).
      apply IH1 in H1. rewrite <- str_app_cons. constructor; assumption. }
    assert (Hright : lang (Cat r1 r2) (String c s) ->
                     lang (Cat (deriv c r1) r2) s \/
                     (lang r1 EmptyString /\ lang r2 (String c s))).
    { intros H. apply lang_cat_inv in H as (s1 & s2 & E & H1 & H2).
      destruct s1 as [|c1 s1].
      - right. change (EmptyString +:+ s2) with s2 in E. subst s2. auto.
      - rewrite str_app_cons in E. injection E as <- ->. left.
        constructor; [apply IH1; exact H1|exact H2]. }
    destruct (nullable r1) eqn:En.
    + split.
      * intros H. apply lang_alt_inv in H as [H|H]; [apply Hleft; exact H|].
        apply IH2 in H. apply nullable_spec in En.
        exact (L_cat _ _ _ _ En H).
      * intros H. apply Hright in H as [H|[_ H]];
          [apply L_alt_l; exact H|apply L_alt_r, IH2; exact H].
    + split; [apply Hleft|].
      intros H. apply Hright in H as [H|[H _]]; [exact H|].
      apply nullable_spec in H. congruence.
  - split.
    + intros H. apply lang_alt_inv in H as [H|H];
        [apply L_alt_l, IH1|apply L_alt_r, IH2]; exact H.
    + intros H. apply lang_alt_inv in H as [H|H];
        [apply L_alt_l, IH1|apply L_alt_r, IH2]; exact H.
  - split.
    + intros H. apply lang_cat_inv in H as (s1 & s2 & -> & H1 & H2).
      apply IH in H1. rewrite <- str_app_cons. constructor; assumption.
    + intros H. apply lang_star_cons_inv in H as (s1 & s2 & -> & H1 & H2).
      constructor; [apply IH; exact H1|exact H2].
Qed.

Theorem fullmatch_spec r s : fullmatch r s = true <-> lang r s.
Proof.
  revert r. induction s as [|c s IH]; intros r; cbn.
  - apply nullable_spec.
  - rewrite IH. apply deriv_spec.
Qed.

End RegexFacts.

(** ** The experience validator *)

Lemma ends_with_newline_rstrip s : Re.ends_with_newline (Py.rstrip s) = false.
Proof.
  induction s as [|c s IH]; [reflexivity|]. cbn [Py.rstrip].
  destruct (Py.isspace c) eqn:Ec; destruct (Py.rstrip s) as [|c' r] eqn:Er;
    cbn [andb Py.is_empty]; try reflexivity.
  - cbn [Re.ends_with_newline]. exact IH.
  - cbn [Re.ends_with_newline]. destruct (Py.is_char "010" c) eqn:E; [|reflexivity].
    apply is_char_eq in E. subst c. discriminate.
  - cbn [Re.ends_with_newline]. exact IH.
Qed.

Lemma match_anchored_strip r x :
  Re.match_anchored r (Py.strip x) = Re.fullmatch r (Py.strip x).
Proof.
  unfold Re.match_anchored, Py.strip. rewrite ends_with_newline_rstrip.
  cbn [andb]. apply orb_false_r.
Qed.

Lemma lang_star_class p s : Re.lang (Re.Star (Re.Class p)) s <-> Py.all_chars p s = true.
Proof.
  split.
  - intros H. remember (Re.Star (Re.Class p)) as r eqn:Er. revert Er.
    induction H as [| | | | | |r0 s1 s2 H1 _ H2 IH2]; try discriminate.
    + reflexivity.
    + intros [= ->]. apply lang_class_inv in H1 as (c & -> & Hc).
      change (String c EmptyString +:+ s2) with (String c s2).
      cbn. rewrite Hc. apply IH2. reflexivity.
  - induction s as [|c s IH]; cbn; [constructor|].
    rewrite andb_true_iff. intros [Hc Hs].
    change (String c s) with (String c EmptyString +:+ s).
    constructor; [constructor; exact Hc|apply IH; exact Hs].
Qed.

Lemma lang_plus_class p s :
  Re.lang (Re.Plus (Re.Class p)) s <-> Py.truthy s = true /\ Py.all_chars p s = true.
Proof.
  unfold Re.Plus. split.
  - intros H. apply lang_cat_inv in H as (s1 & s2 & -> & H1 & H2).
    apply lang_class_inv in H1 as (c & -> & Hc). apply lang_star_class in H2.
    change (String c EmptyString +:+ s2) with (String c s2).
    cbn. rewrite Hc, H2. auto.
  - destruct s as [|c s]; cbn; [intros [? _]; discriminate|].
    rewrite andb_true_iff. intros [_ [Hc Hs]].
    change (String c s) with (String c EmptyString +:+ s).
    constructor; [constructor; exact Hc|apply lang_star_class; exact Hs].
Qed.



Lemma isdigit_not_dot c : Py.isdigit c = true -> Py.is_char "." c = false.
Proof.
  intros H. destruct (Py.is_char "." c) eqn:E; [|reflexivity].
  apply is_char_eq in E. subst c. discriminate.
Qed.





(** ** A data-collection turn *)

Section DataCollectionTurn.

Variable float_repr : spec_float -> string.
Variable json_loads : string -> option Json.

Lemma turn_data_collection chat s prompt :
  conversation_phase s = DATA_COLLECTION ->
  Py.any_in EXIT_KEYWORDS (Py.lower prompt) = false ->
  turn float_repr json_loads chat s prompt =
    (out ← data_collection_turn float_repr chat (first_name (cd_name (candidate_data s)))
             prompt (append_message user prompt s);
     Ok (record_response out)).
Proof.
  intros Hp He. rewrite turn_unfold, He. unfold phase_branch.
  cbn [conversation_phase append_message with_messages]. rewrite Hp. reflexivity.
Qed.

Lemma turn_invalid chat s prompt st :
  conversation_phase s = DATA_COLLECTION ->
  Py.any_in EXIT_KEYWORDS (Py.lower prompt) = false ->
  lookup_key (current_step s) DATA_STEPS = Ok st ->
  validation st chat prompt = false ->
  turn float_repr json_loads chat s prompt =
    Ok (append_message assistant
          (retry_message (first_name (cd_name (candidate_data s))) (error_msg st))
          (append_message user prompt s),
        retry_message (first_name (cd_name (candidate_data s))) (error_msg st)).
Proof.
  intros Hp He Hl Hv. rewrite (turn_data_collection _ _ _ Hp He).
  rewrite (data_collection_turn_invalid float_repr chat _ prompt _ st); [reflexivity| |exact Hv].
  exact Hl.
Qed.

Lemma stored_experience_reads st prompt chat d :
  validation st chat prompt = true ->
  field_index (field st) = 4 -> st = STEP_EXPERIENCE ->
  float_reads (cd_experience (set_field (field st) prompt d)) = true.
Proof.
  intros Hv _ ->. cbn in *. apply validate_experience_float_reads. exact Hv.
Qed.

Lemma turn_valid chat s prompt st :
  conversation_phase s = DATA_COLLECTION ->
  Py.any_in EXIT_KEYWORDS (Py.lower prompt) = false ->
  lookup_key (current_step s) DATA_STEPS = Ok st ->
  validation st chat prompt = true ->
  exists r0 r,
    acknowledgement float_repr (current_step s) (first_name (cd_name (candidate_data s)))
      (set_field (field st) prompt (candidate_data s)) = Ok r0 /\
    r = (if 7 <? current_step s + 1
         then confirmation_request (first_name (cd_name (candidate_data s)))
                (data_summary (set_field (field st) prompt (candidate_data s)))
         else r0) /\
    Py.truthy r = true /\
    turn float_repr json_loads chat s prompt =
      Ok (append_message assistant r
            (accepted_state (field st) prompt (append_message user prompt s)), r).
Proof.
  intros Hp He Hl Hv. rewrite (turn_data_collection _ _ _ Hp He).
  rewrite (data_collection_turn_valid float_repr chat _ prompt _ st); [|exact Hl|exact Hv].
  cbn [current_step candidate_data append_message with_messages].
  destruct (lookup_step_index _ _ Hl) as [Hi Hr].
  destruct (acknowledgement_defined float_repr (current_step s)
              (first_name (cd_name (candidate_data s)))
              (set_field (field st) prompt (candidate_data s)) Hr)
    as (r0 & Hr0 & H6 & H7).
  { intros H4. apply lookup_step_cases in Hl. rewrite H4 in Hl.
    repeat destruct Hl as [Hl|Hl]; destruct Hl as [Hk Hst]; try discriminate.
    eapply stored_experience_reads; [exact Hv| |exact Hst]. rewrite Hi. exact H4. }
  rewrite Hr0. cbn [mbind result_bind].
  exists r0. eexists. split; [reflexivity|]. split; [reflexivity|].
  assert (Ht : Py.truthy
                 (if 7 <? current_step s + 1
                  then confirmation_request (first_name (cd_name (candidate_data s)))
                         (data_summary (set_field (field st) prompt (candidate_data s)))
                  else r0) = true).
  { destruct (Z.ltb_spec 7 (current_step s + 1)); [reflexivity|]. apply H6. lia. }
  split; [exact Ht|]. unfold record_response. cbn [fst snd]. rewrite Ht. reflexivity.
Qed.

End DataCollectionTurn.

(** ** Sequences *)

Lemma norm_index_in_range len i :
  0 <= i < len -> norm_index len i = Some (Z.to_nat i).
Proof.
  intros H. unfold norm_index.
  destruct (Z.leb_spec 0 i); [|lia]. destruct (Z.ltb_spec i len); [|lia]. reflexivity.
Qed.

Lemma getitem_in_range {A : Type} (l : list A) i :
  0 <= i < Z.of_nat (length l) ->
  exists x, getitem l i = Ok x /\ l !! Z.to_nat i = Some x.
Proof.
  intros H. unfold getitem. rewrite (norm_index_in_range _ _ H). cbn [mbind option_bind].
  destruct (l !! Z.to_nat i) as [x|] eqn:E; [exists x; auto|].
  apply lookup_ge_None in E. lia.
Qed.

Lemma setitem_in_range {A : Type} (l : list A) i x :
  0 <= i < Z.of_nat (length l) ->
  setitem l i x = Ok (<[Z.to_nat i := x]> l).
Proof.
  intros H. unfold setitem. rewrite (norm_index_in_range _ _ H). reflexivity.
Qed.

(** ** The question parser *)

Lemma lstrip_prefix s : exists l, s = l +:+ Py.lstrip s.
Proof.
  induction s as [|c s [l IH]]; [exists EmptyString; reflexivity|]. cbn.
  destruct (Py.isspace c); [|exists EmptyString; reflexivity].
  exists (String c l). rewrite str_app_cons, <- IH. reflexivity.
Qed.

Lemma rstrip_suffix s : exists r, s = Py.rstrip s +:+ r.
Proof.
  induction s as [|c s [r IH]]; [exists EmptyString; reflexivity|]. cbn.
  destruct (Py.isspace c && Py.is_empty (Py.rstrip s)).
  - exists (String c s). reflexivity.
  - exists r. rewrite str_app_cons, <- IH. reflexivity.
Qed.

Lemma occurs_in_strip sub s : occurs_in sub (Py.strip s) -> occurs_in sub s.
Proof.
  unfold Py.strip. intros H.
  destruct (lstrip_prefix s) as [l Hl]. destruct (rstrip_suffix (Py.lstrip s)) as [r Hr].
  rewrite Hl, Hr. apply occurs_in_app_r, occurs_in_app_l. exact H.
Qed.

Lemma split1_occurs c s :
  occurs_in (String c EmptyString) s -> exists a b, Py.split1 c s = [a; b].
Proof.
  intros (pre & post & ->). induction pre as [|a pre (a0 & b & IH)].
  - change (EmptyString +:+ String c EmptyString +:+ post) with (String c post).
    cbn [Py.split1]. rewrite (proj2 (is_char_eq c c) eq_refl). eauto.
  - rewrite str_app_cons. cbn [Py.split1]. rewrite IH.
    destruct (Py.is_char c a); eauto.
Qed.

Lemma match_prefix_numbered t :
  Re.match_prefix NUMBERED_RE t = true <->
  exists d rest, t = String d (String "." rest) /\ Py.isdigit d = true.
Proof.
  unfold Re.match_prefix. rewrite fullmatch_spec. unfold NUMBERED_RE. split.
  - intros H. apply lang_cat_inv in H as (s1 & rest & -> & H1 & _).
    apply lang_cat_inv in H1 as (sd & sdot & -> & Hd & Hdot).
    apply lang_class_inv in Hd as (d & -> & Hd).
    apply lang_class_inv in Hdot as (c & -> & Hc). apply is_char_eq in Hc. subst c.
    exists d, rest. split; [reflexivity|exact Hd].
  - intros (d & rest & -> & Hd).
    change (String d (String "." rest))
      with ((String d EmptyString +:+ String "." EmptyString) +:+ rest).
    constructor.
    + constructor; constructor; [exact Hd|apply is_char_eq; reflexivity].
    + apply lang_star_class. clear. induction rest; cbn; auto.
Qed.

Lemma is_numbered_split line :
  is_numbered line = true -> exists a b, Py.split1 "." line = [a; b].
Proof.
  unfold is_numbered. rewrite andb_true_iff. intros [_ H].
  apply match_prefix_numbered in H as (d & rest & H & _).
  apply split1_occurs, occurs_in_strip. rewrite H.
  exists (String d EmptyString), rest. reflexivity.
Qed.

(** The comprehension never raises: it reads the text after the first
    dot of each numbered line. *)
Lemma numbered_lines_spec lines :
  numbered_lines lines = Ok (map question_text (List.filter is_numbered lines)).
Proof.
  induction lines as [|line lines IH]; [reflexivity|].
  cbn [numbered_lines List.filter]. fold (is_numbered line).
  destruct (is_numbered line) eqn:E; [|exact IH].
  destruct (is_numbered_split _ E) as (a & b & Hs).
  rewrite IH, Hs. cbn [map]. unfold question_text at 2. rewrite Hs. reflexivity.
Qed.

Lemma experience_level_defined experience :
  float_reads experience = true -> exists level, experience_level experience = Ok level.
Proof.
  unfold float_reads, experience_level. destruct (Float.parse experience); [|discriminate].
  intros _. eexists. reflexivity.
Qed.

(** [generate_technical_questions], case by case. *)
Lemma generate_technical_questions_unfold chat tech_stack experience :
  generate_technical_questions chat tech_stack experience =
    match experience_level experience with
    | Ok level =>
        match chat (questions_request level tech_stack) with
        | Content text =>
            if Z.of_nat (length (parsed_questions text)) =? 5
            then parsed_questions text else fallback_questions
        | _ => fallback_questions
        end
    | Raise _ => fallback_questions
    end.
Proof.
  unfold generate_technical_questions, generate_try.
  destruct (experience_level experience) as [level|e]; [|reflexivity].
  cbn [mbind result_bind].
  destruct (chat (questions_request level tech_stack)) as [| |text]; try reflexivity.
  cbn [content_text of_option mbind result_bind]. rewrite numbered_lines_spec.
  cbn [mbind result_bind mret result_ret]. fold (parsed_questions text).
  destruct (Z.eqb_spec (Z.of_nat (length (parsed_questions text))) 5) as [E|E];
    [|reflexivity].
  rewrite take_ge by lia. reflexivity.
Qed.

Lemma generate_technical_questions_length chat tech_stack experience :
  length (generate_technical_questions chat tech_stack experience) = 5%nat.
Proof.
  rewrite generate_technical_questions_unfold.
  destruct (experience_level experience) as [level|e]; [|reflexivity].
  destruct (chat (questions_request level tech_stack)) as [| |text]; try reflexivity.
  destruct (Z.eqb_spec (Z.of_nat (length (parsed_questions text))) 5) as [E|E];
    [lia|reflexivity].
Qed.

(** ** The other turns *)

Ltac state_simpl :=
  cbn [candidate_data current_step conversation_phase technical_questions
       technical_answers current_question_index retry_count messages
       with_candidate_data with_current_step with_conversation_phase
       with_technical_questions with_technical_answers with_current_question_index
       with_messages append_message fst snd] in *.

Section OtherTurns.

Variable float_repr : spec_float -> string.
Variable json_loads : string -> option Json.

Lemma turn_greeting chat s prompt :
  conversation_phase s = GREETING ->
  Py.any_in EXIT_KEYWORDS (Py.lower prompt) = false ->
  turn float_repr json_loads chat s prompt =
    Ok (record_response
          (with_conversation_phase DATA_COLLECTION (append_message user prompt s),
           get_ai_response chat (messages s ++ [mkMessage user prompt])
             (get_system_prompt GREETING))).
Proof.
  intros Hp He. rewrite turn_unfold, He. unfold phase_branch. state_simpl.
  rewrite Hp. reflexivity.
Qed.

Lemma turn_conclusion chat s prompt :
  conversation_phase s = CONCLUSION ->
  Py.any_in EXIT_KEYWORDS (Py.lower prompt) = false ->
  turn float_repr json_loads chat s prompt =
    Ok (record_response
          (with_conversation_phase ENDED (append_message user prompt s),
           get_ai_response chat (messages s ++ [mkMessage user prompt])
             (get_system_prompt CONCLUSION))).
Proof.
  intros Hp He. rewrite turn_unfold, He. unfold phase_branch. state_simpl.
  rewrite Hp. reflexivity.
Qed.

Lemma turn_ended chat s prompt :
  conversation_phase s = ENDED ->
  Py.any_in EXIT_KEYWORDS (Py.lower prompt) = false ->
  turn float_repr json_loads chat s prompt = Ok (append_message user prompt s, EmptyString).
Proof.
  intros Hp He. rewrite turn_unfold, He. unfold phase_branch. state_simpl.
  rewrite Hp. reflexivity.
Qed.

Lemma data_confirmation_turn_defined chat first prompt s :
  exists r, Py.truthy r = true /\
    data_confirmation_turn chat first prompt s =
      Ok (if Py.any_in AFFIRMATIVE (Py.lower prompt) then confirmed_state chat s else s, r).
Proof.
  unfold data_confirmation_turn, confirmed_state.
  destruct (Py.any_in AFFIRMATIVE (Py.lower prompt)).
  - state_simpl.
    destruct (getitem_in_range
                (generate_technical_questions chat (cd_tech_stack (candidate_data s))
                   (cd_experience (candidate_data s))) 0) as (q & Hq & _).
    { rewrite generate_technical_questions_length. lia. }
    rewrite Hq. cbn [mbind result_bind mret result_ret]. eexists. split; [|reflexivity].
    apply truthy_app_r. reflexivity.
  - eexists. split; [|reflexivity]. reflexivity.
Qed.

Lemma turn_data_confirmation chat s prompt :
  conversation_phase s = DATA_CONFIRMATION ->
  Py.any_in EXIT_KEYWORDS (Py.lower prompt) = false ->
  exists r, Py.truthy r = true /\
    turn float_repr json_loads chat s prompt =
      Ok (append_message assistant r
            (if Py.any_in AFFIRMATIVE (Py.lower prompt)
             then confirmed_state chat (append_message user prompt s)
             else append_message user prompt s), r).
Proof.
  intros Hp He. rewrite turn_unfold, He. unfold phase_branch. state_simpl. rewrite Hp.
  destruct (data_confirmation_turn_defined chat (first_name (cd_name (candidate_data s)))
              prompt (append_message user prompt s)) as (r & Hr & ->).
  exists r. split; [exact Hr|]. cbn [mbind result_bind]. unfold record_response.
  cbn [fst snd]. rewrite Hr. reflexivity.
Qed.

Lemma technical_questions_turn_defined chat first prompt s :
  0 <= current_question_index s < Z.of_nat (length (technical_questions s)) ->
  current_question_index s < Z.of_nat (length (technical_answers s)) ->
  float_reads (cd_experience (candidate_data s)) = true ->
  exists question level suffix,
    technical_questions s !! Z.to_nat (current_question_index s) = Some question /\
    experience_level (cd_experience (candidate_data s)) = Ok level /\
    ((current_question_index s + 1 <? Z.of_nat (length (technical_questions s))) = true ->
       exists next,
         technical_questions s !! Z.to_nat (current_question_index s + 1) = Some next /\
         suffix = next_question_text first (current_question_index s + 1 + 1) next) /\
    ((current_question_index s + 1 <? Z.of_nat (length (technical_questions s))) = false ->
       suffix = congratulations first) /\
    technical_questions_turn json_loads chat first prompt s =
      (fields ← dict_of
                 (evaluate_technical_answer json_loads chat question prompt first level
                    (cd_tech_stack (candidate_data s)));
       Ok (answered_state prompt s, feedback_text fields first +:+ suffix)).
Proof.
  intros Hi Ha Hf. unfold technical_questions_turn, answered_state.
  destruct (getitem_in_range (technical_questions s) _ Hi) as (q & Hq & Hq').
  destruct (experience_level_defined _ Hf) as [level Hl].
  rewrite Hq, Hl. cbn [mbind result_bind].
  destruct (Z.ltb_spec (current_question_index s + 1)
              (Z.of_nat (length (technical_questions s)))) as [Hlt|Hge].
  - destruct (getitem_in_range (technical_questions s) (current_question_index s + 1))
      as (next & Hn & Hn'); [lia|].
    exists q, level, (next_question_text first (current_question_index s + 1 + 1) next).
    split; [exact Hq'|]. split; [reflexivity|].
    split; [intros _; exists next; auto|]. split; [discriminate|].
    destruct (evaluate_technical_answer _ _ _ _ _ _ _) as [fields|];
      cbn [dict_of mbind result_bind]; [|reflexivity].
    rewrite setitem_in_range by lia. cbn [mbind result_bind]. state_simpl.
    destruct (Z.ltb_spec (current_question_index s + 1)
                (Z.of_nat (length (technical_questions s)))); [|lia].
    rewrite Hn. reflexivity.
  - exists q, level, (congratulations first).
    split; [exact Hq'|]. split; [reflexivity|].
    split; [discriminate|]. split; [reflexivity|].
    destruct (evaluate_technical_answer _ _ _ _ _ _ _) as [fields|];
      cbn [dict_of mbind result_bind]; [|reflexivity].
    rewrite setitem_in_range by lia. cbn [mbind result_bind]. state_simpl.
    destruct (Z.ltb_spec (current_question_index s + 1)
                (Z.of_nat (length (technical_questions s)))); [lia|].
    reflexivity.
Qed.

Lemma feedback_text_truthy evaluation first suffix :
  Py.truthy (feedback_text evaluation first +:+ suffix) = true.
Proof.
  apply truthy_app_l. unfold feedback_text. apply truthy_app_r. reflexivity.
Qed.

Lemma turn_technical_questions chat s prompt :
  conversation_phase s = TECHNICAL_QUESTIONS ->
  Py.any_in EXIT_KEYWORDS (Py.lower prompt) = false ->
  0 <= current_question_index s < Z.of_nat (length (technical_questions s)) ->
  current_question_index s < Z.of_nat (length (technical_answers s)) ->
  float_reads (cd_experience (candidate_data s)) = true ->
  exists question level suffix,
    technical_questions s !! Z.to_nat (current_question_index s) = Some question /\
    experience_level (cd_experience (candidate_data s)) = Ok level /\
    ((current_question_index s + 1 <? Z.of_nat (length (technical_questions s))) = true ->
       exists next,
         technical_questions s !! Z.to_nat (current_question_index s + 1) = Some next /\
         suffix = next_question_text (first_name (cd_name (candidate_data s)))
                    (current_question_index s + 1 + 1) next) /\
    ((current_question_index s + 1 <? Z.of_nat (length (technical_questions s))) = false ->
       suffix = congratulations (first_name (cd_name (candidate_data s)))) /\
    turn_evaluation json_loads chat s prompt =
      Ok (evaluate_technical_answer json_loads chat question prompt
            (first_name (cd_name (candidate_data s))) level
            (cd_tech_stack (candidate_data s))) /\
    turn float_repr json_loads chat s prompt =
      match evaluate_technical_answer json_loads chat question prompt
              (first_name (cd_name (candidate_data s))) level
              (cd_tech_stack (candidate_data s)) with
      | JObject fields =>
          let r := feedback_text fields (first_name (cd_name (candidate_data s))) +:+
                   suffix in
          Ok (append_message assistant r
                (answered_state prompt (append_message user prompt s)), r)
      | JOther => Raise AttributeError
      end.
Proof.
  intros Hp He Hi Ha Hf. rewrite turn_unfold, He. unfold phase_branch. state_simpl.
  rewrite Hp.
  destruct (technical_questions_turn_defined chat (first_name (cd_name (candidate_data s)))
              prompt (append_message user prompt s))
    as (q & level & suffix & Hq & Hl & Hnext & Hlast & Ht); try assumption.
  state_simpl. exists q, level, suffix.
  split; [exact Hq|]. split; [exact Hl|]. split; [exact Hnext|]. split; [exact Hlast|].
  split.
  { unfold turn_evaluation. unfold getitem.
    rewrite norm_index_in_range by exact Hi. cbn [mbind option_bind].
    rewrite Hq, Hl. reflexivity. }
  rewrite Ht.
  destruct (evaluate_technical_answer _ _ _ _ _ _ _) as [fields|];
    cbn [dict_of mbind result_bind]; [|reflexivity].
  unfold record_response. cbn [fst snd].
  rewrite feedback_text_truthy. reflexivity.
Qed.

End OtherTurns.

(** ** The invariant *)

Lemma is_empty_true s : Py.is_empty s = true <-> s = EmptyString.
Proof. destruct s; cbn; split; congruence. Qed.

Lemma field_ok_spec step d f :
  field_ok step d f = true <->
  (field_index f < step -> get_field f d <> EmptyString) /\
  (step <= field_index f -> get_field f d = EmptyString).
Proof.
  unfold field_ok. destruct (Z.ltb_spec (field_index f) step).
  - rewrite truthy_true. split; [intros H0; split; [auto|lia]|intros [H0 _]; auto].
  - rewrite is_empty_true. split; [intros H0; split; [lia|auto]|intros [_ H0]; auto].
Qed.

Lemma data_ok_spec step d :
  data_ok step d = true <->
  (forall f, field_ok step d f = true) /\
  (4 < step -> float_reads (cd_experience d) = true).
Proof.
  unfold data_ok. rewrite andb_true_iff, forallb_forall, orb_true_iff, Z.leb_le. split.
  - intros [Hall Hf]. split; [|intros; destruct Hf; [lia|assumption]].
    intros f. apply Hall. destruct f; cbn; tauto.
  - intros [Hall Hf]. split; [intros f _; apply Hall|].
    destruct (Z.le_gt_cases step 4); [left; assumption|right; apply Hf; lia].
Qed.

Lemma data_ok_step chat step d st prompt :
  data_ok step d = true ->
  lookup_key step DATA_STEPS = Ok st ->
  validation st chat prompt = true ->
  prompt <> EmptyString ->
  data_ok (step + 1) (set_field (field st) prompt d) = true.
Proof.
  intros Hd Hl Hv Hp. destruct (lookup_step_index _ _ Hl) as [Hi Hr].
  apply data_ok_spec in Hd as [Hall Hf]. apply data_ok_spec. split.
  - intros f. apply field_ok_spec. destruct (decide (field st = f)) as [<-|Hne].
    + rewrite get_set_field_eq. split; [auto|lia].
    + rewrite get_set_field_ne by exact Hne.
      assert (field_index f <> step).
      { intros E. apply Hne, field_index_inj. congruence. }
      specialize (Hall f). apply field_ok_spec in Hall as [H1 H2].
      split; intros; [apply H1|apply H2]; lia.
  - intros H4. destruct (Z.eq_dec step 4) as [->|Hne].
    + apply lookup_step_cases in Hl.
      repeat destruct Hl as [Hl|Hl]; destruct Hl as [Hk ->]; try discriminate.
      cbn. apply validate_experience_float_reads. exact Hv.
    + change (cd_experience (set_field (field st) prompt d))
        with (get_field Experience (set_field (field st) prompt d)).
      rewrite get_set_field_ne; [apply Hf; lia|].
      intros E. rewrite E in Hi. cbn in Hi. lia.
Qed.

Lemma data_ok_current_field_empty step d st :
  data_ok step d = true ->
  lookup_key step DATA_STEPS = Ok st ->
  get_field (field st) d = EmptyString.
Proof.
  intros Hd Hl. destruct (lookup_step_index _ _ Hl) as [Hi _].
  apply data_ok_spec in Hd as [Hall _]. specialize (Hall (field st)).
  apply field_ok_spec in Hall as [_ H]. apply H. lia.
Qed.

Lemma wfb_append_message r c s : wfb (append_message r c s) = wfb s.
Proof. reflexivity. Qed.

Lemma wf_greeting s :
  wf s -> conversation_phase s = GREETING ->
  current_step s = 1 /\ data_ok 1 (candidate_data s) = true /\ current_question_index s = 0.
Proof.
  unfold wf, wfb. intros H Hp. rewrite Hp in H. rewrite !andb_true_iff, !Z.eqb_eq in H. tauto.
Qed.

Lemma wf_data_collection s :
  wf s -> conversation_phase s = DATA_COLLECTION ->
  1 <= current_step s <= 7 /\ data_ok (current_step s) (candidate_data s) = true /\
  current_question_index s = 0.
Proof.
  unfold wf, wfb. intros H Hp. rewrite Hp in H. rewrite !andb_true_iff, !Z.leb_le, Z.eqb_eq in H. tauto.
Qed.

Lemma wf_data_confirmation s :
  wf s -> conversation_phase s = DATA_CONFIRMATION ->
  current_step s = 8 /\ data_ok 8 (candidate_data s) = true /\ current_question_index s = 0.
Proof.
  unfold wf, wfb. intros H Hp. rewrite Hp in H. rewrite !andb_true_iff, !Z.eqb_eq in H. tauto.
Qed.

Lemma wf_technical_questions s :
  wf s -> conversation_phase s = TECHNICAL_QUESTIONS ->
  current_step s = 8 /\ data_ok 8 (candidate_data s) = true /\
  length (technical_questions s) = 5%nat /\ length (technical_answers s) = 5%nat /\
  0 <= current_question_index s < 5.
Proof.
  unfold wf, wfb. intros H Hp. rewrite Hp in H.
  rewrite !andb_true_iff, !Z.eqb_eq, Z.leb_le, Z.ltb_lt in H.
  destruct H as (((((? & ?) & ?) & ?) & ?) & ?). repeat split; try assumption; lia.
Qed.

Lemma data_ok_float_reads d : data_ok 8 d = true -> float_reads (cd_experience d) = true.
Proof. intros H. apply data_ok_spec in H as [_ H]. apply H. lia. Qed.

Section Invariant.

Variable float_repr : spec_float -> string.
Variable json_loads : string -> option Json.

Lemma data_extends_refl d : data_extends d d.
Proof. intros f _. reflexivity. Qed.

Lemma data_extends_trans d1 d2 d3 :
  data_extends d1 d2 -> data_extends d2 d3 -> data_extends d1 d3.
Proof.
  intros H12 H23 f Hf. rewrite <- (H12 f Hf). apply H23. rewrite (H12 f Hf). exact Hf.
Qed.

Lemma record_response_messages s r :
  messages (fst (record_response (s, r))) =
    messages s ++ (if Py.truthy r then [mkMessage assistant r] else []).
Proof. apply (record_response_frame (s, r)). Qed.

(** The evaluation of a technical-questions turn of a well-formed
    state, and the two ways the turn goes. *)
Lemma turn_technical_questions_wf chat s prompt :
  wf s -> conversation_phase s = TECHNICAL_QUESTIONS ->
  Py.any_in EXIT_KEYWORDS (Py.lower prompt) = false ->
  exists evaluation,
    turn_evaluation json_loads chat s prompt = Ok evaluation /\
    match evaluation with
    | JObject fields =>
        exists suffix,
          turn float_repr json_loads chat s prompt =
            Ok (append_message assistant
                  (feedback_text fields (first_name (cd_name (candidate_data s))) +:+ suffix)
                  (answered_state prompt (append_message user prompt s)),
                feedback_text fields (first_name (cd_name (candidate_data s))) +:+ suffix)
    | JOther => turn float_repr json_loads chat s prompt = Raise AttributeError
    end.
Proof.
  intros Hwf Hp He.
  destruct (wf_technical_questions _ Hwf Hp) as (H8 & Hd & Hq & Ha & Hi).
  destruct (turn_technical_questions float_repr json_loads chat s prompt Hp He)
    as (q & level & suffix & _ & _ & _ & _ & Hev & Ht);
    [lia|lia|apply data_ok_float_reads; exact Hd|].
  eexists. split; [exact Hev|].
  destruct (evaluate_technical_answer _ _ _ _ _ _ _) as [fields|]; [|exact Ht].
  exists suffix. exact Ht.
Qed.

(** A technical-questions turn whose evaluation is not an object raises
    at [evaluation.get]. *)
Lemma turn_raises chat s prompt :
  wf s -> evaluation_is_no_object json_loads chat s prompt = true ->
  turn float_repr json_loads chat s prompt = Raise AttributeError.
Proof.
  unfold evaluation_is_no_object. rewrite !andb_true_iff, negb_true_iff, bool_decide_eq_true.
  intros Hwf [[He Hp] Hev].
  destruct (turn_technical_questions_wf chat s prompt Hwf Hp He) as (ev & Hev' & Ht).
  rewrite Hev' in Hev. destruct ev; [discriminate|exact Ht].
Qed.

(** Any other processed turn of a well-formed state returns, keeps the
    state well formed, keeps every stored value, and appends its entries
    to the history. *)
Lemma turn_preserves chat s prompt :
  wf s -> prompt <> EmptyString ->
  evaluation_is_no_object json_loads chat s prompt = false ->
  exists s' bot_response,
    turn float_repr json_loads chat s prompt = Ok (s', bot_response) /\
    wf s' /\
    data_extends (candidate_data s) (candidate_data s') /\
    messages s' = messages s ++ turn_entries prompt bot_response /\
    conversation_phase s' = next_phase chat s prompt /\
    (Py.truthy bot_response = false -> silent_reply chat s prompt).
Proof.
  intros Hwf Hprompt Hobj. unfold turn_entries, next_phase, silent_reply.
  destruct (Py.any_in EXIT_KEYWORDS (Py.lower prompt)) eqn:He.
  { eexists _, _. split; [apply turn_exit; exact He|].
    split; [reflexivity|]. split; [apply data_extends_refl|].
    split; [cbn; rewrite <- List.app_assoc; reflexivity|].
    split; [reflexivity|]. intros H. discriminate H. }
  destruct (conversation_phase s) eqn:Hp.
  - (* greeting *)
    rewrite (turn_greeting _ _ _ _ _ Hp He).
    destruct (wf_greeting _ Hwf Hp) as (H1 & Hd & Hi).
    set (r := get_ai_response chat (messages s ++ [mkMessage user prompt])
                (get_system_prompt GREETING)).
    eexists _, _. split; [unfold record_response; cbn [fst snd]; reflexivity|].
    destruct (Py.truthy r) eqn:Et.
    + split; [unfold wf, wfb; state_simpl; rewrite H1, Hd, Hi; reflexivity|].
      split; [apply data_extends_refl|].
      split; [cbn; rewrite <- List.app_assoc; reflexivity|].
      split; [reflexivity|discriminate].
    + split; [unfold wf, wfb; state_simpl; rewrite H1, Hd, Hi; reflexivity|].
      split; [apply data_extends_refl|]. split; [reflexivity|].
      split; [reflexivity|]. intros _. split; [reflexivity|]. right.
      split; [left; reflexivity|]. apply truthy_false. exact Et.
  - (* data collection *)
    destruct (wf_data_collection _ Hwf Hp) as (Hr & Hd & Hi).
    destruct (lookup_step_defined _ Hr) as [st Hl].
    unfold step_accepts. rewrite Hl.
    destruct (validation st chat prompt) eqn:Hv.
    + destruct (turn_valid float_repr json_loads chat s prompt st Hp He Hl Hv)
        as (r0 & r & _ & _ & Hr' & Ht).
      eexists _, _. split; [exact Ht|]. rewrite Hr'.
      pose proof (data_ok_step chat _ _ _ _ Hd Hl Hv Hprompt) as Hd'.
      assert (Hext : data_extends (candidate_data s)
                       (set_field (field st) prompt (candidate_data s))).
      { intros f Hf. apply get_set_field_ne. intros <-.
        apply Hf. eapply data_ok_current_field_empty; eassumption. }
      unfold wf. rewrite wfb_append_message. unfold accepted_state. state_simpl.
      destruct (Z.ltb_spec 7 (current_step s + 1)).
      * assert (current_step s = 7) as E by lia. rewrite E in *.
        change (7 + 1) with 8 in *.
        split; [unfold wfb; state_simpl; rewrite Hd', Hi; reflexivity|].
        split; [exact Hext|].
        split; [cbn; rewrite <- List.app_assoc; reflexivity|].
        split; [reflexivity|discriminate].
      * split.
        { unfold wfb. state_simpl. rewrite Hp, Hd', Hi.
          destruct (Z.leb_spec 1 (current_step s + 1)); [|lia].
          destruct (Z.leb_spec (current_step s + 1) 7); [|lia]. reflexivity. }
        split; [exact Hext|].
        split; [cbn; rewrite <- List.app_assoc; reflexivity|].
        split; [|discriminate]. state_simpl. rewrite Hp.
        destruct (Z.eqb_spec (current_step s) 7); [lia|reflexivity].
    + rewrite (turn_invalid float_repr json_loads chat s prompt st Hp He Hl Hv).
      eexists _, _. split; [reflexivity|]. split; [exact Hwf|].
      split; [apply data_extends_refl|].
      split; [cbn; rewrite <- List.app_assoc; reflexivity|].
      split; [exact Hp|]. intros H. discriminate H.
  - (* data confirmation *)
    destruct (wf_data_confirmation _ Hwf Hp) as (H8 & Hd & Hi).
    destruct (turn_data_confirmation float_repr json_loads chat s prompt Hp He)
      as (r & Hr & Ht).
    eexists _, _. split; [exact Ht|]. rewrite Hr.
    unfold wf. rewrite wfb_append_message.
    destruct (Py.any_in AFFIRMATIVE (Py.lower prompt)).
    + split.
      { unfold confirmed_state, wfb. state_simpl.
        rewrite length_replicate, generate_technical_questions_length, H8, Hd, Hi.
        reflexivity. }
      split; [apply data_extends_refl|].
      split; [cbn; rewrite <- List.app_assoc; reflexivity|].
      split; [reflexivity|discriminate].
    + split; [exact Hwf|]. split; [apply data_extends_refl|].
      split; [cbn; rewrite <- List.app_assoc; reflexivity|].
      split; [exact Hp|discriminate].
  - (* technical questions *)
    destruct (wf_technical_questions _ Hwf Hp) as (H8 & Hd & Hq & Ha & Hi).
    destruct (turn_technical_questions_wf chat s prompt Hwf Hp He) as (ev & Hev & Ht).
    unfold evaluation_is_no_object in Hobj.
    rewrite He, Hp, Hev, bool_decide_eq_true_2 in Hobj by reflexivity.
    destruct ev as [fields|]; [|discriminate Hobj]. destruct Ht as [suffix Ht].
    eexists _, _. split; [exact Ht|]. rewrite feedback_text_truthy.
    unfold wf. rewrite wfb_append_message. unfold answered_state. state_simpl.
    rewrite Hq. change (Z.of_nat 5) with 5.
    destruct (Z.ltb_spec (current_question_index s + 1) 5).
    + split.
      { unfold wfb. state_simpl. rewrite Hp, length_insert, Hq, Ha, H8, Hd.
        change (Z.of_nat 5) with 5.
        destruct (Z.leb_spec 0 (current_question_index s + 1)); [|lia].
        destruct (Z.ltb_spec (current_question_index s + 1) 5); [|lia]. reflexivity. }
      split; [apply data_extends_refl|].
      split; [cbn; rewrite <- List.app_assoc; reflexivity|].
      split; [exact Hp|discriminate].
    + split.
      { unfold wfb. state_simpl. apply Z.eqb_eq. lia. }
      split; [apply data_extends_refl|].
      split; [cbn; rewrite <- List.app_assoc; reflexivity|].
      split; [reflexivity|discriminate].
  - (* conclusion *)
    rewrite (turn_conclusion _ _ _ _ _ Hp He).
    set (r := get_ai_response chat (messages s ++ [mkMessage user prompt])
                (get_system_prompt CONCLUSION)).
    eexists _, _. split; [unfold record_response; cbn [fst snd]; reflexivity|].
    destruct (Py.truthy r) eqn:Et.
    + split; [reflexivity|]. split; [apply data_extends_refl|].
      split; [cbn; rewrite <- List.app_assoc; reflexivity|].
      split; [reflexivity|discriminate].
    + split; [reflexivity|]. split; [apply data_extends_refl|]. split; [reflexivity|].
      split; [reflexivity|]. intros _. split; [reflexivity|]. right.
      split; [right; reflexivity|]. apply truthy_false. exact Et.
  - (* ended *)
    rewrite (turn_ended _ _ _ _ _ Hp He).
    eexists _, _. split; [reflexivity|].
    split; [unfold wf; rewrite wfb_append_message; exact Hwf|].
    split; [apply data_extends_refl|]. split; [reflexivity|].
    split; [exact Hp|]. intros _. split; [reflexivity|]. left. reflexivity.
Qed.

(** A turn that returns did not meet an evaluation without [get]. *)
Lemma turn_ok_object chat s prompt out :
  wf s -> turn float_repr json_loads chat s prompt = Ok out ->
  evaluation_is_no_object json_loads chat s prompt = false.
Proof.
  intros Hwf Ht. destruct (evaluation_is_no_object json_loads chat s prompt) eqn:E;
    [|reflexivity].
  rewrite (turn_raises chat s prompt Hwf E) in Ht. discriminate Ht.
Qed.

End Invariant.

(** ** Sessions *)

Section SessionFacts.

Variable float_repr : spec_float -> string.
Variable json_loads : string -> option Json.

Lemma initial_state_wf : wf initial_state.
Proof. reflexivity. Qed.

Lemma session_step_preserves s s' :
  wf s -> session_step float_repr json_loads s s' ->
  wf s' /\ data_extends (candidate_data s) (candidate_data s').
Proof.
  intros Hwf Hstep. destruct Hstep as [chat s prompt s' r _ Hprompt Ht].
  destruct (turn_preserves float_repr json_loads chat s prompt Hwf Hprompt
              (turn_ok_object float_repr json_loads _ _ _ _ Hwf Ht))
    as (s2 & r2 & Ht2 & Hwf2 & Hext & _).
  rewrite Ht in Ht2. injection Ht2 as <- <-. auto.
Qed.

Lemma session_steps_preserve s s' :
  rtc (session_step float_repr json_loads) s s' -> wf s ->
  wf s' /\ data_extends (candidate_data s) (candidate_data s').
Proof.
  induction 1 as [s|s s1 s2 Hstep _ IH]; intros Hwf.
  - split; [exact Hwf|apply data_extends_refl].
  - destruct (session_step_preserves _ _ Hwf Hstep) as [Hwf1 Hext1].
    destruct (IH Hwf1) as [Hwf2 Hext2].
    split; [exact Hwf2|eapply data_extends_trans; eassumption].
Qed.

(** Every state of a session is well formed. *)
Lemma reachable_wf s : reachable float_repr json_loads s -> wf s.
Proof. intros H. apply (session_steps_preserve _ _ H initial_state_wf). Qed.

End SessionFacts.

(** ** The claims about data collection *)

(** C3. A data-collection turn whose message holds no exit keyword and
    fails the validator of the current step leaves the step index, the
    candidate data and the phase as they were, and replies with a
    message in which the step's error message occurs; only the two
    messages of the turn are added to the state. *)
Theorem rejected_input_changes_nothing
    (float_repr : spec_float -> string)
    (json_loads : string -> option Json)
    (chat : Client) (s : State) (prompt : string) (st : DataStep) :
  conversation_phase s = DATA_COLLECTION ->
  Py.any_in EXIT_KEYWORDS (Py.lower prompt) = false ->
  lookup_key (current_step s) DATA_STEPS = Ok st ->
  validation st chat prompt = false ->
  exists s' bot_response,
    turn float_repr json_loads chat s prompt = Ok (s', bot_response) /\
    current_step s' = current_step s /\
    candidate_data s' = candidate_data s /\
    conversation_phase s' = DATA_COLLECTION /\
    occurs_in (error_msg st) bot_response /\
    bot_response = retry_message (first_name (cd_name (candidate_data s))) (error_msg st) /\
    technical_questions s' = technical_questions s /\
    technical_answers s' = technical_answers s /\
    current_question_index s' = current_question_index s /\
    retry_count s' = retry_count s /\
    messages s' = messages s ++ [mkMessage user prompt; mkMessage assistant bot_response].
Proof.
  intros Hp He Hl Hv.
  rewrite (turn_invalid float_repr json_loads chat s prompt st Hp He Hl Hv).
  eexists _, _. split; [reflexivity|]. state_simpl.
  split; [reflexivity|]. split; [reflexivity|]. split; [exact Hp|].
  split.
  { unfold retry_message. occurs. }
  split; [reflexivity|]. repeat (split; [reflexivity|]).
  rewrite <- List.app_assoc. reflexivity.
Qed.

Lemma rejected_input_changes_nothing_witness :
  conversation_phase at_email_step = DATA_COLLECTION /\
  Py.any_in EXIT_KEYWORDS (Py.lower "not-an-email") = false /\
  lookup_key (current_step at_email_step) DATA_STEPS = Ok STEP_EMAIL /\
  validation STEP_EMAIL failing_client "not-an-email" = false /\
  exists s',
    turn sample_float_repr sample_json_loads failing_client at_email_step "not-an-email" =
      Ok (s', "I need a bit more clarity, Jane. Please provide a valid email address. " +:+
              "Could you please try again? 😊") /\
    current_step s' = 2 /\ candidate_data s' = candidate_data at_email_step.
Proof.
  assert (H1 : conversation_phase at_email_step = DATA_COLLECTION) by reflexivity.
  assert (H2 : Py.any_in EXIT_KEYWORDS (Py.lower "not-an-email") = false) by reflexivity.
  assert (H3 : lookup_key (current_step at_email_step) DATA_STEPS = Ok STEP_EMAIL)
    by reflexivity.
  assert (H4 : validation STEP_EMAIL failing_client "not-an-email" = false) by reflexivity.
  repeat (split; [assumption|]).
  destruct (rejected_input_changes_nothing sample_float_repr sample_json_loads
              failing_client at_email_step "not-an-email" STEP_EMAIL H1 H2 H3 H4)
    as (s' & r & Ht & Hs & Hd & _ & _ & Hr & _).
  exists s'. rewrite Ht, Hr. split; [reflexivity|]. split; [exact Hs|exact Hd].
Defined.

Lemma accepted_state_data f prompt s :
  candidate_data (accepted_state f prompt s) = set_field f prompt (candidate_data s) /\
  current_step (accepted_state f prompt s) = current_step s + 1.
Proof. unfold accepted_state. destruct (7 <? current_step s + 1); split; reflexivity. Qed.



(** When every field holds a value the summary has its seven lines. *)
Lemma data_summary_full d :
  (forall f, get_field f d <> EmptyString) -> data_summary d = full_summary d.
Proof.
  intros H.
  pose proof (proj2 (truthy_true _) (H Name)) as H1.
  pose proof (proj2 (truthy_true _) (H Email)) as H2.
  pose proof (proj2 (truthy_true _) (H Phone)) as H3.
  pose proof (proj2 (truthy_true _) (H Experience)) as H4.
  pose proof (proj2 (truthy_true _) (H Position)) as H5.
  pose proof (proj2 (truthy_true _) (H Location)) as H6.
  pose proof (proj2 (truthy_true _) (H TechStack)) as H7.
  destruct d as [n e p x po l t]. cbn [get_field cd_name cd_email cd_phone cd_experience
    cd_position cd_location cd_tech_stack] in *.
  unfold data_summary, items, all_fields.
  cbn [map List.filter get_field field_key snd fst cd_name cd_email cd_phone cd_experience
       cd_position cd_location cd_tech_stack].
  rewrite H1, H2, H3, H4, H5, H6, H7. reflexivity.
Qed.

Lemma next_phase_confirmation chat s prompt :
  conversation_phase s <> DATA_CONFIRMATION ->
  next_phase chat s prompt = DATA_CONFIRMATION ->
  conversation_phase s = DATA_COLLECTION /\ current_step s = 7 /\
  Py.any_in EXIT_KEYWORDS (Py.lower prompt) = false /\
  validation STEP_TECH_STACK chat prompt = true.
Proof.
  unfold next_phase, step_accepts. intros Hne.
  destruct (Py.any_in EXIT_KEYWORDS (Py.lower prompt)); [discriminate|].
  destruct (conversation_phase s); try discriminate; try contradiction.
  - destruct (Z.eqb_spec (current_step s) 7) as [E|E].
    + rewrite E. cbn [lookup_key DATA_STEPS Z.eqb Pos.eqb].
      destruct (validation STEP_TECH_STACK chat prompt); [auto|discriminate].
    + rewrite andb_false_r. discriminate.
  - destruct (_ <? _); discriminate.
Qed.

(** C4. The data-collection turn of a session that accepts the message of
    step 7 moves to the confirmation phase, and its reply is the
    confirmation request around the summary of the seven stored values,
    each on its line, from the name to the technology stack; and a turn
    that enters the confirmation phase is such a turn. *)
Theorem last_step_opens_confirmation
    (float_repr : spec_float -> string)
    (json_loads : string -> option Json)
    (chat : Client) (s : State) (prompt : string) :
  wf s ->
  conversation_phase s = DATA_COLLECTION ->
  prompt <> EmptyString ->
  Py.any_in EXIT_KEYWORDS (Py.lower prompt) = false ->
  current_step s = 7 ->
  validation STEP_TECH_STACK chat prompt = true ->
  (exists s' bot_response,
     turn float_repr json_loads chat s prompt = Ok (s', bot_response) /\
     conversation_phase s' = DATA_CONFIRMATION /\
     candidate_data s' = set_field TechStack prompt (candidate_data s) /\
     (forall f, get_field f (candidate_data s') <> EmptyString) /\
     bot_response =
       confirmation_request (first_name (cd_name (candidate_data s)))
                            (full_summary (candidate_data s')) /\
     occurs_in (full_summary (candidate_data s')) bot_response /\
     occurs_in "Please type 'yes' to confirm or tell me what to change." bot_response) /\
  (forall chat0 s0 prompt0 s1 bot_response1,
     wf s0 -> prompt0 <> EmptyString ->
     turn float_repr json_loads chat0 s0 prompt0 = Ok (s1, bot_response1) ->
     conversation_phase s0 <> DATA_CONFIRMATION ->
     conversation_phase s1 = DATA_CONFIRMATION ->
     conversation_phase s0 = DATA_COLLECTION /\ current_step s0 = 7 /\
     Py.any_in EXIT_KEYWORDS (Py.lower prompt0) = false /\
     validation STEP_TECH_STACK chat0 prompt0 = true).
Proof.
  intros Hwf Hp Hprompt He H7 Hv. split.
  - assert (Hl : lookup_key (current_step s) DATA_STEPS = Ok STEP_TECH_STACK).
    { rewrite H7. reflexivity. }
    destruct (turn_valid float_repr json_loads chat s prompt _ Hp He Hl Hv)
      as (r0 & r & _ & Hr & _ & Ht).
    destruct (wf_data_collection _ Hwf Hp) as (_ & Hd & _).
    pose proof (data_ok_step chat _ _ _ _ Hd Hl Hv Hprompt) as Hd'.
    rewrite H7 in Hd', Hr. change (7 + 1) with 8 in Hd'.
    change (7 <? 7 + 1) with true in Hr. cbn [field STEP_TECH_STACK] in *.
    assert (Hfull : forall f,
              get_field f (set_field TechStack prompt (candidate_data s)) <> EmptyString).
    { intros f. apply data_ok_spec in Hd' as [Hall _]. specialize (Hall f).
      apply field_ok_spec in Hall as [Hall _]. apply Hall. destruct f; cbn; lia. }
    rewrite (data_summary_full _ Hfull) in Hr.
    eexists _, _. split; [exact Ht|]. state_simpl.
    destruct (accepted_state_data TechStack prompt (append_message user prompt s))
      as [Hcd _]. rewrite Hcd. state_simpl.
    split; [unfold accepted_state; state_simpl; rewrite H7; reflexivity|].
    split; [reflexivity|]. split; [exact Hfull|]. split; [exact Hr|].
    rewrite Hr. unfold confirmation_request. split; occurs.
  - intros chat0 s0 prompt0 s1 r1 Hwf0 Hprompt0 Ht0 Hne H1.
    destruct (turn_preserves float_repr json_loads chat0 s0 prompt0 Hwf0 Hprompt0
                (turn_ok_object float_repr json_loads _ _ _ _ Hwf0 Ht0))
      as (s2 & r2 & Ht2 & _ & _ & _ & Hph & _).
    rewrite Ht0 in Ht2. injection Ht2 as <- <-. rewrite Hph in H1.
    apply next_phase_confirmation; assumption.
Qed.

Lemma last_step_opens_confirmation_witness :
  wf at_tech_stack_step /\
  conversation_phase at_tech_stack_step = DATA_COLLECTION /\
  "Python, Go" <> EmptyString /\
  Py.any_in EXIT_KEYWORDS (Py.lower "Python, Go") = false /\
  current_step at_tech_stack_step = 7 /\
  validation STEP_TECH_STACK failing_client "Python, Go" = true /\
  exists s',
    turn sample_float_repr sample_json_loads failing_client at_tech_stack_step
      "Python, Go" =
      Ok (s', confirmation_request "Jane" (full_summary jane)) /\
    conversation_phase s' = DATA_CONFIRMATION /\
    candidate_data s' = jane.
Proof.
  assert (H1 : wf at_tech_stack_step) by reflexivity.
  assert (H2 : conversation_phase at_tech_stack_step = DATA_COLLECTION) by reflexivity.
  assert (H3 : "Python, Go" <> EmptyString) by discriminate.
  assert (H4 : Py.any_in EXIT_KEYWORDS (Py.lower "Python, Go") = false) by reflexivity.
  assert (H5 : current_step at_tech_stack_step = 7) by reflexivity.
  assert (H6 : validation STEP_TECH_STACK failing_client "Python, Go" = true)
    by reflexivity.
  repeat (split; [assumption|]).
  destruct (last_step_opens_confirmation sample_float_repr sample_json_loads
              failing_client at_tech_stack_step "Python, Go" H1 H2 H3 H4 H5 H6)
    as [(s' & r & Ht & Hp & Hd & _ & Hr & _) _].
  exists s'. rewrite Ht, Hr, Hd. split; [reflexivity|]. split; [exact Hp|reflexivity].
Defined.

(** ** The technical questions *)




(** ** The message history *)





(** ** The acknowledgements *)

(** C7 at the step that stores the name: the first name read before the
    turn is the placeholder, so the acknowledgement of "Jane Doe" greets
    "there" and the name just stored does not occur in it. *)
Lemma name_acknowledgement_greets_placeholder :
  exists s',
    turn sample_float_repr sample_json_loads failing_client at_name_step "Jane Doe" =
      Ok (s', "Hi there! Thanks for sharing your full name. Next, " +:+
              "Could you please share your email address?") /\
    cd_name (candidate_data s') = "Jane Doe" /\
    first_name (cd_name (candidate_data s')) = "Jane" /\
    Py.contains "Jane"
      ("Hi there! Thanks for sharing your full name. Next, " +:+
       "Could you please share your email address?") = false.
Proof. eexists. repeat split. Qed.

(** The acknowledgements of the steps 2 to 6 do name the candidate. *)
Lemma later_acknowledgements_name_candidate
    (float_repr : spec_float -> string)
    (json_loads : string -> option Json)
    (chat : Client) (s : State) (prompt : string) (st : DataStep) :
  wf s ->
  conversation_phase s = DATA_COLLECTION ->
  Py.any_in EXIT_KEYWORDS (Py.lower prompt) = false ->
  lookup_key (current_step s) DATA_STEPS = Ok st ->
  validation st chat prompt = true ->
  2 <= current_step s <= 6 ->
  exists s' bot_response,
    turn float_repr json_loads chat s prompt = Ok (s', bot_response) /\
    cd_name (candidate_data s) <> EmptyString /\
    occurs_in (hd EmptyString (Py.split_on " " (cd_name (candidate_data s)))) bot_response.
Proof.
  intros Hwf Hp He Hl Hv Hr.
  destruct (turn_valid float_repr json_loads chat s prompt st Hp He Hl Hv)
    as (r0 & r & Hack & -> & _ & Ht).
  destruct (wf_data_collection _ Hwf Hp) as (_ & Hd & _).
  assert (Hname : cd_name (candidate_data s) <> EmptyString).
  { apply data_ok_spec in Hd as [Hall _]. specialize (Hall Name).
    apply field_ok_spec in Hall as [Hall _]. apply Hall. cbn. lia. }
  eexists _, _. split; [exact Ht|]. split; [exact Hname|].
  destruct (Z.ltb_spec 7 (current_step s + 1)); [lia|].
  destruct (acknowledgement_defined float_repr (current_step s)
              (first_name (cd_name (candidate_data s)))
              (set_field (field st) prompt (candidate_data s))) as (r1 & Hr1 & H6 & _);
    [lia| |].
  { intros H4. unfold acknowledgement in Hack. rewrite H4 in Hack.
    cbn [Z.eqb Pos.eqb] in Hack. unfold float_reads.
    destruct (Float.parse _); [reflexivity|discriminate]. }
  rewrite Hack in Hr1. injection Hr1 as <-.
  destruct H6 as [Hocc _]; [lia|]. unfold first_name in Hocc.
  apply truthy_true in Hname. rewrite Hname in Hocc. exact Hocc.
Qed.

(** ** The experience step *)


(** The value compared is the parsed one: a decimal just above 50 that
    [float] rounds to 50 is accepted. *)
Example experience_compares_parsed_value :
  Float.parse "50.00000000000000000000001" = Some (Float.of_Z 50) /\
  validate_experience "50.00000000000000000000001" = true /\
  validate_experience "50.1" = false.
Proof. repeat split. Qed.

(** ** The generated questions *)

(** C6, as stated, fails: a reply of five numbered lines with nothing
    after the dot is parsed into five empty questions. *)
Lemma empty_questions_counterexample :
  generate_technical_questions bare_numbers_client "Python, Go" "3.5" =
    [EmptyString; EmptyString; EmptyString; EmptyString; EmptyString] /\
  ~ Forall (fun q => q <> EmptyString)
      (generate_technical_questions bare_numbers_client "Python, Go" "3.5").
Proof.
  assert (H : generate_technical_questions bare_numbers_client "Python, Go" "3.5" =
              [EmptyString; EmptyString; EmptyString; EmptyString; EmptyString])
    by (vm_compute; reflexivity).
  split; [exact H|]. rewrite H. intros Hall. inversion Hall as [|q l Hq _]; subst.
  apply Hq. reflexivity.
Qed.

(** C6, amended. [generate_technical_questions] always returns exactly
    five texts.  It returns the five non-empty fallback questions when
    the experience is not a number, when the call fails or brings no
    text, and when the reply does not hold exactly five numbered lines;
    otherwise it returns, in order, what follows the first dot of each of
    the five numbered lines, stripped. *)
Theorem generate_questions_returns_five
    (chat : Client) (tech_stack experience : string) :
  length (generate_technical_questions chat tech_stack experience) = 5%nat /\
  length fallback_questions = 5%nat /\
  Forall (fun q => q <> EmptyString) fallback_questions /\
  (forall e, experience_level experience = Raise e ->
     generate_technical_questions chat tech_stack experience = fallback_questions) /\
  (forall level, experience_level experience = Ok level ->
     (chat (questions_request level tech_stack) = Raised \/
      chat (questions_request level tech_stack) = NoContent ->
      generate_technical_questions chat tech_stack experience = fallback_questions) /\
     (forall text, chat (questions_request level tech_stack) = Content text ->
        (length (List.filter is_numbered (Py.split_on "010" text)) <> 5%nat ->
         generate_technical_questions chat tech_stack experience = fallback_questions) /\
        (length (List.filter is_numbered (Py.split_on "010" text)) = 5%nat ->
         generate_technical_questions chat tech_stack experience =
           map question_text (List.filter is_numbered (Py.split_on "010" text))))).
Proof.
  split; [apply generate_technical_questions_length|]. split; [reflexivity|].
  split; [repeat constructor; discriminate|].
  rewrite generate_technical_questions_unfold. split.
  - intros e ->. reflexivity.
  - intros level ->. split.
    + intros [-> | ->]; reflexivity.
    + intros text ->. unfold parsed_questions. rewrite length_map. split.
      * intros Hne. destruct (Z.eqb_spec (Z.of_nat
          (length (List.filter is_numbered (Py.split_on "010" text)))) 5); [lia|reflexivity].
      * intros ->. reflexivity.
Qed.

Lemma exit_keyword_ends_session_witness :
  (exists keyword, In keyword EXIT_KEYWORDS /\
                   occurs_in keyword (Py.lower "Goodbye, Maya!")) /\
  exists s',
    turn sample_float_repr sample_json_loads failing_client at_email_step
      "Goodbye, Maya!" = Ok (s', "Thank you for your time! Best of luck, Jane! 👋") /\
    conversation_phase s' = ENDED /\
    current_step s' = 2.
Proof.
  assert (H : exists keyword, In keyword EXIT_KEYWORDS /\
                              occurs_in keyword (Py.lower "Goodbye, Maya!")).
  { exists "bye". split; [cbn; auto|]. exists "good", ", maya!". reflexivity. }
  split; [exact H|].
  destruct (exit_keyword_ends_session sample_float_repr sample_json_loads failing_client
              at_email_step "Goodbye, Maya!" H)
    as (s' & r & Ht & Hp & Hr & _ & _ & _ & Hs & _).
  exists s'. rewrite Ht, Hr. split; [reflexivity|]. split; [exact Hp|exact Hs].
Defined.

(** ** The record view of the session and the chat block *)

Lemma phase_of_name_phases p : phase_of_name (CONVERSATION_PHASES p) = Some p.
Proof. destruct p; reflexivity. Qed.

(** The record read back from the keys it was written under. *)
Lemma read_write_state s : read_state (write_state s) = Some s.
Proof.
  unfold read_state, write_state.
  repeat (rewrite lookup_insert_eq || (rewrite lookup_insert_ne by discriminate)).
  rewrite phase_of_name_phases. destruct s. reflexivity.
Qed.

Section ChatBlock.

Variable float_repr : spec_float -> string.
Variable json_loads : string -> option Json.

(** Nothing is processed once the session has ended, nor without a text. *)
Lemma chat_input_idle chat s submitted :
  conversation_phase s = ENDED \/ submitted = None \/ submitted = Some EmptyString ->
  chat_input float_repr json_loads chat s submitted = Ok s.
Proof.
  unfold chat_input. intros [H|[->| ->]].
  - destruct (decide (conversation_phase s = ENDED)); [reflexivity|contradiction].
  - destruct (decide _); reflexivity.
  - destruct (decide _); reflexivity.
Qed.

(** Otherwise the chat block runs the turn, and in a session it ends in a
    well-formed state, unless the evaluation of an answer is not an
    object. *)
Lemma chat_input_processes chat s prompt :
  wf s -> conversation_phase s <> ENDED -> prompt <> EmptyString ->
  evaluation_is_no_object json_loads chat s prompt = false ->
  exists s', chat_input float_repr json_loads chat s (Some prompt) = Ok s' /\
             session_step float_repr json_loads s s' /\ wf s'.
Proof.
  intros Hwf Hne Hprompt Hobj. unfold chat_input.
  destruct (decide (conversation_phase s = ENDED)); [contradiction|].
  rewrite (proj2 (truthy_true prompt) Hprompt).
  destruct (turn_preserves float_repr json_loads chat s prompt Hwf Hprompt Hobj)
    as (s' & r & Ht & Hwf' & _).
  rewrite Ht. exists s'. split; [reflexivity|]. split; [|exact Hwf'].
  exact (processed_turn _ _ chat s prompt s' r Hne Hprompt Ht).
Qed.

End ChatBlock.

(** ** Scenarios *)

Example name_step_scenarios :
  validate_name "Jane Doe" = true /\
  validate_name "Jane123" = false /\
  validate_name "Mary-Ann O'Neil" = true /\
  validate_name "Jane" = false.
Proof. repeat split. Qed.

Example email_step_scenarios :
  validate_email "not-an-email" = false /\
  validate_email "jane@example.com" = true /\
  validate_email "jane@example.c" = false.
Proof. repeat split. Qed.

Example phone_step_scenarios :
  validate_phone "+1 (555) 123-4567" = true /\
  validate_phone "555-1234" = false.
Proof. repeat split. Qed.

(** The plausibility check follows the model's word, and the length of
    the input when the call fails. *)
Example position_step_scenarios :
  validation STEP_POSITION agreeing_client "Data Engineer" = true /\
  validation STEP_POSITION refusing_client "Data Engineer" = false /\
  validation STEP_POSITION failing_client "QA" = false /\
  validation STEP_POSITION failing_client "QA lead" = true.
Proof. repeat split. Qed.

Example experience_step_scenario :
  exists s',
    turn sample_float_repr sample_json_loads failing_client at_experience_step "3.5" =
      Ok (s', "Jane! With 3.5 years of experience, you're building a solid foundation! " +:+
              "Next, What position are you interested in applying for?") /\
    cd_experience (candidate_data s') = "3.5" /\
    current_step s' = 5.
Proof. eexists. repeat split. Qed.

(** A keyword inside a word ends the session as well. *)
Example exit_keyword_inside_word :
  Py.any_in EXIT_KEYWORDS (Py.lower "Backend Developer") = true.
Proof. reflexivity. Qed.

(** * Further properties of the engine *)

(** ** A turn, as a function of the state *)

Section TurnCore.

Variable float_repr : spec_float -> string.
Variable json_loads : string -> option Json.

(** In a well-formed state a turn whose evaluation, if any, is an object
    returns: it records its reply on the state [turn_core] describes. *)
Lemma turn_core_spec chat s prompt :
  wf s ->
  evaluation_is_no_object json_loads chat s prompt = false ->
  exists bot_response,
    turn float_repr json_loads chat s prompt =
      Ok (record_response (turn_core chat s prompt, bot_response)).
Proof.
  intros Hwf Hobj. unfold turn_core.
  destruct (Py.any_in EXIT_KEYWORDS (Py.lower prompt)) eqn:He.
  { exists (farewell (first_name (cd_name (candidate_data s)))).
    rewrite (turn_exit float_repr json_loads chat s prompt He). reflexivity. }
  destruct (conversation_phase s) eqn:Hp.
  - eexists. apply (turn_greeting _ _ _ _ _ Hp He).
  - destruct (wf_data_collection _ Hwf Hp) as (Hr & _ & _).
    destruct (lookup_step_defined _ Hr) as [st Hl]. rewrite Hl.
    destruct (validation st chat prompt) eqn:Hv.
    + destruct (turn_valid float_repr json_loads chat s prompt st Hp He Hl Hv)
        as (r0 & r & _ & _ & Hr' & Ht).
      exists r. rewrite Ht. unfold record_response. cbn [fst snd]. rewrite Hr'. reflexivity.
    + exists (retry_message (first_name (cd_name (candidate_data s))) (error_msg st)).
      rewrite (turn_invalid float_repr json_loads chat s prompt st Hp He Hl Hv).
      reflexivity.
  - destruct (turn_data_confirmation float_repr json_loads chat s prompt Hp He)
      as (r & Hr & Ht).
    exists r. rewrite Ht. unfold record_response. cbn [fst snd]. rewrite Hr. reflexivity.
  - destruct (turn_technical_questions_wf float_repr json_loads chat s prompt Hwf Hp He)
      as (ev & Hev & Ht).
    unfold evaluation_is_no_object in Hobj.
    rewrite He, Hp, Hev, bool_decide_eq_true_2 in Hobj by reflexivity.
    destruct ev as [fields|]; [|discriminate Hobj]. destruct Ht as [suffix Ht].
    eexists. rewrite Ht. unfold record_response. cbn [fst snd].
    rewrite feedback_text_truthy. reflexivity.
  - eexists. apply (turn_conclusion _ _ _ _ _ Hp He).
  - exists EmptyString. rewrite (turn_ended _ _ _ _ _ Hp He). reflexivity.
Qed.

(** What a step of a session is, in these terms. *)
Lemma session_step_core s s' :
  wf s -> session_step float_repr json_loads s s' ->
  exists chat prompt bot_response,
    conversation_phase s <> ENDED /\ prompt <> EmptyString /\
    s' = fst (record_response (turn_core chat s prompt, bot_response)).
Proof.
  intros Hwf Hstep. destruct Hstep as [chat s prompt s' r Hne Hprompt Ht].
  destruct (turn_core_spec chat s prompt Hwf
              (turn_ok_object float_repr json_loads _ _ _ _ Hwf Ht)) as [r' Ht'].
  rewrite Ht in Ht'. injection Ht' as -> _.
  exists chat, prompt, r'. auto.
Qed.

(** A property kept by every step from a well-formed state holds all
    along a session. *)
Lemma session_invariant (P : State -> Prop) :
  P initial_state ->
  (forall s s', wf s -> P s -> session_step float_repr json_loads s s' -> P s') ->
  forall s, reachable float_repr json_loads s -> P s.
Proof.
  intros Hinit Hstep. unfold reachable. apply rtc_ind_r; [exact Hinit|].
  intros s1 s2 Hr1 Hs IH.
  apply (Hstep s1 s2); [apply (reachable_wf float_repr json_loads); exact Hr1|exact IH|exact Hs].
Qed.

End TurnCore.

(** ** Exceptions *)

Ltac split_branches :=
  repeat match goal with
         | |- context [if ?b then _ else _] => destruct b
         | |- context [match ?x with _ => _ end] => destruct x
         end.

(** The evaluation is the text of the model decoded, or the fixed
    object: it is no object only when the model answered the evaluation
    request with a text that decodes to a value of another kind. *)
Lemma evaluation_no_object_reply json_loads chat question answer name level tech_stack :
  evaluate_technical_answer json_loads chat question answer name level tech_stack = JOther ->
  exists request text,
    req_json_object request = true /\ chat request = Content text /\
    json_loads text = Some JOther.
Proof.
  unfold evaluate_technical_answer. cbv zeta.
  match goal with |- context [chat ?r] => set (request := r) end.
  intros H. exists request.
  destruct (chat request) as [| |text] eqn:Hc; cbn in H; try discriminate H.
  exists text. split; [reflexivity|]. split; [reflexivity|].
  destruct (json_loads text) as [[fields|]|]; cbn in H; try discriminate H. reflexivity.
Qed.

(** X1. A turn of a session raises one exception only, the
    [AttributeError] of an evaluation that is not an object.  From a
    state reached from the start of a session, a non-empty message
    either is a technical-questions answer for which the model returned
    a text that decodes to a JSON value other than an object, and the
    turn raises that error; or it is processed to the end, and the
    state it leaves is again a state of the session.  So no turn raises
    outside the technical questions, and none raises when the call of
    the model fails or its text does not decode. *)
Theorem session_turn_raises_only_on_evaluation
    (float_repr : spec_float -> string)
    (json_loads : string -> option Json)
    (chat : Client) (s : State) (prompt : string) :
  reachable float_repr json_loads s ->
  conversation_phase s <> ENDED ->
  prompt <> EmptyString ->
  (evaluation_is_no_object json_loads chat s prompt = true ->
     turn float_repr json_loads chat s prompt = Raise AttributeError /\
     conversation_phase s = TECHNICAL_QUESTIONS /\
     Py.any_in EXIT_KEYWORDS (Py.lower prompt) = false /\
     exists request text,
       req_json_object request = true /\ chat request = Content text /\
       json_loads text = Some JOther) /\
  (evaluation_is_no_object json_loads chat s prompt = false ->
     exists s' bot_response,
       turn float_repr json_loads chat s prompt = Ok (s', bot_response) /\
       reachable float_repr json_loads s') /\
  (forall e, turn float_repr json_loads chat s prompt = Raise e ->
     e = AttributeError /\ evaluation_is_no_object json_loads chat s prompt = true).
Proof.
  intros Hr Hne Hprompt. pose proof (reachable_wf _ _ _ Hr) as Hwf.
  assert (Hok : evaluation_is_no_object json_loads chat s prompt = false ->
                exists s' bot_response,
                  turn float_repr json_loads chat s prompt = Ok (s', bot_response) /\
                  reachable float_repr json_loads s').
  { intros Hobj.
    destruct (turn_preserves float_repr json_loads chat s prompt Hwf Hprompt Hobj)
      as (s' & r & Ht & _).
    exists s', r. split; [exact Ht|].
    eapply rtc_r; [exact Hr|].
    exact (processed_turn _ _ chat s prompt s' r Hne Hprompt Ht). }
  split; [|split; [exact Hok|]].
  - intros Hobj. split; [apply (turn_raises float_repr json_loads chat s prompt Hwf Hobj)|].
    unfold evaluation_is_no_object in Hobj.
    rewrite !andb_true_iff, negb_true_iff, bool_decide_eq_true in Hobj.
    destruct Hobj as [[He Hp] Hev]. split; [exact Hp|]. split; [exact He|].
    destruct (turn_technical_questions float_repr json_loads chat s prompt Hp He)
      as (q & level & suffix & _ & _ & _ & _ & Hev' & _).
    { destruct (wf_technical_questions _ Hwf Hp) as (_ & _ & Hq & _ & Hi). lia. }
    { destruct (wf_technical_questions _ Hwf Hp) as (_ & _ & _ & Ha & Hi). lia. }
    { destruct (wf_technical_questions _ Hwf Hp) as (_ & Hd & _).
      apply data_ok_float_reads. exact Hd. }
    rewrite Hev' in Hev.
    destruct (evaluate_technical_answer json_loads chat q prompt _ level _) eqn:E;
      [discriminate Hev|].
    apply (evaluation_no_object_reply _ _ _ _ _ _ _ E).
  - intros e Ht.
    destruct (evaluation_is_no_object json_loads chat s prompt) eqn:Hobj.
    + rewrite (turn_raises float_repr json_loads chat s prompt Hwf Hobj) in Ht.
      injection Ht as <-. auto.
    + destruct (Hok eq_refl) as (s' & r & Ht' & _). congruence.
Qed.



(** X3. In the technical-questions phase, a cursor at or past the end of
    the question list makes a turn without exit keyword stop with an
    [IndexError]: no answer is recorded and the model is not asked. *)
Theorem cursor_past_questions_raises
    (float_repr : spec_float -> string)
    (json_loads : string -> option Json)
    (chat : Client) (s : State) (prompt : string) :
  conversation_phase s = TECHNICAL_QUESTIONS ->
  Py.any_in EXIT_KEYWORDS (Py.lower prompt) = false ->
  Z.of_nat (length (technical_questions s)) <= current_question_index s ->
  turn float_repr json_loads chat s prompt = Raise IndexError.
Proof.
  intros Hp He Hi. rewrite turn_unfold, He. unfold phase_branch. state_simpl.
  rewrite Hp. unfold technical_questions_turn, getitem, norm_index. state_simpl.
  destruct (Z.ltb_spec (current_question_index s)
              (Z.of_nat (length (technical_questions s)))); [lia|].
  rewrite andb_false_r.
  destruct (Z.ltb_spec (current_question_index s) 0); [lia|].
  rewrite andb_false_r. reflexivity.
Qed.

Lemma cursor_past_questions_raises_witness :
  conversation_phase without_questions = TECHNICAL_QUESTIONS /\
  Py.any_in EXIT_KEYWORDS (Py.lower "Rust") = false /\
  Z.of_nat (length (technical_questions without_questions)) <=
    current_question_index without_questions /\
  turn sample_float_repr sample_json_loads failing_client without_questions "Rust" =
    Raise IndexError.
Proof.
  assert (H1 : conversation_phase without_questions = TECHNICAL_QUESTIONS) by reflexivity.
  assert (H2 : Py.any_in EXIT_KEYWORDS (Py.lower "Rust") = false) by reflexivity.
  assert (H3 : Z.of_nat (length (technical_questions without_questions)) <=
               current_question_index without_questions) by (cbn; lia).
  repeat (split; [assumption|]).
  exact (cursor_past_questions_raises sample_float_repr sample_json_loads failing_client
           without_questions "Rust" H1 H2 H3).
Defined.

(** ** What a turn leaves alone *)

Lemma turn_core_messages chat s prompt :
  messages (turn_core chat s prompt) = messages s ++ [mkMessage user prompt].
Proof.
  unfold turn_core, accepted_state, confirmed_state, answered_state.
  split_branches; reflexivity.
Qed.

Lemma turn_core_retry_count chat s prompt :
  retry_count (turn_core chat s prompt) = retry_count s.
Proof.
  unfold turn_core, accepted_state, confirmed_state, answered_state.
  split_branches; reflexivity.
Qed.

(** The profile and the step index move together, and only when the
    current step accepts the message. *)
Lemma turn_core_data chat s prompt :
  (candidate_data (turn_core chat s prompt) = candidate_data s /\
   current_step (turn_core chat s prompt) = current_step s) \/
  (conversation_phase s = DATA_COLLECTION /\
   exists st, lookup_key (current_step s) DATA_STEPS = Ok st /\
              validation st chat prompt = true /\
              candidate_data (turn_core chat s prompt) =
                set_field (field st) prompt (candidate_data s) /\
              current_step (turn_core chat s prompt) = current_step s + 1).
Proof.
  unfold turn_core.
  destruct (Py.any_in EXIT_KEYWORDS (Py.lower prompt)); [left; split; reflexivity|].
  destruct (conversation_phase s) eqn:Hp; try (left; split; reflexivity).
  - destruct (lookup_key (current_step s) DATA_STEPS) as [st|e] eqn:Hl;
      [|left; split; reflexivity].
    destruct (validation st chat prompt) eqn:Hv; [|left; split; reflexivity].
    right. split; [reflexivity|]. exists st.
    destruct (accepted_state_data (field st) prompt (append_message user prompt s))
      as [Hd Hs]. auto.
  - unfold confirmed_state. destruct (Py.any_in AFFIRMATIVE (Py.lower prompt));
      left; split; reflexivity.
  - unfold answered_state. state_simpl. destruct (_ <? _); left; split; reflexivity.
Qed.

(** The question list is written by the confirmation only. *)
Lemma turn_core_questions chat s prompt :
  conversation_phase s <> DATA_CONFIRMATION ->
  technical_questions (turn_core chat s prompt) = technical_questions s.
Proof.
  intros Hne. unfold turn_core, accepted_state, answered_state.
  destruct (conversation_phase s); try contradiction; split_branches; reflexivity.
Qed.

(** The cursor and the answers are written by an answer only. *)
Lemma turn_core_cursor chat s prompt :
  (current_question_index (turn_core chat s prompt) = current_question_index s /\
   (technical_answers (turn_core chat s prompt) = technical_answers s \/
    conversation_phase s = DATA_CONFIRMATION)) \/
  (conversation_phase s = TECHNICAL_QUESTIONS /\
   Py.any_in EXIT_KEYWORDS (Py.lower prompt) = false /\
   current_question_index (turn_core chat s prompt) = current_question_index s + 1 /\
   technical_answers (turn_core chat s prompt) =
     <[Z.to_nat (current_question_index s) := prompt]> (technical_answers s)).
Proof.
  unfold turn_core.
  destruct (Py.any_in EXIT_KEYWORDS (Py.lower prompt)); [left; split; [|left]; reflexivity|].
  destruct (conversation_phase s) eqn:Hp;
    try (left; split; [|left]; reflexivity).
  - unfold accepted_state. split_branches; left; split; try left; reflexivity.
  - left. split; [|right; reflexivity]. unfold confirmed_state.
    destruct (Py.any_in AFFIRMATIVE (Py.lower prompt)); reflexivity.
  - right. unfold answered_state. state_simpl.
    destruct (_ <? _); repeat split; reflexivity.
Qed.

Section SessionSteps.

Variable float_repr : spec_float -> string.
Variable json_loads : string -> option Json.

(** A step of a session, field by field. *)
Lemma session_step_fields s s' :
  wf s -> session_step float_repr json_loads s s' ->
  exists chat prompt bot_response,
    conversation_phase s <> ENDED /\ prompt <> EmptyString /\
    candidate_data s' = candidate_data (turn_core chat s prompt) /\
    current_step s' = current_step (turn_core chat s prompt) /\
    conversation_phase s' = next_phase chat s prompt /\
    technical_questions s' = technical_questions (turn_core chat s prompt) /\
    technical_answers s' = technical_answers (turn_core chat s prompt) /\
    current_question_index s' = current_question_index (turn_core chat s prompt) /\
    retry_count s' = retry_count s /\
    messages s' = messages s ++ turn_entries prompt bot_response.
Proof.
  intros Hwf Hstep. destruct Hstep as [chat s prompt s' r Hne Hprompt Ht].
  pose proof (turn_ok_object float_repr json_loads _ _ _ _ Hwf Ht) as Hobj.
  destruct (turn_core_spec float_repr json_loads chat s prompt Hwf Hobj) as [r' Ht'].
  destruct (turn_preserves float_repr json_loads chat s prompt Hwf Hprompt Hobj)
    as (s2 & r2 & Ht2 & _ & _ & _ & Hph & _).
  rewrite Ht in Ht2. injection Ht2 as <- <-.
  assert (E : (s', r) = record_response (turn_core chat s prompt, r')) by congruence.
  assert (E1 : s' = fst (record_response (turn_core chat s prompt, r')))
    by (rewrite <- E; reflexivity).
  assert (E2 : r = r') by (apply (f_equal snd) in E; exact E).
  subst r'. clear E Ht'.
  exists chat, prompt, r. split; [exact Hne|]. split; [exact Hprompt|].
  destruct (record_response_frame (turn_core chat s prompt, r))
    as (_ & Hd & Hs & _ & Hq & Ha & Hi & Hrc & Hm).
  cbn [snd] in Hm. rewrite <- E1 in *. cbn [fst] in *.
  split; [exact Hd|]. split; [exact Hs|]. split; [exact Hph|]. split; [exact Hq|].
  split; [exact Ha|]. split; [exact Hi|].
  split; [rewrite Hrc; apply turn_core_retry_count|].
  rewrite Hm, turn_core_messages, <- List.app_assoc. reflexivity.
Qed.

End SessionSteps.

(** ** Invariants of a session *)

Lemma next_phase_order chat s prompt :
  next_phase chat s prompt = conversation_phase s \/
  phase_rank (next_phase chat s prompt) = phase_rank (conversation_phase s) + 1 \/
  next_phase chat s prompt = ENDED.
Proof.
  unfold next_phase. destruct (Py.any_in EXIT_KEYWORDS (Py.lower prompt)); [auto|].
  destruct (conversation_phase s); split_branches; cbn; auto.
Qed.

Lemma phase_rank_ended p : phase_rank p <= phase_rank ENDED.
Proof. destruct p; cbn; lia. Qed.

Section SessionInvariants.

Variable float_repr : spec_float -> string.
Variable json_loads : string -> option Json.

Lemma session_steps_wf s s' :
  wf s -> rtc (session_step float_repr json_loads) s s' -> wf s'.
Proof. intros Hwf Hs. apply (session_steps_preserve float_repr json_loads s s' Hs Hwf). Qed.

(** X4. The message history only grows: along a session every later
    state holds the earlier history as a prefix, each processed turn
    adding the user's entry and at most the assistant's. *)
Theorem history_is_append_only (s s' : State) :
  reachable float_repr json_loads s ->
  rtc (session_step float_repr json_loads) s s' ->
  exists added, messages s' = messages s ++ added.
Proof.
  intros Hr Hsteps. pose proof (reachable_wf _ _ _ Hr) as Hwf. clear Hr.
  induction Hsteps as [s|s s1 s2 Hstep _ IH].
  - exists []. rewrite app_nil_r. reflexivity.
  - destruct (session_step_fields float_repr json_loads s s1 Hwf Hstep)
      as (chat & prompt & r & _ & _ & _ & _ & _ & _ & _ & _ & _ & Hm).
    destruct (session_step_preserves float_repr json_loads s s1 Hwf Hstep) as [Hwf1 _].
    destruct (IH Hwf1) as [added Ha].
    exists (turn_entries prompt r ++ added). rewrite Ha, Hm, <- List.app_assoc.
    reflexivity.
Qed.

(** X5. The phases are gone through in one direction: a processed turn
    of a session keeps the phase, moves to the next one, or ends the
    session; so the place of the phase in the conversation never goes
    down, and a session that reached the confirmation never collects
    data again. *)
Theorem phases_are_one_directional (s s' : State) :
  reachable float_repr json_loads s ->
  rtc (session_step float_repr json_loads) s s' ->
  phase_rank (conversation_phase s) <= phase_rank (conversation_phase s') /\
  (forall s1, session_step float_repr json_loads s s1 ->
     conversation_phase s1 = conversation_phase s \/
     phase_rank (conversation_phase s1) = phase_rank (conversation_phase s) + 1 \/
     conversation_phase s1 = ENDED) /\
  (phase_rank DATA_CONFIRMATION <= phase_rank (conversation_phase s) ->
   conversation_phase s' <> DATA_COLLECTION).
Proof.
  intros Hr Hsteps. pose proof (reachable_wf _ _ _ Hr) as Hwf. clear Hr.
  assert (Hone : forall a b, wf a -> session_step float_repr json_loads a b ->
            conversation_phase b = conversation_phase a \/
            phase_rank (conversation_phase b) = phase_rank (conversation_phase a) + 1 \/
            conversation_phase b = ENDED).
  { intros a b Hwfa Hab.
    destruct (session_step_fields float_repr json_loads a b Hwfa Hab)
      as (chat & prompt & r & _ & _ & _ & _ & -> & _). apply next_phase_order. }
  assert (Hmono : phase_rank (conversation_phase s) <= phase_rank (conversation_phase s')).
  { induction Hsteps as [s|s s1 s2 Hstep _ IH]; [lia|].
    destruct (session_step_preserves float_repr json_loads s s1 Hwf Hstep) as [Hwf1 _].
    specialize (IH Hwf1).
    destruct (Hone s s1 Hwf Hstep) as [E|[E|E]].
    - rewrite <- E. exact IH.
    - lia.
    - pose proof (phase_rank_ended (conversation_phase s)). rewrite E in IH. cbn in *. lia. }
  split; [exact Hmono|]. split; [intros s1; apply Hone; exact Hwf|].
  intros H2 E. rewrite E in Hmono. cbn in *. lia.
Qed.

(** X6. The retry count is dead state: no turn writes it, and it is 0 in
    every state of a session. *)
Theorem retry_count_is_never_used (s : State) :
  reachable float_repr json_loads s ->
  retry_count s = 0 /\
  (forall chat prompt s' bot_response,
     turn float_repr json_loads chat s prompt = Ok (s', bot_response) ->
     retry_count s' = 0).
Proof.
  intros Hr.
  assert (H0 : retry_count s = 0).
  { revert s Hr. apply session_invariant; [reflexivity|].
    intros s s' Hwf IH Hstep.
    destruct (session_step_fields float_repr json_loads s s' Hwf Hstep)
      as (chat & prompt & r & _ & _ & _ & _ & _ & _ & _ & _ & Hrc & _).
    rewrite Hrc. exact IH. }
  split; [exact H0|]. intros chat prompt s' r Ht.
  destruct (turn_core_spec float_repr json_loads chat s prompt (reachable_wf _ _ _ Hr)
              (turn_ok_object float_repr json_loads _ _ _ _ (reachable_wf _ _ _ Hr) Ht))
    as [r' Ht'].
  rewrite Ht in Ht'.
  assert (E : (s', r) = record_response (turn_core chat s prompt, r')) by congruence.
  assert (E1 : s' = fst (record_response (turn_core chat s prompt, r')))
    by (rewrite <- E; reflexivity).
  destruct (record_response_frame (turn_core chat s prompt, r'))
    as (_ & _ & _ & _ & _ & _ & _ & Hrc & _).
  rewrite E1, Hrc. cbn [fst]. rewrite turn_core_retry_count. exact H0.
Qed.

End SessionInvariants.

Lemma greeted_step :
  session_step sample_float_repr sample_json_loads initial_state greeted.
Proof.
  apply (processed_turn _ _ failing_client initial_state "hello" greeted APOLOGY);
    [discriminate|discriminate|reflexivity].
Qed.

Lemma initial_state_reachable :
  reachable sample_float_repr sample_json_loads initial_state.
Proof. apply rtc_refl. Qed.

Lemma greeted_reachable : reachable sample_float_repr sample_json_loads greeted.
Proof. apply rtc_once, greeted_step. Qed.

Lemma history_is_append_only_witness :
  reachable sample_float_repr sample_json_loads initial_state /\
  rtc (session_step sample_float_repr sample_json_loads) initial_state greeted /\
  exists added, messages greeted = messages initial_state ++ added.
Proof.
  split; [exact initial_state_reachable|].
  split; [apply rtc_once, greeted_step|].
  exact (history_is_append_only sample_float_repr sample_json_loads initial_state greeted
           initial_state_reachable (rtc_once _ _ greeted_step)).
Defined.

Lemma phases_are_one_directional_witness :
  reachable sample_float_repr sample_json_loads initial_state /\
  rtc (session_step sample_float_repr sample_json_loads) initial_state greeted /\
  phase_rank (conversation_phase initial_state) <= phase_rank (conversation_phase greeted).
Proof.
  split; [exact initial_state_reachable|].
  split; [apply rtc_once, greeted_step|].
  exact (proj1 (phases_are_one_directional sample_float_repr sample_json_loads
                  initial_state greeted initial_state_reachable
                  (rtc_once _ _ greeted_step))).
Defined.

Lemma retry_count_is_never_used_witness :
  reachable sample_float_repr sample_json_loads greeted /\ retry_count greeted = 0.
Proof.
  split; [exact greeted_reachable|].
  exact (proj1 (retry_count_is_never_used sample_float_repr sample_json_loads greeted
                  greeted_reachable)).
Defined.

Section CollectionInvariants.

Variable float_repr : spec_float -> string.
Variable json_loads : string -> option Json.

Lemma session_step_rank s s' :
  wf s -> session_step float_repr json_loads s s' ->
  phase_rank (conversation_phase s) <= phase_rank (conversation_phase s').
Proof.
  intros Hwf Hstep.
  destruct (session_step_fields float_repr json_loads s s' Hwf Hstep)
    as (chat & prompt & r & _ & _ & _ & _ & -> & _).
  destruct (next_phase_order chat s prompt) as [E|[E|E]]; rewrite E; try lia.
  apply phase_rank_ended.
Qed.



Lemma stored_values_valid_step chat st prompt d :
  stored_values_valid d ->
  (exists k, lookup_key k DATA_STEPS = Ok st) ->
  validation st chat prompt = true ->
  stored_values_valid (set_field (field st) prompt d).
Proof.
  intros (H1 & H2 & H3 & H4) [k Hl] Hv. apply lookup_step_cases in Hl.
  repeat destruct Hl as [Hl|Hl]; destruct Hl as [_ ->]; cbn in Hv |- *;
    unfold stored_values_valid; cbn; auto.
Qed.

Lemma session_values_valid s :
  reachable float_repr json_loads s -> stored_values_valid (candidate_data s).
Proof.
  revert s. apply session_invariant.
  { unfold stored_values_valid. cbn. repeat split; intros H; contradiction. }
  intros s s' Hwf IH Hstep.
  destruct (session_step_fields float_repr json_loads s s' Hwf Hstep)
    as (chat & prompt & r & _ & _ & -> & _).
  destruct (turn_core_data chat s prompt) as [[-> _]|(_ & st & Hl & Hv & -> & _)];
    [exact IH|].
  eapply stored_values_valid_step; eauto.
Qed.

(** X8. A value is stored only after its validator accepted it: in every
    state of a session, a name, email, phone number or experience that is
    set satisfies the rule of its step (the three other rules depend on
    the answer of the model at the time). *)
Theorem stored_values_passed_their_validator (s : State) :
  reachable float_repr json_loads s ->
  (cd_name (candidate_data s) <> EmptyString ->
     validate_name (cd_name (candidate_data s)) = true) /\
  (cd_email (candidate_data s) <> EmptyString ->
     validate_email (cd_email (candidate_data s)) = true) /\
  (cd_phone (candidate_data s) <> EmptyString ->
     validate_phone (cd_phone (candidate_data s)) = true) /\
  (cd_experience (candidate_data s) <> EmptyString ->
     validate_experience (cd_experience (candidate_data s)) = true).
Proof. intros Hr. exact (session_values_valid s Hr). Qed.

End CollectionInvariants.

Lemma named_reachable : reachable sample_float_repr sample_json_loads named.
Proof.
  eapply rtc_r; [exact greeted_reachable|].
  apply (processed_turn _ _ failing_client greeted "Jane Doe" named
           ("Hi there! Thanks for sharing your full name. Next, " +:+
            "Could you please share your email address?"));
    [discriminate|discriminate|reflexivity].
Qed.


Lemma stored_values_passed_their_validator_witness :
  reachable sample_float_repr sample_json_loads named /\
  cd_name (candidate_data named) <> EmptyString /\
  validate_name (cd_name (candidate_data named)) = true.
Proof.
  split; [exact named_reachable|].
  assert (H : cd_name (candidate_data named) <> EmptyString) by discriminate.
  split; [exact H|].
  exact (proj1 (stored_values_passed_their_validator sample_float_repr sample_json_loads
                  named named_reachable) H).
Defined.

(** ** The questions and the answers *)

Section QuestionInvariants.

Variable float_repr : spec_float -> string.
Variable json_loads : string -> option Json.

Lemma session_questions_invariant s :
  reachable float_repr json_loads s ->
  length (technical_answers s) = length (technical_questions s) /\
  (technical_questions s = [] \/ length (technical_questions s) = 5%nat) /\
  (phase_rank (conversation_phase s) < 3 -> technical_questions s = []).
Proof.
  revert s.
  apply (session_invariant float_repr json_loads
           (fun s => length (technical_answers s) = length (technical_questions s) /\
                     (technical_questions s = [] \/
                      length (technical_questions s) = 5%nat) /\
                     (phase_rank (conversation_phase s) < 3 ->
                      technical_questions s = []))); [cbn; auto|].
  intros s s' Hwf (Hlen & Hq & Hearly) Hstep.
  destruct (session_step_fields float_repr json_loads s s' Hwf Hstep)
    as (chat & prompt & r & Hne & _ & _ & _ & Hph & Hqs & Has & _).
  rewrite Hph, Hqs, Has. clear Hph Hqs Has.
  unfold turn_core, next_phase.
  destruct (Py.any_in EXIT_KEYWORDS (Py.lower prompt)).
  { state_simpl. split; [exact Hlen|]. split; [exact Hq|]. cbn. lia. }
  destruct (conversation_phase s) eqn:Hp; try contradiction.
  - state_simpl. split; [exact Hlen|]. split; [exact Hq|]. intros _. apply Hearly. cbn. lia.
  - assert (E : technical_questions s = []) by (apply Hearly; cbn; lia).
    unfold step_accepts, accepted_state.
    destruct (lookup_key (current_step s) DATA_STEPS) as [st|e];
      [destruct (validation st chat prompt)|]; state_simpl;
      try destruct (7 <? current_step s + 1); state_simpl; auto.
  - unfold confirmed_state. destruct (Py.any_in AFFIRMATIVE (Py.lower prompt)); state_simpl.
    + rewrite length_replicate, generate_technical_questions_length.
      split; [reflexivity|]. split; [right; reflexivity|]. cbn. lia.
    + split; [exact Hlen|]. split; [exact Hq|]. intros _. apply Hearly. cbn. lia.
  - unfold answered_state. state_simpl.
    destruct (wf_technical_questions _ Hwf Hp) as (_ & _ & Hq5 & _ & _).
    assert (Hins : length (<[Z.to_nat (current_question_index s) := prompt]>
                             (technical_answers s)) = length (technical_questions s))
      by (rewrite length_insert; exact Hlen).
    destruct (current_question_index s + 1 <? Z.of_nat (length (technical_questions s)));
      destruct (current_question_index s + 1 <? 5); state_simpl;
      (split; [exact Hins|]); (split; [right; exact Hq5|]); cbn; lia.
  - state_simpl. split; [exact Hlen|]. split; [exact Hq|]. cbn. lia.
Qed.

(** X9. The questions are generated once: before the confirmation is
    given the list is empty, afterwards it holds exactly five questions
    and no later turn of the session changes it; the answer log always
    has one slot per question. *)
Theorem questions_are_generated_once (s s' : State) :
  reachable float_repr json_loads s ->
  rtc (session_step float_repr json_loads) s s' ->
  length (technical_answers s) = length (technical_questions s) /\
  (phase_rank (conversation_phase s) < 3 -> technical_questions s = []) /\
  (conversation_phase s = TECHNICAL_QUESTIONS -> length (technical_questions s) = 5%nat) /\
  (3 <= phase_rank (conversation_phase s) ->
   technical_questions s' = technical_questions s).
Proof.
  intros Hr Hsteps. pose proof (reachable_wf _ _ _ Hr) as Hwf.
  destruct (session_questions_invariant s Hr) as (Hlen & _ & Hearly).
  split; [exact Hlen|]. split; [exact Hearly|].
  split; [intros Hp; apply (wf_technical_questions _ Hwf Hp)|].
  clear Hr Hlen Hearly. induction Hsteps as [s|s s1 s2 Hstep _ IH]; [reflexivity|].
  intros H3.
  destruct (session_step_preserves float_repr json_loads s s1 Hwf Hstep) as [Hwf1 _].
  pose proof (session_step_rank float_repr json_loads s s1 Hwf Hstep) as Hrank.
  rewrite (IH Hwf1) by lia.
  destruct (session_step_fields float_repr json_loads s s1 Hwf Hstep)
    as (chat & prompt & r & _ & _ & _ & _ & _ & -> & _).
  apply turn_core_questions. intros E. rewrite E in H3. cbn in H3. lia.
Qed.

Lemma session_answers_invariant s :
  reachable float_repr json_loads s ->
  conversation_phase s = TECHNICAL_QUESTIONS ->
  forall j, (Z.to_nat (current_question_index s) <= j < 5)%nat ->
            technical_answers s !! j = Some EmptyString.
Proof.
  revert s.
  apply (session_invariant float_repr json_loads
           (fun s => conversation_phase s = TECHNICAL_QUESTIONS ->
                     forall j, (Z.to_nat (current_question_index s) <= j < 5)%nat ->
                               technical_answers s !! j = Some EmptyString));
    [discriminate|].
  intros s s' Hwf IH Hstep.
  destruct (session_step_fields float_repr json_loads s s' Hwf Hstep)
    as (chat & prompt & r & Hne & _ & _ & _ & Hph & _ & Has & Hi & _).
  rewrite Hph, Has, Hi. clear Hph Has Hi.
  unfold turn_core, next_phase.
  destruct (Py.any_in EXIT_KEYWORDS (Py.lower prompt)); [discriminate|].
  destruct (conversation_phase s) eqn:Hp; try contradiction; try discriminate.
  - destruct (_ && _); discriminate.
  - unfold confirmed_state. destruct (Py.any_in AFFIRMATIVE (Py.lower prompt));
      [|discriminate].
    state_simpl. intros _ j Hj. rewrite generate_technical_questions_length.
    apply lookup_replicate. split; [reflexivity|lia].
  - destruct (wf_technical_questions _ Hwf Hp) as (_ & _ & _ & _ & Hi).
    unfold answered_state. state_simpl.
    destruct (current_question_index s + 1 <? 5); [|discriminate].
    intros _ j Hj.
    assert (Hj' : (Z.to_nat (current_question_index s) < j)%nat).
    { destruct (current_question_index s + 1 <? Z.of_nat (length (technical_questions s)));
        state_simpl; lia. }
    assert (Hlook : (<[Z.to_nat (current_question_index s) := prompt]>
                       (technical_answers s)) !! j = Some EmptyString).
    { rewrite list_lookup_insert_ne by lia. apply (IH eq_refl). lia. }
    destruct (current_question_index s + 1 <? Z.of_nat (length (technical_questions s)));
      state_simpl; exact Hlook.
Qed.

(** X10. The answer log is filled in order and never rewritten: in the
    technical-questions phase of a session every slot from the cursor on
    is still empty, and once the questions exist, a slot before the
    cursor keeps its answer in every later state of the session. *)
Theorem answers_are_filled_in_order (s s' : State) :
  reachable float_repr json_loads s ->
  rtc (session_step float_repr json_loads) s s' ->
  (conversation_phase s = TECHNICAL_QUESTIONS ->
   forall j, (Z.to_nat (current_question_index s) <= j < 5)%nat ->
             technical_answers s !! j = Some EmptyString) /\
  (3 <= phase_rank (conversation_phase s) ->
   forall j, (j < Z.to_nat (current_question_index s))%nat ->
             technical_answers s' !! j = technical_answers s !! j).
Proof.
  intros Hr Hsteps. pose proof (reachable_wf _ _ _ Hr) as Hwf.
  split; [apply session_answers_invariant; exact Hr|].
  clear Hr. induction Hsteps as [s|s s1 s2 Hstep _ IH]; [reflexivity|].
  intros H3 j Hj.
  destruct (session_step_preserves float_repr json_loads s s1 Hwf Hstep) as [Hwf1 _].
  pose proof (session_step_rank float_repr json_loads s s1 Hwf Hstep) as Hrank.
  destruct (session_step_fields float_repr json_loads s s1 Hwf Hstep)
    as (chat & prompt & r & _ & _ & _ & _ & _ & _ & Has & Hi & _).
  destruct (turn_core_cursor chat s prompt) as [[Ei [Ea|Ep]]|(_ & _ & Ei & Ea)].
  - rewrite (IH Hwf1) by (rewrite ?Hi, ?Ei; lia). rewrite Has, Ea. reflexivity.
  - rewrite Ep in H3. cbn in H3. lia.
  - rewrite (IH Hwf1) by (rewrite ?Hi, ?Ei; lia). rewrite Has, Ea.
    apply list_lookup_insert_ne. lia.
Qed.

End QuestionInvariants.

(** Playing texts goes through states of the session. *)
Lemma play_steps float_repr json_loads chat prompts s s' :
  play float_repr json_loads chat s prompts = Some s' ->
  rtc (session_step float_repr json_loads) s s'.
Proof.
  revert s. induction prompts as [|prompt rest IH]; intros s; cbn [play].
  - intros [= <-]. apply rtc_refl.
  - destruct (decide (conversation_phase s = ENDED)) as [|Hne]; [discriminate|].
    destruct (Py.truthy prompt) eqn:Hp; [|discriminate].
    destruct (turn float_repr json_loads chat s prompt) as [[s1 r]|e] eqn:Ht;
      [|discriminate].
    intros H. eapply rtc_l; [|apply IH; exact H].
    apply truthy_true in Hp.
    exact (processed_turn _ _ chat s prompt s1 r Hne Hp Ht).
Qed.

Lemma after_first_answer_reachable :
  reachable sample_float_repr sample_json_loads after_first_answer.
Proof.
  apply (play_steps _ _ failing_client interview_prompts). vm_compute. reflexivity.
Qed.

Lemma after_second_answer_steps :
  rtc (session_step sample_float_repr sample_json_loads)
      after_first_answer after_second_answer.
Proof.
  apply (play_steps _ _ failing_client ["Small commits and reviews"]).
  vm_compute. reflexivity.
Qed.

Lemma session_turn_raises_only_on_evaluation_witness :
  reachable sample_float_repr sample_json_loads after_first_answer /\
  conversation_phase after_first_answer <> ENDED /\
  "Small commits and reviews" <> EmptyString /\
  evaluation_is_no_object sample_json_loads list_reply_client after_first_answer
    "Small commits and reviews" = true /\
  turn sample_float_repr sample_json_loads list_reply_client after_first_answer
    "Small commits and reviews" = Raise AttributeError /\
  evaluation_is_no_object sample_json_loads failing_client after_first_answer
    "Small commits and reviews" = false /\
  exists s' bot_response,
    turn sample_float_repr sample_json_loads failing_client after_first_answer
      "Small commits and reviews" = Ok (s', bot_response) /\
    reachable sample_float_repr sample_json_loads s'.
Proof.
  assert (H1 : reachable sample_float_repr sample_json_loads after_first_answer)
    by apply after_first_answer_reachable.
  assert (H2 : conversation_phase after_first_answer <> ENDED) by discriminate.
  assert (H3 : "Small commits and reviews" <> EmptyString) by discriminate.
  assert (H4 : evaluation_is_no_object sample_json_loads list_reply_client
                 after_first_answer "Small commits and reviews" = true)
    by (vm_compute; reflexivity).
  assert (H5 : evaluation_is_no_object sample_json_loads failing_client
                 after_first_answer "Small commits and reviews" = false)
    by (vm_compute; reflexivity).
  repeat (split; [assumption|]).
  split; [|split; [exact H5|]].
  - apply (session_turn_raises_only_on_evaluation sample_float_repr sample_json_loads
             list_reply_client after_first_answer "Small commits and reviews" H1 H2 H3).
    exact H4.
  - apply (session_turn_raises_only_on_evaluation sample_float_repr sample_json_loads
             failing_client after_first_answer "Small commits and reviews" H1 H2 H3).
    exact H5.
Defined.


(** C5 fails on a reply of the model to the evaluation request that is
    JSON but not an object, here the list [[1]]: [json.loads] decodes
    it, [evaluate_technical_answer] returns it unchecked, and
    [evaluation.get] raises before the answer is stored and the cursor
    moved.  The state is one of a session; with a model whose call
    fails, the same turn stores the answer and moves the cursor from 1
    to 2. *)
Lemma non_object_evaluation_raises :
  reachable sample_float_repr sample_json_loads after_first_answer /\
  conversation_phase after_first_answer = TECHNICAL_QUESTIONS /\
  current_question_index after_first_answer = 1 /\
  Py.any_in EXIT_KEYWORDS (Py.lower "Small commits and reviews") = false /\
  turn_evaluation sample_json_loads list_reply_client after_first_answer
    "Small commits and reviews" = Ok JOther /\
  turn sample_float_repr sample_json_loads list_reply_client after_first_answer
    "Small commits and reviews" = Raise AttributeError /\
  exists s' bot_response,
    turn sample_float_repr sample_json_loads failing_client after_first_answer
      "Small commits and reviews" = Ok (s', bot_response) /\
    current_question_index s' = 2 /\
    technical_answers s' !! 1%nat = Some "Small commits and reviews".
Proof.
  split; [apply after_first_answer_reachable|].
  split; [reflexivity|]. split; [reflexivity|]. split; [reflexivity|].
  split; [vm_compute; reflexivity|]. split; [vm_compute; reflexivity|].
  eexists _, _. split; [vm_compute; reflexivity|]. split; reflexivity.
Qed.

Lemma questions_are_generated_once_witness :
  reachable sample_float_repr sample_json_loads after_first_answer /\
  rtc (session_step sample_float_repr sample_json_loads)
      after_first_answer after_second_answer /\
  3 <= phase_rank (conversation_phase after_first_answer) /\
  technical_questions after_second_answer = technical_questions after_first_answer /\
  length (technical_questions after_first_answer) = 5%nat.
Proof.
  split; [exact after_first_answer_reachable|].
  split; [exact after_second_answer_steps|].
  assert (H3 : 3 <= phase_rank (conversation_phase after_first_answer)) by (cbn; lia).
  split; [exact H3|].
  destruct (questions_are_generated_once sample_float_repr sample_json_loads
              after_first_answer after_second_answer after_first_answer_reachable
              after_second_answer_steps) as (_ & _ & H5 & Hsame).
  split; [exact (Hsame H3)|apply H5; reflexivity].
Defined.

Lemma answers_are_filled_in_order_witness :
  reachable sample_float_repr sample_json_loads after_first_answer /\
  rtc (session_step sample_float_repr sample_json_loads)
      after_first_answer after_second_answer /\
  technical_answers after_second_answer !! 0%nat =
    technical_answers after_first_answer !! 0%nat /\
  technical_answers after_first_answer !! 1%nat = Some EmptyString.
Proof.
  split; [exact after_first_answer_reachable|].
  split; [exact after_second_answer_steps|].
  destruct (answers_are_filled_in_order sample_float_repr sample_json_loads
              after_first_answer after_second_answer after_first_answer_reachable
              after_second_answer_steps) as (Hempty & Hkept).
  split.
  - apply Hkept; [cbn; lia|cbn; lia].
  - apply Hempty; [reflexivity|cbn; lia].
Defined.

(** ** The phases that the claims leave aside *)

(** X11. In the greeting and in the conclusion a message without exit
    keyword is not looked at: the profile, the step, the questions, the
    answers and the cursor stay as they are, the phase moves on (to the
    data collection, resp. to the end), and the reply is the text the
    model gives for the directive of the phase and the history, or the
    fixed apology when the call fails. *)
Theorem free_reply_turn_moves_on
    (float_repr : spec_float -> string)
    (json_loads : string -> option Json)
    (chat : Client) (s : State) (prompt : string) :
  conversation_phase s = GREETING \/ conversation_phase s = CONCLUSION ->
  Py.any_in EXIT_KEYWORDS (Py.lower prompt) = false ->
  exists s' bot_response,
    turn float_repr json_loads chat s prompt = Ok (s', bot_response) /\
    conversation_phase s' =
      (if decide (conversation_phase s = GREETING) then DATA_COLLECTION else ENDED) /\
    candidate_data s' = candidate_data s /\
    current_step s' = current_step s /\
    technical_questions s' = technical_questions s /\
    technical_answers s' = technical_answers s /\
    current_question_index s' = current_question_index s /\
    (chat (free_reply_request s prompt) = Raised -> bot_response = APOLOGY) /\
    (chat (free_reply_request s prompt) = NoContent -> bot_response = EmptyString) /\
    (forall text, chat (free_reply_request s prompt) = Content text ->
                  bot_response = text).
Proof.
  intros Hp He.
  assert (Hreply : forall r,
            r = get_ai_response chat (messages s ++ [mkMessage user prompt])
                  (get_system_prompt (conversation_phase s)) ->
            (chat (free_reply_request s prompt) = Raised -> r = APOLOGY) /\
            (chat (free_reply_request s prompt) = NoContent -> r = EmptyString) /\
            (forall text, chat (free_reply_request s prompt) = Content text -> r = text)).
  { intros r ->. unfold get_ai_response, free_reply_request.
    destruct (chat _) as [| |t]; repeat split; try discriminate; try reflexivity.
    intros text [= ->]. reflexivity. }
  destruct Hp as [Hp|Hp].
  - rewrite (turn_greeting float_repr json_loads chat s prompt Hp He).
    eexists _, _. split; [unfold record_response; cbn [fst snd]; reflexivity|].
    rewrite Hp in *. cbn [decide decide_rel Phase_eq_dec].
    split; [destruct (Py.truthy _); reflexivity|].
    repeat (split; [destruct (Py.truthy _); reflexivity|]).
    apply Hreply. reflexivity.
  - rewrite (turn_conclusion float_repr json_loads chat s prompt Hp He).
    eexists _, _. split; [unfold record_response; cbn [fst snd]; reflexivity|].
    rewrite Hp in *. cbn [decide decide_rel Phase_eq_dec].
    split; [destruct (Py.truthy _); reflexivity|].
    repeat (split; [destruct (Py.truthy _); reflexivity|]).
    apply Hreply. reflexivity.
Qed.

Lemma free_reply_turn_moves_on_witness :
  (conversation_phase initial_state = GREETING \/
   conversation_phase initial_state = CONCLUSION) /\
  Py.any_in EXIT_KEYWORDS (Py.lower "hello") = false /\
  exists s',
    turn sample_float_repr sample_json_loads failing_client initial_state "hello" =
      Ok (s', APOLOGY) /\
    conversation_phase s' = DATA_COLLECTION.
Proof.
  assert (H1 : conversation_phase initial_state = GREETING \/
               conversation_phase initial_state = CONCLUSION) by (left; reflexivity).
  assert (H2 : Py.any_in EXIT_KEYWORDS (Py.lower "hello") = false) by reflexivity.
  split; [exact H1|]. split; [exact H2|].
  destruct (free_reply_turn_moves_on sample_float_repr sample_json_loads failing_client
              initial_state "hello" H1 H2)
    as (s' & r & Ht & Hp & _ & _ & _ & _ & _ & Hr & _).
  exists s'. rewrite Ht, (Hr eq_refl). split; [reflexivity|exact Hp].
Defined.

(** X12. In the confirmation phase a message without exit keyword either
    holds an affirmative word, and then five questions are generated
    from the stored technology stack and experience, five empty answer
    slots are laid out, the phase becomes [technical_questions] and the
    reply ends with the first question; or it does not, and then nothing
    changes but the history: the reply only asks what to change.  The
    profile, the step and the cursor are never written. *)
Theorem confirmation_turn
    (float_repr : spec_float -> string)
    (json_loads : string -> option Json)
    (chat : Client) (s : State) (prompt : string) :
  conversation_phase s = DATA_CONFIRMATION ->
  Py.any_in EXIT_KEYWORDS (Py.lower prompt) = false ->
  exists s' bot_response,
    turn float_repr json_loads chat s prompt = Ok (s', bot_response) /\
    candidate_data s' = candidate_data s /\
    current_step s' = current_step s /\
    current_question_index s' = current_question_index s /\
    (Py.any_in AFFIRMATIVE (Py.lower prompt) = true ->
       conversation_phase s' = TECHNICAL_QUESTIONS /\
       technical_questions s' =
         generate_technical_questions chat (cd_tech_stack (candidate_data s))
                                      (cd_experience (candidate_data s)) /\
       length (technical_questions s') = 5%nat /\
       technical_answers s' = replicate 5 EmptyString /\
       exists question,
         technical_questions s' !! 0%nat = Some question /\
         bot_response =
           first_question_intro (first_name (cd_name (candidate_data s)))
             (cd_tech_stack (candidate_data s)) (cd_position (candidate_data s)) +:+
           question) /\
    (Py.any_in AFFIRMATIVE (Py.lower prompt) = false ->
       conversation_phase s' = DATA_CONFIRMATION /\
       technical_questions s' = technical_questions s /\
       technical_answers s' = technical_answers s /\
       bot_response =
         "No problem, " +:+ first_name (cd_name (candidate_data s)) +:+
         "! What information would you like to change?").
Proof.
  intros Hp He. rewrite turn_unfold, He. unfold phase_branch. state_simpl. rewrite Hp.
  unfold data_confirmation_turn.
  destruct (Py.any_in AFFIRMATIVE (Py.lower prompt)) eqn:Ha; state_simpl.
  - pose proof (generate_technical_questions_length chat
                  (cd_tech_stack (candidate_data s)) (cd_experience (candidate_data s)))
      as Hlen.
    destruct (getitem_in_range
                (generate_technical_questions chat (cd_tech_stack (candidate_data s))
                   (cd_experience (candidate_data s))) 0) as (q & Hq & Hq');
      [rewrite Hlen; lia|].
    rewrite Hq. cbn [mbind result_bind mret result_ret].
    eexists _, _. split; [reflexivity|]. unfold record_response. cbn [fst snd].
    match goal with |- context [Py.truthy ?r] =>
      assert (Ht : Py.truthy r = true) by (apply truthy_app_r; reflexivity) end.
    rewrite Ht. state_simpl.
    repeat (split; [reflexivity|]). split; [|discriminate]. intros _.
    split; [reflexivity|]. split; [reflexivity|]. split; [exact Hlen|].
    split; [rewrite Hlen; reflexivity|].
    exists q. split; [exact Hq'|]. unfold first_question_intro.
    rewrite !str_app_assoc. reflexivity.
  - cbn [mbind result_bind mret result_ret].
    eexists _, _. split; [reflexivity|]. unfold record_response. cbn [fst snd].
    state_simpl. repeat (split; [reflexivity|]). split; [discriminate|].
    intros _. split; [exact Hp|]. repeat split.
Qed.

Lemma confirmation_turn_witness :
  conversation_phase at_confirmation = DATA_CONFIRMATION /\
  Py.any_in EXIT_KEYWORDS (Py.lower "Yes, correct") = false /\
  exists s' bot_response,
    turn sample_float_repr sample_json_loads failing_client at_confirmation
      "Yes, correct" = Ok (s', bot_response) /\
    conversation_phase s' = TECHNICAL_QUESTIONS /\
    technical_answers s' = replicate 5 EmptyString.
Proof.
  assert (H1 : conversation_phase at_confirmation = DATA_CONFIRMATION) by reflexivity.
  assert (H2 : Py.any_in EXIT_KEYWORDS (Py.lower "Yes, correct") = false) by reflexivity.
  split; [exact H1|]. split; [exact H2|].
  destruct (confirmation_turn sample_float_repr sample_json_loads failing_client
              at_confirmation "Yes, correct" H1 H2)
    as (s' & r & Ht & _ & _ & _ & Hyes & _).
  exists s', r. split; [exact Ht|].
  destruct (Hyes eq_refl) as (Hp & _ & _ & Ha & _). split; [exact Hp|exact Ha].
Defined.

(** ** Whitespace around an input *)

Lemma lstrip_app_space l s :
  Py.all_chars Py.isspace l = true -> Py.lstrip (l +:+ s) = Py.lstrip s.
Proof.
  induction l as [|c l IH]; [reflexivity|]. cbn [Py.all_chars].
  rewrite andb_true_iff. intros [Hc Hl]. rewrite str_app_cons. cbn [Py.lstrip].
  rewrite Hc. apply IH. exact Hl.
Qed.

Lemma rstrip_space r : Py.all_chars Py.isspace r = true -> Py.rstrip r = EmptyString.
Proof.
  induction r as [|c r IH]; [reflexivity|]. cbn [Py.all_chars Py.rstrip].
  rewrite andb_true_iff. intros [Hc Hr]. rewrite (IH Hr), Hc. reflexivity.
Qed.

Lemma rstrip_app_space s r :
  Py.all_chars Py.isspace r = true -> Py.rstrip (s +:+ r) = Py.rstrip s.
Proof.
  intros Hr. induction s as [|c s IH]; [apply rstrip_space; exact Hr|].
  rewrite str_app_cons. cbn [Py.rstrip]. rewrite IH. reflexivity.
Qed.

Lemma lstrip_nonspace_app s r :
  Py.lstrip s <> EmptyString -> Py.lstrip (s +:+ r) = Py.lstrip s +:+ r.
Proof.
  induction s as [|c s IH]; [intros H; contradiction|].
  rewrite str_app_cons. cbn [Py.lstrip]. destruct (Py.isspace c); [exact IH|].
  intros _. reflexivity.
Qed.

Lemma lstrip_space s : Py.lstrip s = EmptyString -> Py.all_chars Py.isspace s = true.
Proof.
  induction s as [|c s IH]; [reflexivity|]. cbn [Py.lstrip Py.all_chars].
  destruct (Py.isspace c); [exact IH|discriminate].
Qed.

(** Whitespace put around a text does not change what [strip] leaves. *)
Lemma strip_padded l x r :
  Py.all_chars Py.isspace l = true -> Py.all_chars Py.isspace r = true ->
  Py.strip (l +:+ x +:+ r) = Py.strip x.
Proof.
  intros Hl Hr. unfold Py.strip. rewrite (lstrip_app_space _ _ Hl).
  destruct (Py.lstrip x) as [|c t] eqn:E.
  - pose proof (lstrip_space _ E) as Hx.
    assert (Hxr : Py.all_chars Py.isspace (x +:+ r) = true).
    { clear E. induction x as [|a x IH]; [exact Hr|].
      rewrite str_app_cons. cbn [Py.all_chars] in *.
      apply andb_true_iff in Hx as [Ha Hx]. rewrite Ha. apply IH. exact Hx. }
    rewrite <- (str_app_nil_r (x +:+ r)), (lstrip_app_space _ _ Hxr). reflexivity.
  - rewrite lstrip_nonspace_app by (rewrite E; discriminate).
    rewrite E. apply rstrip_app_space. exact Hr.
Qed.

(** X13. The name, email and experience rules look at the stripped input
    only: whitespace before or after a text never changes the verdict.
    (The value stored by an accepted step is the message as typed,
    whitespace included.) *)
Theorem validators_ignore_outer_whitespace (l x r : string) :
  Py.all_chars Py.isspace l = true ->
  Py.all_chars Py.isspace r = true ->
  validate_name (l +:+ x +:+ r) = validate_name x /\
  validate_email (l +:+ x +:+ r) = validate_email x /\
  validate_experience (l +:+ x +:+ r) = validate_experience x.
Proof.
  intros Hl Hr. unfold validate_name, validate_email, validate_experience.
  rewrite (strip_padded l x r Hl Hr). repeat split.
Qed.

Lemma validators_ignore_outer_whitespace_witness :
  Py.all_chars Py.isspace "  " = true /\
  Py.all_chars Py.isspace (" " +:+ Py.nl) = true /\
  validate_name ("  " +:+ "Jane Doe" +:+ " " +:+ Py.nl) = validate_name "Jane Doe" /\
  validate_name "Jane Doe" = true.
Proof.
  assert (H1 : Py.all_chars Py.isspace "  " = true) by reflexivity.
  assert (H2 : Py.all_chars Py.isspace (" " +:+ Py.nl) = true) by reflexivity.
  split; [exact H1|]. split; [exact H2|]. split; [|reflexivity].
  exact (proj1 (validators_ignore_outer_whitespace "  " "Jane Doe" (" " +:+ Py.nl) H1 H2)).
Defined.

(** ** The email rule *)

Lemma lang_at_least_class n p s :
  Re.lang (Re.AtLeast n (Re.Class p)) s <->
  (n <= String.length s)%nat /\ Py.all_chars p s = true.
Proof.
  revert s. induction n as [|n IH]; intros s; cbn [Re.AtLeast].
  - rewrite lang_star_class. split; [intros H; split; [lia|exact H]|intros [_ H]; exact H].
  - split.
    + intros H. apply lang_cat_inv in H as (s1 & s2 & -> & H1 & H2).
      apply lang_class_inv in H1 as (c & -> & Hc). apply IH in H2 as [Hn Hs].
      change (String c EmptyString +:+ s2) with (String c s2). cbn. rewrite Hc, Hs.
      split; [lia|reflexivity].
    + destruct s as [|c s]; cbn; [intros [H _]; lia|].
      rewrite andb_true_iff. intros [Hn [Hc Hs]].
      change (String c s) with (String c EmptyString +:+ s).
      constructor; [constructor; exact Hc|apply IH; split; [lia|exact Hs]].
Qed.

Lemma lang_chr_inv c s : Re.lang (Re.Chr c) s -> s = String c EmptyString.
Proof.
  intros H. apply lang_class_inv in H as (a & -> & Ha).
  apply is_char_eq in Ha. subst a. reflexivity.
Qed.

Lemma lang_chr c : Re.lang (Re.Chr c) (String c EmptyString).
Proof. constructor. apply is_char_eq. reflexivity. Qed.

(** X14. The email rule accepts exactly the inputs that, stripped, read
    [local@domain.tld]: a non-empty local part of letters, digits and the
    characters [._%+-], a non-empty domain of letters, digits, dots and
    hyphens, a dot, and at least two letters. *)
Theorem email_validator_accepts_addresses (x : string) :
  validate_email x = true <->
  exists local domain tld,
    Py.strip x = local +:+ "@" +:+ domain +:+ "." +:+ tld /\
    local <> EmptyString /\ Py.all_chars email_local_char local = true /\
    domain <> EmptyString /\ Py.all_chars email_domain_char domain = true /\
    (2 <= String.length tld)%nat /\ Py.all_chars Py.isalpha_char tld = true.
Proof.
  unfold validate_email. rewrite match_anchored_strip, fullmatch_spec. unfold EMAIL_RE.
  split.
  - intros H. apply lang_cat_inv in H as (local & s1 & -> & Hl & H).
    apply lang_cat_inv in H as (at_ & s2 & -> & Hat & H).
    apply lang_cat_inv in H as (domain & s3 & -> & Hd & H).
    apply lang_cat_inv in H as (dot & tld & -> & Hdot & Ht).
    apply lang_chr_inv in Hat. apply lang_chr_inv in Hdot. subst at_ dot.
    apply lang_plus_class in Hl as [Hl1 Hl2]. apply lang_plus_class in Hd as [Hd1 Hd2].
    apply lang_at_least_class in Ht as [Ht1 Ht2].
    apply truthy_true in Hl1. apply truthy_true in Hd1.
    exists local, domain, tld. intuition.
  - intros (local & domain & tld & -> & Hl1 & Hl2 & Hd1 & Hd2 & Ht1 & Ht2).
    apply truthy_true in Hl1. apply truthy_true in Hd1.
    constructor; [apply lang_plus_class; auto|].
    constructor; [apply lang_chr|].
    constructor; [apply lang_plus_class; auto|].
    constructor; [apply lang_chr|]. apply lang_at_least_class. auto.
Qed.

(** ** The first name *)

Lemma split_by_head sep s :
  exists t ts rest,
    Py.split_by sep s = t :: ts /\ s = t +:+ rest /\
    Py.all_chars (fun c => negb (sep c)) t = true /\
    (rest = EmptyString \/ exists c r, rest = String c r /\ sep c = true).
Proof.
  induction s as [|a s (t & ts & rest & Hs & -> & Ht & Hrest)]; cbn [Py.split_by].
  - exists EmptyString, [], EmptyString. auto.
  - destruct (sep a) eqn:Ha.
    + exists EmptyString, (Py.split_by sep (t +:+ rest)), (String a (t +:+ rest)).
      split; [reflexivity|]. split; [reflexivity|]. split; [reflexivity|].
      right. eauto.
    + rewrite Hs. exists (String a t), ts, rest.
      split; [reflexivity|]. split; [reflexivity|].
      split; [cbn; rewrite Ha; exact Ht|exact Hrest].
Qed.

(** X15. The first name used in the replies is the part of the stored
    name before its first space: it holds no space, the name is that
    part followed by nothing or by a space, and it is empty exactly when
    the stored name starts with a space.  (Without a stored name it is
    the word "there".) *)
Theorem first_name_is_the_prefix_before_a_space (name : string) :
  name <> EmptyString ->
  exists rest,
    name = first_name name +:+ rest /\
    Py.all_chars (fun c => negb (Py.is_char " " c)) (first_name name) = true /\
    (rest = EmptyString \/ exists r, rest = String " " r) /\
    (first_name name = EmptyString <-> exists r, name = String " " r).
Proof.
  intros Hne. unfold first_name, Py.split_on.
  rewrite (proj2 (truthy_true name) Hne).
  destruct (split_by_head (Py.is_char " ") name) as (t & ts & rest & -> & Hn & Ht & Hrest).
  cbn [hd]. exists rest.
  assert (Hrest' : rest = EmptyString \/ exists r, rest = String " " r).
  { destruct Hrest as [->|(c & r & -> & Hc)]; [auto|].
    apply is_char_eq in Hc. subst c. eauto. }
  split; [exact Hn|]. split; [exact Ht|]. split; [exact Hrest'|]. split.
  - intros ->. change (EmptyString +:+ rest) with rest in Hn.
    destruct Hrest' as [->|[r ->]]; [contradiction|eauto].
  - intros [r Hr]. rewrite Hr in Hn. destruct t as [|c t]; [reflexivity|].
    rewrite str_app_cons in Hn. injection Hn as <- _. discriminate.
Qed.

Lemma first_name_is_the_prefix_before_a_space_witness :
  "Jane Doe" <> EmptyString /\
  first_name "Jane Doe" = "Jane" /\
  exists rest, "Jane Doe" = first_name "Jane Doe" +:+ rest.
Proof.
  assert (H : "Jane Doe" <> EmptyString) by discriminate.
  split; [exact H|]. split; [reflexivity|].
  destruct (first_name_is_the_prefix_before_a_space "Jane Doe" H) as (rest & Hn & _).
  exists rest. exact Hn.
Defined.

(** ** The lines the question parser keeps *)

Lemma lstrip_prefix_space s :
  exists l, s = l +:+ Py.lstrip s /\ Py.all_chars Py.isspace l = true.
Proof.
  induction s as [|c s (l & IH & Hl)]; [exists EmptyString; auto|]. cbn [Py.lstrip].
  destruct (Py.isspace c) eqn:Hc; [|exists EmptyString; auto].
  exists (String c l). rewrite str_app_cons, <- IH. cbn. rewrite Hc. auto.
Qed.

Lemma rstrip_cons_inv s c t :
  Py.rstrip s = String c t -> exists u, s = String c u /\ Py.rstrip u = t.
Proof.
  destruct s as [|a u]; [discriminate|]. cbn [Py.rstrip].
  destruct (Py.isspace a && Py.is_empty (Py.rstrip u)); [discriminate|].
  intros [= -> <-]. eauto.
Qed.

Lemma isspace_not_dot c : Py.isspace c = true -> Py.is_char "." c = false.
Proof.
  intros H. destruct (Py.is_char "." c) eqn:E; [|reflexivity].
  apply is_char_eq in E. subst c. discriminate.
Qed.

Lemma isdigit_not_space c : Py.isdigit c = true -> Py.isspace c = false.
Proof.
  unfold Py.isdigit, Py.isspace, Py.between. rewrite !andb_true_iff, !Nat.leb_le.
  intros [H1 H2].
  destruct (Nat.leb_spec 9 (Py.code c)); destruct (Nat.leb_spec (Py.code c) 13);
    destruct (Nat.leb_spec 28 (Py.code c)); destruct (Nat.leb_spec (Py.code c) 32);
    cbn; try reflexivity; lia.
Qed.

Lemma split1_numbered l d rest :
  Py.all_chars Py.isspace l = true -> Py.isdigit d = true ->
  Py.split1 "." (l +:+ String d (String "." rest)) = [l +:+ String d EmptyString; rest].
Proof.
  intros Hl Hd. induction l as [|c l IH].
  - change (EmptyString +:+ String d (String "." rest)) with (String d (String "." rest)).
    cbn [Py.split1]. rewrite (isdigit_not_dot _ Hd).
    rewrite (proj2 (is_char_eq "." ".") eq_refl). reflexivity.
  - cbn [Py.all_chars] in Hl. apply andb_true_iff in Hl as [Hc Hl].
    rewrite !str_app_cons. cbn [Py.split1]. rewrite (isspace_not_dot _ Hc), (IH Hl).
    reflexivity.
Qed.

(** X16. The question parser keeps a line exactly when the line is
    optional whitespace, one digit and a dot, followed by anything; the
    question it reads is what follows that dot, stripped.  A number of
    two digits is therefore not recognised. *)
Theorem numbered_lines_are_digit_dot :
  (forall line,
     is_numbered line = true <->
     exists l d rest,
       line = l +:+ String d (String "." rest) /\
       Py.all_chars Py.isspace l = true /\ Py.isdigit d = true) /\
  (forall l d rest,
     Py.all_chars Py.isspace l = true -> Py.isdigit d = true ->
     question_text (l +:+ String d (String "." rest)) = Py.strip rest) /\
  (forall d1 d2 rest,
     Py.isdigit d1 = true -> Py.isdigit d2 = true ->
     is_numbered (String d1 (String d2 rest)) = false).
Proof.
  assert (Hiff : forall line,
            is_numbered line = true <->
            exists l d rest,
              line = l +:+ String d (String "." rest) /\
              Py.all_chars Py.isspace l = true /\ Py.isdigit d = true).
  { intros line. unfold is_numbered. rewrite andb_true_iff, match_prefix_numbered. split.
    - intros [_ (d & rest0 & Hs & Hd)]. unfold Py.strip in Hs.
      apply rstrip_cons_inv in Hs as (u & Hu & Hs).
      apply rstrip_cons_inv in Hs as (t & -> & _).
      destruct (lstrip_prefix_space line) as (l & Hline & Hl). rewrite Hu in Hline.
      exists l, d, t. auto.
    - intros (l & d & rest & -> & Hl & Hd). split.
      + apply truthy_app_r. reflexivity.
      + exists d, (Py.rstrip rest). split; [|exact Hd]. unfold Py.strip.
        rewrite (lstrip_app_space _ _ Hl). cbn [Py.lstrip].
        rewrite (isdigit_not_space _ Hd). cbn [Py.rstrip].
        rewrite (isdigit_not_space _ Hd). change (Py.isspace ".") with false.
        reflexivity. }
  split; [exact Hiff|]. split.
  - intros l d rest Hl Hd. unfold question_text.
    rewrite (split1_numbered _ _ _ Hl Hd). reflexivity.
  - intros d1 d2 rest H1 H2. destruct (is_numbered _) eqn:E; [|reflexivity].
    apply Hiff in E as (l & d & rest' & Hline & Hl & Hd). exfalso.
    destruct l as [|c l].
    + change (EmptyString +:+ String d (String "." rest'))
        with (String d (String "." rest')) in Hline.
      injection Hline as _ -> _. discriminate.
    + rewrite str_app_cons in Hline. injection Hline as -> _.
      cbn [Py.all_chars] in Hl. apply andb_true_iff in Hl as [Hc _].
      rewrite (isdigit_not_space _ H1) in Hc. discriminate.
Qed.

(** ** Initialising a session that already exists *)

Lemma init_key_present key v (ss : gmap string Value) :
  is_Some (ss !! key) -> init_key key v ss = ss.
Proof. intros [w Hw]. unfold init_key. rewrite Hw. reflexivity. Qed.

Lemma init_key_keeps key v (ss : gmap string Value) k w :
  ss !! k = Some w -> init_key key v ss !! k = Some w.
Proof.
  intros Hk. unfold init_key. destruct (ss !! key) eqn:E; [exact Hk|].
  rewrite lookup_insert_ne; [exact Hk|]. intros ->. congruence.
Qed.

Lemma init_key_defined key v (ss : gmap string Value) :
  is_Some (init_key key v ss !! key).
Proof.
  unfold init_key. destruct (ss !! key) eqn:E; [rewrite E; eauto|].
  rewrite lookup_insert_eq. eauto.
Qed.

Lemma init_key_keeps_defined key v (ss : gmap string Value) k :
  is_Some (ss !! k) -> is_Some (init_key key v ss !! k).
Proof. intros [w Hw]. exists w. apply init_key_keeps. exact Hw. Qed.

Lemma initialize_defines_keys (ss : gmap string Value) key :
  In key SESSION_KEYS -> is_Some (initialize_session_state ss !! key).
Proof.
  unfold SESSION_KEYS, initialize_session_state. cbn [In].
  intros H. repeat destruct H as [<-|H]; try contradiction;
    repeat first [apply init_key_defined | apply init_key_keeps_defined].
Qed.

Lemma initialize_fixed (ss : gmap string Value) :
  (forall key, In key SESSION_KEYS -> is_Some (ss !! key)) ->
  initialize_session_state ss = ss.
Proof.
  intros H. unfold initialize_session_state. cbv zeta.
  rewrite (init_key_present "candidate_data" _ ss) by (apply H; cbn; auto 10).
  rewrite (init_key_present "current_step" _ ss) by (apply H; cbn; auto 10).
  rewrite (init_key_present "conversation_phase" _ ss) by (apply H; cbn; auto 10).
  rewrite (init_key_present "technical_questions" _ ss) by (apply H; cbn; auto 10).
  rewrite (init_key_present "technical_answers" _ ss) by (apply H; cbn; auto 10).
  rewrite (init_key_present "current_question_index" _ ss) by (apply H; cbn; auto 10).
  rewrite (init_key_present "retry_count" _ ss) by (apply H; cbn; auto 10).
  apply init_key_present, H. cbn. auto 10.
Qed.

(** X17. Initialising never overwrites: a key the session already holds
    keeps its value, the eight keys of the engine are present afterwards,
    and initialising again changes nothing; so the rerun that follows
    each turn leaves the state of the turn as it is. *)
Theorem initialization_keeps_existing_state (ss : gmap string Value) :
  (forall key v, ss !! key = Some v -> initialize_session_state ss !! key = Some v) /\
  (forall key, In key SESSION_KEYS -> is_Some (initialize_session_state ss !! key)) /\
  initialize_session_state (initialize_session_state ss) = initialize_session_state ss /\
  (forall s, initialize_session_state (write_state s) = write_state s /\
             read_state (initialize_session_state (write_state s)) = Some s).
Proof.
  split; [|split; [|split]].
  - intros key v H. unfold initialize_session_state.
    repeat apply init_key_keeps. exact H.
  - intros key. apply initialize_defines_keys.
  - apply initialize_fixed. intros key. apply initialize_defines_keys.
  - intros s.
    assert (E : initialize_session_state (write_state s) = write_state s).
    { apply initialize_fixed. unfold SESSION_KEYS, write_state. cbn [In].
      intros key H. repeat destruct H as [<-|H]; try contradiction;
        repeat (rewrite lookup_insert_eq || (rewrite lookup_insert_ne by discriminate));
        eauto. }
    split; [exact E|]. rewrite E. apply read_write_state.
Qed.

(** ** The sidebar: hiding the email and the phone number *)

Lemma str_length_app s t :
  String.length (s +:+ t) = (String.length s + String.length t)%nat.
Proof. induction s as [|c s IH]; [reflexivity|]. rewrite str_app_cons. cbn. lia. Qed.

Lemma str_take_length n s : String.length (str_take n s) = Nat.min n (String.length s).
Proof.
  revert s. induction n as [|n IH]; intros [|c s]; cbn; try reflexivity.
  rewrite IH. reflexivity.
Qed.

Lemma str_drop_length n s : String.length (str_drop n s) = (String.length s - n)%nat.
Proof.
  revert s. induction n as [|n IH]; intros [|c s]; cbn; try reflexivity; try lia.
  apply IH.
Qed.

Lemma str_repeat_length c n :
  String.length (str_repeat (String c EmptyString) n) = n.
Proof.
  induction n as [|n IH]; [reflexivity|]. cbn [str_repeat].
  rewrite str_length_app, IH. reflexivity.
Qed.

Lemma all_chars_app p s t :
  Py.all_chars p (s +:+ t) = Py.all_chars p s && Py.all_chars p t.
Proof.
  induction s as [|c s IH]; [reflexivity|]. rewrite str_app_cons. cbn.
  rewrite IH, andb_assoc. reflexivity.
Qed.

Lemma all_chars_impl (p q : ascii -> bool) s :
  (forall c, p c = true -> q c = true) ->
  Py.all_chars p s = true -> Py.all_chars q s = true.
Proof.
  intros Hpq. induction s as [|c s IH]; [reflexivity|]. cbn.
  rewrite !andb_true_iff. intros [Hc Hs]. auto.
Qed.

Lemma filter_chars_length p s :
  (String.length (Py.filter_chars p s) <= String.length s)%nat.
Proof. induction s as [|c s IH]; cbn; [lia|]. destruct (p c); cbn; lia. Qed.

Lemma rstrip_suffix_space s :
  exists r, s = Py.rstrip s +:+ r /\ Py.all_chars Py.isspace r = true.
Proof.
  induction s as [|c s (r & IH & Hr)]; [exists EmptyString; auto|]. cbn [Py.rstrip].
  destruct (Py.isspace c) eqn:Hc; destruct (Py.is_empty (Py.rstrip s)) eqn:He; cbn [andb].
  - apply is_empty_true in He. rewrite He in IH.
    exists (String c s). split; [reflexivity|]. cbn. rewrite Hc.
    change (EmptyString +:+ r) with r in IH. rewrite IH. exact Hr.
  - exists r. rewrite str_app_cons, <- IH. auto.
  - exists r. rewrite str_app_cons, <- IH. auto.
  - exists r. rewrite str_app_cons, <- IH. auto.
Qed.

(** A text is its stripped form between two runs of whitespace. *)
Lemma strip_decompose s :
  exists l r, s = l +:+ Py.strip s +:+ r /\
              Py.all_chars Py.isspace l = true /\ Py.all_chars Py.isspace r = true.
Proof.
  destruct (lstrip_prefix_space s) as (l & Hl & Hls).
  destruct (rstrip_suffix_space (Py.lstrip s)) as (r & Hr & Hrs).
  exists l, r. unfold Py.strip. rewrite <- Hr, <- Hl. auto.
Qed.

Lemma split_by_no_separator sep s :
  Py.all_chars (fun c => negb (sep c)) s = true -> Py.split_by sep s = [s].
Proof.
  induction s as [|c s IH]; [reflexivity|]. cbn [Py.all_chars Py.split_by].
  rewrite andb_true_iff, negb_true_iff. intros [Hc Hs]. rewrite Hc, (IH Hs). reflexivity.
Qed.

Lemma split_by_one_separator sep a c b :
  Py.all_chars (fun c => negb (sep c)) a = true -> sep c = true ->
  Py.all_chars (fun c => negb (sep c)) b = true ->
  Py.split_by sep (a +:+ String c b) = [a; b].
Proof.
  intros Ha Hc Hb. induction a as [|x a IH].
  - change (EmptyString +:+ String c b) with (String c b). cbn [Py.split_by].
    rewrite Hc, (split_by_no_separator _ _ Hb). reflexivity.
  - cbn [Py.all_chars] in Ha. apply andb_true_iff in Ha as [Hx Ha].
    apply negb_true_iff in Hx. rewrite str_app_cons. cbn [Py.split_by].
    rewrite Hx, (IH Ha). reflexivity.
Qed.

Lemma no_at_space c : Py.isspace c = true -> negb (Py.is_char "@" c) = true.
Proof.
  intros H. destruct (Py.is_char "@" c) eqn:E; [|reflexivity].
  apply is_char_eq in E. subst c. discriminate.
Qed.

Lemma no_at_local c : email_local_char c = true -> negb (Py.is_char "@" c) = true.
Proof.
  intros H. destruct (Py.is_char "@" c) eqn:E; [|reflexivity].
  apply is_char_eq in E. subst c. discriminate.
Qed.

Lemma no_at_domain c : email_domain_char c = true -> negb (Py.is_char "@" c) = true.
Proof.
  intros H. destruct (Py.is_char "@" c) eqn:E; [|reflexivity].
  apply is_char_eq in E. subst c. discriminate.
Qed.

Lemma no_at_alpha c : Py.isalpha_char c = true -> negb (Py.is_char "@" c) = true.
Proof.
  intros H. destruct (Py.is_char "@" c) eqn:E; [|reflexivity].
  apply is_char_eq in E. subst c. discriminate.
Qed.

Lemma validate_email_parts x :
  validate_email x = true ->
  exists local domain tld,
    Py.strip x = local +:+ "@" +:+ domain +:+ "." +:+ tld /\
    local <> EmptyString /\ Py.all_chars email_local_char local = true /\
    domain <> EmptyString /\ Py.all_chars email_domain_char domain = true /\
    (2 <= String.length tld)%nat /\ Py.all_chars Py.isalpha_char tld = true.
Proof.
  unfold validate_email. rewrite match_anchored_strip, fullmatch_spec. unfold EMAIL_RE.
  intros H. apply lang_cat_inv in H as (local & s1 & -> & Hl & H).
  apply lang_cat_inv in H as (at_ & s2 & -> & Hat & H).
  apply lang_cat_inv in H as (domain & s3 & -> & Hd & H).
  apply lang_cat_inv in H as (dot & tld & -> & Hdot & Ht).
  apply lang_chr_inv in Hat. apply lang_chr_inv in Hdot. subst at_ dot.
  apply lang_plus_class in Hl as [Hl1 Hl2]. apply lang_plus_class in Hd as [Hd1 Hd2].
  apply lang_at_least_class in Ht as [Ht1 Ht2].
  apply truthy_true in Hl1. apply truthy_true in Hd1.
  exists local, domain, tld. intuition.
Qed.

(** An accepted email has one [@], with a non-empty part before it, and
    is at least six characters long. *)
Lemma validate_email_shape value :
  validate_email value = true ->
  exists name_part domain_part,
    value = name_part +:+ "@" +:+ domain_part /\
    Py.all_chars (fun c => negb (Py.is_char "@" c)) name_part = true /\
    Py.all_chars (fun c => negb (Py.is_char "@" c)) domain_part = true /\
    (1 <= String.length name_part)%nat /\ (4 <= String.length domain_part)%nat.
Proof.
  intros H. apply validate_email_parts in H
    as (local & domain & tld & Hs & Hl1 & Hl2 & Hd1 & Hd2 & Ht1 & Ht2).
  destruct (strip_decompose value) as (l & r & Hv & Hl & Hr). rewrite Hs in Hv.
  exists (l +:+ local), (domain +:+ "." +:+ tld +:+ r).
  split; [rewrite Hv, !str_app_assoc; reflexivity|].
  rewrite !all_chars_app, !str_length_app.
  rewrite (all_chars_impl _ _ _ no_at_space Hl), (all_chars_impl _ _ _ no_at_space Hr),
    (all_chars_impl _ _ _ no_at_local Hl2), (all_chars_impl _ _ _ no_at_domain Hd2),
    (all_chars_impl _ _ _ no_at_alpha Ht2).
  split; [reflexivity|]. split; [reflexivity|].
  destruct local; [contradiction|]. destruct domain; [contradiction|]. cbn. lia.
Qed.

(** A text with one [@] is hidden without an error. *)
Lemma mask_email_parts name_part domain_part :
  Py.all_chars (fun c => negb (Py.is_char "@" c)) name_part = true ->
  Py.all_chars (fun c => negb (Py.is_char "@" c)) domain_part = true ->
  mask_email (name_part +:+ "@" +:+ domain_part) =
    Ok (str_take 2 name_part +:+
        str_repeat "*" (String.length name_part - 2) +:+ "@" +:+ domain_part).
Proof.
  intros Hn Hd. unfold mask_email.
  assert (Hc : Py.contains "@" (name_part +:+ "@" +:+ domain_part) = true).
  { apply contains_spec. exists name_part, domain_part. reflexivity. }
  rewrite Hc. unfold Py.split_on.
  change ("@" +:+ domain_part) with (String "@" domain_part).
  rewrite (split_by_one_separator _ _ _ _ Hn (proj2 (is_char_eq "@" "@") eq_refl) Hd).
  unfold str_times, str_len.
  replace (Z.to_nat (Z.of_nat (String.length name_part) - 2))
    with (String.length name_part - 2)%nat by lia.
  reflexivity.
Qed.

(** X18. The sidebar never fails on an accepted email and hides it in
    place: the text before the [@] keeps its first two characters and
    has every other one replaced by a star, the [@] and what follows are
    shown as they are, and the result is as long as the email. *)
Theorem accepted_email_is_masked (value : string) :
  validate_email value = true ->
  exists name_part domain_part,
    value = name_part +:+ "@" +:+ domain_part /\
    display_value "email" value =
      Ok (str_take 2 name_part +:+
          str_repeat "*" (String.length name_part - 2) +:+ "@" +:+ domain_part) /\
    String.length (str_take 2 name_part +:+
                   str_repeat "*" (String.length name_part - 2) +:+ "@" +:+ domain_part)
      = String.length value.
Proof.
  intros H. destruct (validate_email_shape value H)
    as (name_part & domain_part & Hv & Hn & Hd & Hn1 & Hd4).
  exists name_part, domain_part. split; [exact Hv|]. split.
  - unfold display_value. cbn [String.eqb Ascii.eqb Bool.eqb orb andb].
    assert (Hlen : (5 <? str_len value) = true).
    { apply Z.ltb_lt. unfold str_len. rewrite Hv, !str_length_app. cbn. lia. }
    rewrite Hlen. rewrite Hv at 1. apply mask_email_parts; assumption.
  - rewrite Hv, !str_length_app, str_take_length, str_repeat_length. lia.
Qed.

Lemma accepted_email_is_masked_witness :
  validate_email "jane@example.com" = true /\
  display_value "email" "jane@example.com" = Ok "ja**@example.com" /\
  exists name_part domain_part,
    "jane@example.com" = name_part +:+ "@" +:+ domain_part /\
    display_value "email" "jane@example.com" =
      Ok (str_take 2 name_part +:+
          str_repeat "*" (String.length name_part - 2) +:+ "@" +:+ domain_part).
Proof.
  assert (H : validate_email "jane@example.com" = true) by reflexivity.
  split; [exact H|]. split; [reflexivity|].
  destruct (accepted_email_is_masked "jane@example.com" H) as (n & d & Hv & Hm & _).
  exists n, d. split; [exact Hv|exact Hm].
Defined.

(** X19. The sidebar hides an accepted phone number: it shows the first
    three and the last three of its digits with one star for each digit
    in between, at least four of them, and nothing of the punctuation. *)
Theorem accepted_phone_is_masked (value : string) :
  validate_phone value = true ->
  let digits := Py.filter_chars Py.isdigit value in
  display_value "phone" value =
    Ok (str_take 3 digits +:+ str_repeat "*" (String.length digits - 6) +:+
        str_last 3 digits) /\
  String.length (str_take 3 digits) = 3%nat /\
  String.length (str_last 3 digits) = 3%nat /\
  (4 <= String.length digits - 6)%nat /\
  String.length (str_take 3 digits +:+ str_repeat "*" (String.length digits - 6) +:+
                 str_last 3 digits) = String.length digits.
Proof.
  intros H. cbv zeta. unfold validate_phone in H. apply Z.leb_le in H.
  pose proof (filter_chars_length Py.isdigit value) as Hle.
  set (digits := Py.filter_chars Py.isdigit value) in *.
  split; [|split; [|split; [|split]]].
  - unfold display_value. cbn [String.eqb Ascii.eqb Bool.eqb orb andb].
    assert (Hlen : (5 <? str_len value) = true) by (apply Z.ltb_lt; unfold str_len; lia).
    rewrite Hlen. unfold mask_phone. cbv zeta. fold digits.
    assert (H6 : (6 <? str_len digits) = true) by (apply Z.ltb_lt; unfold str_len; lia).
    rewrite H6. unfold str_times, str_len.
    replace (Z.to_nat (Z.of_nat (String.length digits) - 6))
      with (String.length digits - 6)%nat by lia.
    reflexivity.
  - rewrite str_take_length. lia.
  - unfold str_last. rewrite str_drop_length. lia.
  - lia.
  - unfold str_last.
    rewrite !str_length_app, str_take_length, str_repeat_length, str_drop_length. lia.
Qed.

Lemma accepted_phone_is_masked_witness :
  validate_phone "+1 (555) 123-4567" = true /\
  display_value "phone" "+1 (555) 123-4567" = Ok "155*****567".
Proof.
  assert (H : validate_phone "+1 (555) 123-4567" = true) by reflexivity.
  split; [exact H|].
  destruct (accepted_phone_is_masked "+1 (555) 123-4567" H) as (Hm & _).
  rewrite Hm. reflexivity.
Defined.

(** ** The sidebar: the collected information *)

Lemma display_value_defined key value :
  (key = "email" -> validate_email value = true) ->
  exists display, display_value key value = Ok display.
Proof.
  intros H. unfold display_value.
  destruct ((String.eqb key "email" || String.eqb key "phone") && (5 <? str_len value));
    [|eauto].
  destruct (String.eqb key "email") eqn:E; [|eauto].
  apply String.eqb_eq in E.
  destruct (validate_email_shape value (H E)) as (n & d & -> & Hn & Hd & _).
  rewrite (mask_email_parts n d Hn Hd). eauto.
Qed.

Lemma information_items_defined kvs :
  Forall (fun kv => Py.truthy (snd kv) = true ->
                    exists display, display_value (fst kv) (snd kv) = Ok display) kvs ->
  exists lines, information_items kvs = Ok lines.
Proof.
  induction 1 as [|[key value] kvs Hkv _ [lines IH]]; cbn [information_items].
  - eexists. reflexivity.
  - destruct (Py.truthy value) eqn:Hv; [|eauto].
    destruct (Hkv Hv) as [display Hd]. cbn [fst snd] in Hd.
    rewrite Hd, IH. eexists. reflexivity.
Qed.

(** The sidebar writes the information of a profile whose email, if
    any, passed the email rule. *)
Lemma information_lines_defined d :
  (cd_email d <> EmptyString -> validate_email (cd_email d) = true) ->
  exists lines, information_lines d = Ok lines.
Proof.
  intros He. unfold information_lines.
  destruct (existsb _ _); [|eexists; reflexivity].
  apply information_items_defined. unfold items, all_fields. cbn [map field_key get_field].
  repeat constructor; cbn [fst snd]; intros Hv; apply display_value_defined;
    try discriminate.
  intros _. apply He. apply truthy_true. exact Hv.
Qed.

(** A profile that no session produces: its email has two [@], and the
    sidebar fails on it. *)
Example information_lines_two_ats :
  information_lines (set_field Email "a@b@c.de" empty_candidate_data) = Raise ValueError.
Proof. reflexivity. Qed.

Section Sidebar.

Variable float_repr : spec_float -> string.
Variable json_loads : string -> option Json.

(** X20. In a session the sidebar always writes the collected
    information: unpacking the two sides of the [@] never fails, because
    a stored email passed the email rule and so has exactly one [@]. *)
Theorem sidebar_information_never_raises (s : State) :
  reachable float_repr json_loads s ->
  exists lines, information_lines (candidate_data s) = Ok lines.
Proof.
  intros Hr. apply information_lines_defined.
  apply (session_values_valid float_repr json_loads s Hr).
Qed.

End Sidebar.

Lemma sidebar_information_never_raises_witness :
  reachable sample_float_repr sample_json_loads after_first_answer /\
  cd_email (candidate_data after_first_answer) = "jane@example.com" /\
  exists lines, information_lines (candidate_data after_first_answer) = Ok lines.
Proof.
  assert (H : reachable sample_float_repr sample_json_loads after_first_answer)
    by apply after_first_answer_reachable.
  split; [exact H|]. split; [reflexivity|].
  apply (sidebar_information_never_raises sample_float_repr sample_json_loads _ H).
Defined.

(** ** The sidebar: the progress bar *)

Lemma stages_spec k : 0 <= k <= 14 -> In k stages.
Proof.
  intros H. unfold stages. apply in_map_iff. exists (Z.to_nat k).
  split; [lia|]. apply in_seq. lia.
Qed.

(** The bar of a well-formed state is the bar of its stage. *)
Lemma progress_stage_spec s :
  wf s -> 0 <= progress_stage s <= 14 /\ progress s = stage_progress (progress_stage s).
Proof.
  unfold wf, wfb, progress, progress_stage. destruct s as [d st ph qs ans cur rc ms].
  cbn [conversation_phase current_step current_question_index technical_questions
       technical_answers candidate_data].
  destruct ph; rewrite ?andb_true_iff; intros H.
  - split; [lia|reflexivity].
  - destruct H as [[[H1 H2] _] _]. apply Z.leb_le in H1, H2. split; [lia|].
    assert (E : st = 1 \/ st = 2 \/ st = 3 \/ st = 4 \/ st = 5 \/ st = 6 \/ st = 7) by lia.
    destruct E as [->|[->|[->|[->|[->|[->| ->]]]]]]; reflexivity.
  - split; [lia|reflexivity].
  - destruct H as [[[[[_ _] Hq] _] H1] H2].
    apply Z.eqb_eq in Hq. apply Z.leb_le in H1. apply Z.ltb_lt in H2. split; [lia|].
    rewrite Hq.
    assert (E : cur = 0 \/ cur = 1 \/ cur = 2 \/ cur = 3 \/ cur = 4) by lia.
    destruct E as [->|[->|[->|[->| ->]]]]; reflexivity.
  - split; [lia|reflexivity].
  - split; [lia|reflexivity].
Qed.

Lemma stage_progress_in_range k :
  0 <= k <= 14 ->
  Float.leb (Float.of_Z 0) (number_value (stage_progress k)) = true /\
  Float.leb (number_value (stage_progress k)) (Float.of_Z 1) = true.
Proof.
  intros H. apply stages_spec in H. revert k H. apply (proj1 (List.Forall_forall _ _)).
  unfold stages. cbn [seq map]. repeat constructor; vm_compute; reflexivity.
Qed.

Lemma stage_progress_monotone j k :
  0 <= j -> j <= k -> k <= 14 ->
  number_leb (stage_progress j) (stage_progress k) = true.
Proof.
  intros Hj Hjk Hk.
  assert (H : forallb (fun a => forallb (fun b =>
                 implb (a <=? b) (number_leb (stage_progress a) (stage_progress b)))
                 stages) stages = true) by (vm_compute; reflexivity).
  rewrite forallb_forall in H. specialize (H j (stages_spec j ltac:(lia))).
  rewrite forallb_forall in H. specialize (H k (stages_spec k ltac:(lia))).
  apply Z.leb_le in Hjk. rewrite Hjk in H. exact H.
Qed.

Section ProgressBar.

Variable float_repr : spec_float -> string.
Variable json_loads : string -> option Json.

(** A step of a session never lowers the stage. *)
Lemma session_step_stage s s' :
  wf s -> session_step float_repr json_loads s s' ->
  progress_stage s <= progress_stage s'.
Proof.
  intros Hwf Hstep.
  destruct (session_step_fields float_repr json_loads s s' Hwf Hstep)
    as (chat & prompt & r & _ & _ & _ & Hst & Hph & _ & _ & Hcur & _).
  pose proof (proj1 (progress_stage_spec s Hwf)) as Hb.
  unfold progress_stage in *. rewrite Hph, Hst, Hcur. clear Hph Hst Hcur Hstep.
  unfold wf, wfb in Hwf.
  unfold next_phase, step_accepts, turn_core.
  destruct (Py.any_in EXIT_KEYWORDS (Py.lower prompt)); [lia|].
  destruct (conversation_phase s) eqn:Hp.
  - state_simpl. lia.
  - destruct (lookup_key (current_step s) DATA_STEPS) as [st|e]; cbn [andb].
    + destruct (validation st chat prompt); cbn [andb].
      * destruct (accepted_state_data (field st) prompt (append_message user prompt s))
          as [_ Hs]. rewrite Hs. destruct (current_step s =? 7); state_simpl; lia.
      * state_simpl. lia.
    + state_simpl. lia.
  - destruct (Py.any_in AFFIRMATIVE (Py.lower prompt)); [|lia].
    unfold confirmed_state. state_simpl.
    rewrite !andb_true_iff in Hwf. destruct Hwf as [_ Hc]. apply Z.eqb_eq in Hc. lia.
  - rewrite !andb_true_iff in Hwf. destruct Hwf as [[[[[_ _] Hq] _] H1] H2].
    apply Z.eqb_eq in Hq. apply Z.leb_le in H1. apply Z.ltb_lt in H2.
    unfold answered_state. state_simpl. rewrite Hq.
    destruct (current_question_index s + 1 <? 5) eqn:E; state_simpl; lia.
  - lia.
  - lia.
Qed.

(** X21. In a session the value handed to the progress bar lies between
    0 and 1, whatever the step index and the question index are. *)
Theorem progress_stays_in_range (s : State) :
  reachable float_repr json_loads s ->
  Float.leb (Float.of_Z 0) (number_value (progress s)) = true /\
  Float.leb (number_value (progress s)) (Float.of_Z 1) = true.
Proof.
  intros Hr. pose proof (reachable_wf float_repr json_loads s Hr) as Hwf.
  destruct (progress_stage_spec s Hwf) as [Hb ->].
  apply stage_progress_in_range. exact Hb.
Qed.

(** X22. A turn of a session never moves the progress bar backwards:
    the value computed after the turn is at least the value computed
    before it. *)
Theorem progress_never_goes_back (s s' : State) :
  reachable float_repr json_loads s ->
  session_step float_repr json_loads s s' ->
  number_leb (progress s) (progress s') = true.
Proof.
  intros Hr Hstep. pose proof (reachable_wf float_repr json_loads s Hr) as Hwf.
  assert (Hwf' : wf s').
  { apply (reachable_wf float_repr json_loads). eapply rtc_r; [exact Hr|exact Hstep]. }
  destruct (progress_stage_spec s Hwf) as [Hb ->].
  destruct (progress_stage_spec s' Hwf') as [Hb' ->].
  pose proof (session_step_stage s s' Hwf Hstep).
  apply stage_progress_monotone; lia.
Qed.

End ProgressBar.

Lemma progress_stays_in_range_witness :
  reachable sample_float_repr sample_json_loads after_first_answer /\
  progress after_first_answer =
    NFloat (float_add F0_8 (float_mul (int_true_div 1 5) F0_15)) /\
  Float.leb (Float.of_Z 0) (number_value (progress after_first_answer)) = true /\
  Float.leb (number_value (progress after_first_answer)) (Float.of_Z 1) = true.
Proof.
  assert (H : reachable sample_float_repr sample_json_loads after_first_answer)
    by apply after_first_answer_reachable.
  split; [exact H|]. split; [reflexivity|].
  apply (progress_stays_in_range sample_float_repr sample_json_loads _ H).
Defined.

Lemma progress_never_goes_back_witness :
  reachable sample_float_repr sample_json_loads greeted /\
  session_step sample_float_repr sample_json_loads greeted named /\
  number_leb (progress greeted) (progress named) = true.
Proof.
  assert (H : reachable sample_float_repr sample_json_loads greeted)
    by apply greeted_reachable.
  assert (Hs : session_step sample_float_repr sample_json_loads greeted named).
  { apply (processed_turn _ _ failing_client greeted "Jane Doe" named
             ("Hi there! Thanks for sharing your full name. Next, " +:+
              "Could you please share your email address?"));
      [discriminate|discriminate|reflexivity]. }
  split; [exact H|]. split; [exact Hs|].
  apply (progress_never_goes_back sample_float_repr sample_json_loads _ _ H Hs).
Defined.

(** ** The sidebar: the technical assessment *)

Lemma map_constant {A B} (f : A -> B) (b : B) (l : list A) :
  (forall x, In x l -> f x = b) -> map f l = replicate (length l) b.
Proof.
  induction l as [|a l IH]; intros H; [reflexivity|]. cbn.
  rewrite (H a (or_introl eq_refl)), IH; [reflexivity|].
  intros x Hx. apply H. right. exact Hx.
Qed.

Lemma question_status_range cursor n :
  (cursor < n)%nat ->
  map (fun i => question_status (Z.of_nat cursor) (Z.of_nat i)) (seq 0 n) =
    replicate cursor Completed ++ Current :: replicate (n - cursor - 1) Pending.
Proof.
  intros H.
  replace n with (cursor + S (n - cursor - 1))%nat at 1 by lia.
  rewrite seq_app, map_app. cbn [seq map Nat.add]. f_equal; [|f_equal].
  - transitivity (replicate (length (seq 0 cursor)) Completed);
      [|rewrite length_seq; reflexivity].
    apply map_constant.
    intros i Hi. apply in_seq in Hi. unfold question_status.
    destruct (Z.ltb_spec (Z.of_nat i) (Z.of_nat cursor)); [reflexivity|lia].
  - unfold question_status. rewrite Z.ltb_irrefl, Z.eqb_refl. reflexivity.
  - transitivity (replicate (length (seq (S cursor) (n - cursor - 1))) Pending);
      [|rewrite length_seq; reflexivity].
    apply map_constant.
    intros i Hi. apply in_seq in Hi. unfold question_status.
    destruct (Z.ltb_spec (Z.of_nat i) (Z.of_nat cursor)); [lia|].
    destruct (Z.eqb_spec (Z.of_nat i) (Z.of_nat cursor)); [lia|reflexivity].
Qed.

(** X23. With the question index inside the question list, the sidebar
    marks the questions before it as completed, the one at the index as
    current and the ones after it as pending: exactly one question is
    current. *)
Theorem one_question_is_current (s : State) :
  0 <= current_question_index s < Z.of_nat (length (technical_questions s)) ->
  question_statuses s =
    replicate (Z.to_nat (current_question_index s)) Completed ++
    Current ::
    replicate (length (technical_questions s) - Z.to_nat (current_question_index s) - 1)
              Pending.
Proof.
  intros H. unfold question_statuses.
  rewrite <- (question_status_range (Z.to_nat (current_question_index s))) by lia.
  rewrite Z2Nat.id by lia. reflexivity.
Qed.

Lemma one_question_is_current_witness :
  0 <= current_question_index after_first_answer
    < Z.of_nat (length (technical_questions after_first_answer)) /\
  question_statuses after_first_answer = [Completed; Current; Pending; Pending; Pending].
Proof.
  assert (H : 0 <= current_question_index after_first_answer
                < Z.of_nat (length (technical_questions after_first_answer)))
    by (cbn; lia).
  split; [exact H|].
  rewrite (one_question_is_current after_first_answer H). reflexivity.
Defined.

Section Assessment.

Variable float_repr : spec_float -> string.
Variable json_loads : string -> option Json.

(** X24. In a session the technical assessment is written exactly
    during the technical questions: a progress line and one line for
    each of the five questions, one of which is marked as current. *)
Theorem assessment_is_shown_during_questions (s : State) :
  reachable float_repr json_loads s ->
  (assessment_lines s <> [] <-> conversation_phase s = TECHNICAL_QUESTIONS) /\
  (conversation_phase s = TECHNICAL_QUESTIONS ->
   length (assessment_lines s) = 6%nat /\ In Current (question_statuses s)).
Proof.
  intros Hr. pose proof (reachable_wf float_repr json_loads s Hr) as Hwf.
  assert (Hq : conversation_phase s = TECHNICAL_QUESTIONS ->
               length (technical_questions s) = 5%nat /\
               0 <= current_question_index s < 5).
  { intros Hp. destruct (wf_technical_questions _ Hwf Hp) as (_ & _ & Hq & _ & Hi).
    split; lia. }
  split; [split|].
  - unfold assessment_lines. destruct (technical_questions s); [congruence|].
    destruct (decide (conversation_phase s = TECHNICAL_QUESTIONS)); [auto|congruence].
  - intros Hp. destruct (Hq Hp) as [Hl _]. unfold assessment_lines.
    destruct (technical_questions s); [discriminate|].
    destruct (decide (conversation_phase s = TECHNICAL_QUESTIONS)); [discriminate|].
    contradiction.
  - intros Hp. destruct (Hq Hp) as [Hl Hi]. split.
    + unfold assessment_lines. destruct (technical_questions s) eqn:E; [discriminate|].
      destruct (decide (conversation_phase s = TECHNICAL_QUESTIONS)); [|contradiction].
      cbn [length] in *. rewrite length_map, length_seq. lia.
    + unfold question_statuses.
      assert (E : current_question_index s =
                  Z.of_nat (Z.to_nat (current_question_index s))) by lia.
      rewrite E, question_status_range by lia.
      apply in_or_app. right. left. reflexivity.
Qed.

End Assessment.

Lemma assessment_is_shown_during_questions_witness :
  reachable sample_float_repr sample_json_loads after_first_answer /\
  conversation_phase after_first_answer = TECHNICAL_QUESTIONS /\
  length (assessment_lines after_first_answer) = 6%nat.
Proof.
  assert (H : reachable sample_float_repr sample_json_loads after_first_answer)
    by apply after_first_answer_reachable.
  split; [exact H|]. split; [reflexivity|].
  apply (assessment_is_shown_during_questions sample_float_repr sample_json_loads _ H).
  reflexivity.
Defined.

(** ** Where the model is consulted *)

(** Below step 5 the catalogue holds the four rules that are computed
    from the input alone, and nothing below step 1. *)
Lemma lookup_early_step k :
  k < 5 ->
  lookup_key k DATA_STEPS = Raise KeyError \/
  exists st, lookup_key k DATA_STEPS = Ok st /\
             forall chat chat' x, validation st chat x = validation st chat' x.
Proof.
  intros H. unfold lookup_key, DATA_STEPS. cbn.
  repeat match goal with
         | |- context [k =? ?n] => destruct (Z.eqb_spec k n); [subst k|]
         end;
    try lia; try (right; eexists; split; [reflexivity|reflexivity]).
  left. reflexivity.
Qed.

Section ModelUse.

Variable float_repr : spec_float -> string.
Variable json_loads : string -> option Json.

(** X25. During the data collection the model is not consulted before
    step 5: the name, the email, the phone number and the experience are
    judged, stored and acknowledged the same way whatever the model
    would answer. *)
Theorem early_steps_ignore_the_model (chat chat' : Client) (s : State) (prompt : string) :
  conversation_phase s = DATA_COLLECTION -> current_step s < 5 ->
  turn float_repr json_loads chat s prompt = turn float_repr json_loads chat' s prompt.
Proof.
  intros Hp Hs. rewrite !turn_unfold.
  destruct (Py.any_in EXIT_KEYWORDS (Py.lower prompt)); [reflexivity|].
  unfold phase_branch. cbn [conversation_phase append_message with_messages].
  rewrite Hp. unfold data_collection_turn.
  cbn [current_step candidate_data append_message with_messages].
  destruct (lookup_early_step (current_step s) Hs) as [->|(st & -> & Hv)]; [reflexivity|].
  cbn [mbind result_bind]. rewrite (Hv chat chat' prompt). reflexivity.
Qed.

End ModelUse.

Lemma early_steps_ignore_the_model_witness :
  conversation_phase named = DATA_COLLECTION /\ current_step named < 5 /\
  turn sample_float_repr sample_json_loads agreeing_client named "jane@example.com" =
    turn sample_float_repr sample_json_loads refusing_client named "jane@example.com".
Proof.
  assert (Hp : conversation_phase named = DATA_COLLECTION) by reflexivity.
  assert (Hs : current_step named < 5) by (cbn; lia).
  split; [exact Hp|]. split; [exact Hs|].
  apply (early_steps_ignore_the_model sample_float_repr sample_json_loads
           agreeing_client refusing_client named "jane@example.com" Hp Hs).
Defined.
